(** * RAG chat orchestrator: a shallow embedding of [app/rag/chat.py]

    The development follows the source file: the Python string operations
    of the prompt renderer, the records of the data model, the generator
    monad in which [ChatService._chat] is written, the database session
    and the repositories, the service, and the auxiliary read operations.
    The collaborators outside the file (template engine, database, models,
    graph and vector stores, tracing) are the fields of one record, [Env];
    each may answer or raise.  Python exceptions are values of [Exn]: the
    subclasses of [Exception], which are the ones [chat] catches.  Token
    streams are finite.  Theorems come after all definitions. *)

From Stdlib Require Import String Ascii List Bool Arith ZArith Lia.
From stdpp Require Import base option list strings gmap.

Set Warnings "-register-all".

(** ** Python [str] operations

    A Python [str] is a sequence of code points; it is modelled by the
    string of its UTF-8 bytes.  Searching and replacing a substring act on
    the bytes as they act on the code points, since no encoded code point
    occurs inside another; slicing and [len] count code points, so they
    skip the continuation bytes of a code point. *)

Module PyStr.

(** A byte [10xxxxxx] continues the code point that the bytes before it
    began. *)
Definition continuation (c : ascii) : bool :=
  match c with
  | Ascii _ _ _ _ _ _ b6 b7 => b7 && negb b6
  end.

(** [len(s)] *)
Fixpoint len (s : string) : nat :=
  match s with
  | EmptyString => 0
  | String c s' => if continuation c then len s' else S (len s')
  end.

(** [s.startswith(p)] *)
Fixpoint startswith (p s : string) : bool :=
  match p with
  | EmptyString => true
  | String a p' =>
      match s with
      | EmptyString => false
      | String b s' => if Ascii.eqb a b then startswith p' s' else false
      end
  end.

(** The bytes of [s] from byte [n] on. *)
Fixpoint drop (n : nat) (s : string) : string :=
  match n, s with
  | O, _ => s
  | S _, EmptyString => EmptyString
  | S k, String _ s' => drop k s'
  end.

(** [s[:n]]: the first [n] code points, each with its continuation
    bytes. *)
Fixpoint take (n : nat) (s : string) : string :=
  match s with
  | EmptyString => EmptyString
  | String c s' =>
      if continuation c then String c (take n s')
      else match n with
           | O => EmptyString
           | S k => String c (take k s')
           end
  end.

(** Left-to-right scan of [str.replace] for a non-empty pattern: [skip]
    counts the characters of a match that are still to be consumed. *)
Fixpoint replace_from (old new : string) (skip : nat) (s : string) : string :=
  match s with
  | EmptyString => EmptyString
  | String c s' =>
      match skip with
      | S k => replace_from old new k s'
      | O =>
          if startswith old s
          then new +:+ replace_from old new (String.length old - 1) s'
          else String c (replace_from old new O s')
      end
  end.

(** [str.replace] with the empty pattern puts [new] around every character. *)
Fixpoint interleave (new s : string) : string :=
  match s with
  | EmptyString => new
  | String c s' =>
      if continuation c then String c (interleave new s')
      else new +:+ String c (interleave new s')
  end.

(** [s.replace(old, new)]: non-overlapping occurrences, leftmost first. *)
Definition replace (old new s : string) : string :=
  match old with
  | EmptyString => interleave new s
  | String _ _ => replace_from old new O s
  end.

(** [sub in s] *)
Fixpoint contains (sub s : string) : bool :=
  startswith sub s
  || match s with
     | EmptyString => false
     | String _ s' => contains sub s'
     end.

(** Python truthiness of a [str]. *)
Definition truthy (s : string) : bool :=
  match s with EmptyString => false | String _ _ => true end.

End PyStr.

(** ** Exceptions and fallible results *)

(** Subclasses of Python's [Exception] that the orchestrator can meet. *)
Inductive Exn : Type :=
| IndexError
| IntegrityError
| TemplateError (msg : string)
| UpstreamError (msg : string).

Definition res (A : Type) : Type := Exn + A.

(** Values handed to the template engine as keyword arguments. *)
Inductive JValue : Type :=
| JStr (s : string)
| JInt (z : Z)
| JBool (b : bool)
| JList (l : list JValue)
| JDict (d : list (string * JValue)).

Definition Kwargs : Type := list (string * JValue).

(** [llama_index.core.prompts.base.PromptTemplate] *)
Record PromptTemplate : Type := { template : string }.

(** ** The prompt renderer, [get_prompt_by_jinja2_template] *)

(** The markers that the renderer turns into placeholders. *)
Definition markers : list string :=
  ["<<query_str>>"; "<<context_str>>"; "<<existing_answer>>";
   "<<context_msg>>"].

Section Prompt.

(** [jinja2.Template(template_string).render] applied to the keyword
    arguments, an outside library: any result, or a raised [TemplateError]. *)
Variable jinja2_render : string -> Kwargs -> res string.

(** The chain of [.replace] calls applied to the rendered text. *)
Definition escape_braces (rendered : string) : string :=
  PyStr.replace "<<context_msg>>" "{context_msg}"
    (PyStr.replace "<<existing_answer>>" "{existing_answer}"
      (PyStr.replace "<<context_str>>" "{context_str}"
        (PyStr.replace "<<query_str>>" "{query_str}"
          (PyStr.replace "}" "}}"
            (PyStr.replace "{" "{{" rendered))))).

Definition get_prompt_by_jinja2_template
    (template_string : string) (kwargs : Kwargs) : res PromptTemplate :=
  match jinja2_render template_string kwargs with
  | inl e => inl e
  | inr rendered => inr {| template := escape_braces rendered |}
  end.

End Prompt.

(** ** The downstream formatter

    llama-index formats a prompt with [str.format]; [format_fields] is the
    scan that [str.format] performs: [{{] and [}}] are literal braces, a
    single [{] opens a replacement field that runs to the next [}], and a
    single [}] outside a field is an error.  The result is the list of field
    names met, or [None] where [str.format] raises [ValueError]. *)

Module Formatter.

Definition lbrace : ascii := "{"%char.
Definition rbrace : ascii := "}"%char.

(** Reads a field name up to the closing brace; [None] at end of text or
    at a nested opening brace. *)
Fixpoint read_field (s : string) : option (string * string) :=
  match s with
  | EmptyString => None
  | String c s' =>
      if Ascii.eqb c rbrace then Some (EmptyString, s')
      else if Ascii.eqb c lbrace then None
      else match read_field s' with
           | Some (name, rest) => Some (String c name, rest)
           | None => None
           end
  end.

Fixpoint format_fields_fuel (fuel : nat) (s : string) : option (list string) :=
  match fuel with
  | O => match s with EmptyString => Some [] | _ => None end
  | S fuel' =>
      match s with
      | EmptyString => Some []
      | String c s' =>
          if Ascii.eqb c lbrace then
            match s' with
            | String c' s'' =>
                if Ascii.eqb c' lbrace then format_fields_fuel fuel' s''
                else match read_field s' with
                     | Some (name, rest) =>
                         option_map (cons name) (format_fields_fuel fuel' rest)
                     | None => None
                     end
            | EmptyString => None
            end
          else if Ascii.eqb c rbrace then
            match s' with
            | String c' s'' =>
                if Ascii.eqb c' rbrace then format_fields_fuel fuel' s''
                else None
            | EmptyString => None
            end
          else format_fields_fuel fuel' s'
      end
  end.

Definition format_fields (s : string) : option (list string) :=
  format_fields_fuel (String.length s) s.

(** The placeholders that are left for the formatter. *)
Definition deferred : list string :=
  ["query_str"; "context_str"; "existing_answer"; "context_msg"].

(** Text made of ordinary characters, doubled braces and deferred
    placeholders only. *)
Inductive escaped : string -> Prop :=
| escaped_nil : escaped EmptyString
| escaped_char c s :
    c <> lbrace -> c <> rbrace -> escaped s -> escaped (String c s)
| escaped_open s : escaped s -> escaped (String lbrace (String lbrace s))
| escaped_close s : escaped s -> escaped (String rbrace (String rbrace s))
| escaped_field p s :
    In p deferred -> escaped s ->
    escaped (String lbrace (p +:+ String rbrace s)).

Fixpoint mentions (c : ascii) (s : string) : bool :=
  match s with
  | EmptyString => false
  | String c' s' => Ascii.eqb c c' || mentions c s'
  end.

Fixpoint brace_free (s : string) : bool :=
  match s with
  | EmptyString => true
  | String c s' =>
      negb (Ascii.eqb c lbrace) && negb (Ascii.eqb c rbrace) && brace_free s'
  end.

End Formatter.

(** ** Data model *)

Definition UUID : Type := N.
Definition datetime : Type := Z.

(** Modelled from the spec: [app.rag.types.MessageRole] is not among the
    sources.  A role is one of user, assistant, system; it is a
    string-valued enumeration, like the provider enumerations of
    [app/types.py], so a stored role compares equal to the member with the
    same value. *)
Module MessageRole.
Definition USER : string := "user".
Definition ASSISTANT : string := "assistant".
Definition SYSTEM : string := "system".
End MessageRole.

(** [llama_index.core.base.llms.base.ChatMessage] *)
Module ChatMessage.
Record t : Type := { role : string; content : string }.
End ChatMessage.

Module User.
Record t : Type := { id : UUID; email : string; is_superuser : bool }.
End User.

(** [app/models/chat.py] *)
Module DBChat.
Record t : Type := {
  id : UUID;
  title : string;
  engine_id : Z;
  engine_options : JValue;
  deleted_at : option datetime;
  user_id : option UUID;
  browser_id : string
}.
End DBChat.

(** Modelled from the spec: the message model is not among the sources.
    Its attributes are the ones of section 3 that the orchestrator reads or
    writes; [id] is [None] and [ordinal] is [0] until the row is inserted. *)
Module DBChatMessage.
Record t : Type := {
  id : option nat;
  chat_id : option UUID;
  role : string;
  ordinal : nat;
  content : string;
  trace_url : option string;
  sources : list JValue;
  updated_at : option datetime;
  finished_at : option datetime
}.

(** The constructor call [DBChatMessage(role=..., content=...)]. *)
Definition make (role content : string) : t :=
  {| id := None; chat_id := None; role := role; ordinal := 0;
     content := content; trace_url := None; sources := [];
     updated_at := None; finished_at := None |}.
End DBChatMessage.

(** ** Engine configuration

    Modelled from the spec: [app.rag.chat_config] is not among the sources.
    The fields are those the orchestrator reads (section 6, ConfigResolver). *)

Record KnowledgeGraphOption : Type := {
  enabled : bool;
  depth : Z;
  include_meta : bool;
  with_degree : bool;
  using_intent_search : bool;
  relationship_meta_filters : JValue
}.

Record LLMOption : Type := {
  intent_graph_knowledge : string;
  normal_graph_knowledge : string;
  condense_question_prompt : string;
  text_qa_prompt : string;
  refine_prompt : string
}.

Definition Reranker : Type := string.
Definition MetadataFilter : Type := string.
Definition LLM : Type := string.
Definition EmbedModel : Type := string.

Record ChatEngineConfig : Type := {
  llm : LLMOption;
  knowledge_graph : KnowledgeGraphOption;
  get_db_chat_engine_id : Z;
  get_metadata_filter : MetadataFilter;
  screenshot : JValue
}.

Inductive NodePostprocessor : Type :=
| MetadataPostFilter (f : MetadataFilter)
| RerankPostprocessor (r : Reranker).

(** The three tracing settings read from [SiteSetting]. *)
Record SiteSetting : Type := {
  langfuse_host : string;
  langfuse_secret_key : string;
  langfuse_public_key : string
}.

(** ** Events

    Modelled from the spec: [app.rag.chat_stream_protocol] and the
    enumerations [ChatEventType] and [ChatMessageSate] are not among the
    sources; their members are those of section 6. *)

Inductive ChatEventType : Type :=
| TEXT_PART | DATA_PART | MESSAGE_ANNOTATIONS_PART | ERROR_PART.

Inductive ChatMessageSate : Type :=
| TRACE | SOURCE_NODES | REFINE_QUESTION | SEARCH_RELATED_DOCUMENTS | FINISHED.

#[global] Instance ChatMessageSate_eq_dec : EqDecision ChatMessageSate.
Proof. solve_decision. Defined.

(** [display] and [context] are [None] where the constructor call leaves
    them out. *)
Record ChatStreamMessagePayload : Type := {
  state : ChatMessageSate;
  display : option string;
  context : option JValue
}.

(** The three records as they are when the event is produced: the consumer
    serialises each event before it asks for the next one. *)
Record ChatStreamDataPayload : Type := {
  chat_of : DBChat.t;
  user_message : DBChatMessage.t;
  assistant_message : DBChatMessage.t
}.

Inductive Payload : Type :=
| PText (s : string)
| PData (d : ChatStreamDataPayload)
| PMessage (m : ChatStreamMessagePayload).

Record ChatEvent : Type := { event_type : ChatEventType; payload : Payload }.

(** ** Collaborator calls and their arguments *)

(** Keyword arguments of [retrieve_with_weight];
    [arg_relationship_meta_filters] is [None] where the call does not pass
    the argument and the callee's default applies. *)
Record RetrieveArgs : Type := {
  arg_query : string;
  arg_embedding : list ChatMessage.t;
  arg_depth : Z;
  arg_include_meta : bool;
  arg_with_degree : bool;
  arg_relationship_meta_filters : option JValue;
  arg_with_chunks : bool
}.

(** Keyword arguments of [vector_index.as_query_engine]. *)
Record QueryEngineArgs : Type := {
  arg_llm : LLM;
  node_postprocessors : list NodePostprocessor;
  streaming : bool;
  text_qa_template : PromptTemplate;
  refine_template : PromptTemplate;
  similarity_top_k : nat
}.

(** A finite generator of text fragments: it ends normally, or by raising. *)
Inductive TokenStream : Type :=
| Exhausted
| Fragment (word : string) (rest : TokenStream)
| Broken (e : Exn).

Record StreamingResponse : Type := {
  source_nodes : list string;
  response_gen : TokenStream
}.

Record IntentSearchResult : Type := {
  queries : JValue;
  graph_entities : list JValue;
  graph_relationships : list JValue
}.

Inductive ExtCall : Type :=
| CallIntentSearch (question : string) (history : list ChatMessage.t)
    (include_meta : bool) (filters : JValue)
| CallIndexRetrieve (a : RetrieveArgs)
| CallStoreRetrieve (a : RetrieveArgs)
| CallPredict (model : LLM) (prompt : PromptTemplate)
| CallQuery (a : QueryEngineArgs) (question : string).

(** ** The world: database session, collaborator calls, clock, server log *)

Inductive Row : Type :=
| RChat (c : DBChat.t)
| RMessage (m : DBChatMessage.t).

Record World : Type := {
  chats : gmap UUID DBChat.t;          (* committed rows of [chats] *)
  chat_messages : list DBChatMessage.t; (* committed rows of the messages *)
  pending : list Row;                  (* added to the session, uncommitted *)
  calls : list ExtCall;                (* collaborator calls made so far *)
  ticks : nat;                         (* readings of the clock so far *)
  logged : list Exn                    (* [logger.exception] *)
}.

Inductive DbOp : Type := OpGet | OpExec | OpCommit | OpRefresh.

(** The collaborators of the orchestrator.  Each call returns a value or
    raises; nothing else is assumed of them.

    - [jinja2_render]: the template engine;
    - [db_fault]: the failure, if any, of a statement sent to the database
      in a given world;
    - [uuid4]: the key that the model's base class draws for a new chat;
    - [now]: the successive readings of the clock;
    - [site_setting]: the tracing settings of the site;
    - [load_from_db], [get_reranker], [get_llama_llm], [get_fast_llama_llm],
      [get_fast_dspy_lm], [get_default_embedding_model]: the configuration
      resolver and its factories;
    - [langfuse_trace], [langfuse_handler]: the tracing backend, giving a
      trace identifier and a trace URL;
    - [intent_based_search], [index_retrieve_with_weight]: the knowledge
      graph index; [store_retrieve_with_weight]: the graph store;
    - [predict]: the fast language model; [query]: the query engine built
      by [as_query_engine] over the vector store, with its answer;
    - [select_documents]: the rows of the documents that own the given
      chunks; [engine_name_of]: [chat.engine.name]. *)
Record Env : Type := {
  jinja2_render : string -> Kwargs -> res string;
  db_fault : DbOp -> World -> option Exn;
  uuid4 : World -> UUID;
  now : nat -> datetime;
  site_setting : SiteSetting;
  load_from_db : World -> string -> res ChatEngineConfig;
  get_reranker : ChatEngineConfig -> World -> res (option Reranker);
  langfuse_trace : World -> string -> res (string * string);
  langfuse_handler : World -> string -> res unit;
  get_default_embedding_model : World -> res EmbedModel;
  get_llama_llm : ChatEngineConfig -> World -> res LLM;
  get_fast_llama_llm : ChatEngineConfig -> World -> res LLM;
  get_fast_dspy_lm : ChatEngineConfig -> World -> res LLM;
  intent_based_search :
    string -> list ChatMessage.t -> bool -> JValue -> res IntentSearchResult;
  index_retrieve_with_weight :
    RetrieveArgs -> res (list JValue * list JValue * list JValue);
  store_retrieve_with_weight :
    RetrieveArgs -> res (list JValue * list JValue * list JValue);
  predict : LLM -> PromptTemplate -> res string;
  query : QueryEngineArgs -> string -> res StreamingResponse;
  select_documents : World -> list string -> list (Z * string * string);
  engine_name_of : World -> DBChat.t -> res string
}.

(** ** The generator monad

    A generator body run from a world emits events, changes the world and
    ends by falling off its end with a value, by raising, or by a bare
    [return]. *)

Inductive Outcome (A : Type) : Type :=
| Value (a : A)
| Raised (e : Exn)
| Returned.
Arguments Value {A} a.
Arguments Raised {A} e.
Arguments Returned {A}.

Definition Gen (A : Type) : Type :=
  World -> list ChatEvent * World * Outcome A.

Definition gen_ret {A} (a : A) : Gen A := fun w => ([], w, Value a).

Definition gen_bind {A B} (k : A -> Gen B) (m : Gen A) : Gen B :=
  fun w =>
    match m w with
    | (evs, w1, Value a) =>
        match k a w1 with
        | (evs', w2, o) => (evs ++ evs', w2, o)
        end
    | (evs, w1, Raised e) => (evs, w1, Raised e)
    | (evs, w1, Returned) => (evs, w1, Returned)
    end.

#[global] Instance Gen_ret : MRet Gen := @gen_ret.
#[global] Instance Gen_bind : MBind Gen := @gen_bind.

Definition yield (ev : ChatEvent) : Gen unit := fun w => ([ev], w, Value tt).
Definition raise {A} (e : Exn) : Gen A := fun w => ([], w, Raised e).
Definition return_ {A} : Gen A := fun w => ([], w, Returned).
Definition ask : Gen World := fun w => ([], w, Value w).
Definition put (w : World) : Gen unit := fun _ => ([], w, Value tt).

Definition lift {A} (r : res A) : Gen A :=
  match r with
  | inl e => raise e
  | inr a => mret a
  end.

(** Runs a collaborator call that reads the world. *)
Definition perform {A} (f : World -> res A) : Gen A := w ← ask; lift (f w).

Definition record_call (c : ExtCall) : Gen unit :=
  w ← ask;
  put {| chats := chats w; chat_messages := chat_messages w;
         pending := pending w; calls := calls w ++ [c];
         ticks := ticks w; logged := logged w |}.

(** [datetime.now(UTC)] *)
Definition datetime_now (E : Env) : Gen datetime :=
  w ← ask;
  put {| chats := chats w; chat_messages := chat_messages w;
         pending := pending w; calls := calls w;
         ticks := S (ticks w); logged := logged w |};;
  mret (now E (ticks w)).

#[global] Instance res_ret : MRet res := fun _ a => inr a.
#[global] Instance res_bind : MBind res :=
  fun _ _ k r => match r with inl e => inl e | inr a => k a end.

(** ** The database session (sqlmodel [Session]) *)

Definition set_pending (rs : list Row) (w : World) : World :=
  {| chats := chats w; chat_messages := chat_messages w; pending := rs;
     calls := calls w; ticks := ticks w; logged := logged w |}.

Definition set_tables (cs : gmap UUID DBChat.t) (ms : list DBChatMessage.t)
    (w : World) : World :=
  {| chats := cs; chat_messages := ms; pending := pending w;
     calls := calls w; ticks := ticks w; logged := logged w |}.

Definition set_logged (l : list Exn) (w : World) : World :=
  {| chats := chats w; chat_messages := chat_messages w; pending := pending w;
     calls := calls w; ticks := ticks w; logged := l |}.

(** A statement sent to the database may fail. *)
Definition db_check (E : Env) (op : DbOp) : Gen unit :=
  w ← ask;
  match db_fault E op w with
  | Some e => raise e
  | None => mret tt
  end.

(** [session.get(DBChat, id)] *)
Definition session_get (E : Env) (id : UUID) : Gen (option DBChat.t) :=
  db_check E OpGet;;
  w ← ask;
  mret (chats w !! id).

(** [session.add(obj)] *)
Definition session_add (obj : Row) : Gen unit :=
  w ← ask;
  put (set_pending (pending w ++ [obj]) w).

(** The auto-increment key of a new message row. *)
Definition fresh_message_id (ms : list DBChatMessage.t) : nat :=
  S (foldr (fun m acc => Nat.max (default 0 (DBChatMessage.id m)) acc) 0 ms).

Definition with_message_id (i : nat) (m : DBChatMessage.t) : DBChatMessage.t :=
  {| DBChatMessage.id := Some i;
     DBChatMessage.chat_id := DBChatMessage.chat_id m;
     DBChatMessage.role := DBChatMessage.role m;
     DBChatMessage.ordinal := DBChatMessage.ordinal m;
     DBChatMessage.content := DBChatMessage.content m;
     DBChatMessage.trace_url := DBChatMessage.trace_url m;
     DBChatMessage.sources := DBChatMessage.sources m;
     DBChatMessage.updated_at := DBChatMessage.updated_at m;
     DBChatMessage.finished_at := DBChatMessage.finished_at m |}.

(** Writes one pending object: a chat is inserted under its key (a taken
    key is an integrity error); a message without a key is inserted under a
    fresh one, a message with a key replaces the row of that key. *)
Definition flush_row (obj : Row)
    (db : gmap UUID DBChat.t * list DBChatMessage.t)
    : res (Row * (gmap UUID DBChat.t * list DBChatMessage.t)) :=
  match obj with
  | RChat c =>
      match db.1 !! DBChat.id c with
      | Some _ => inl IntegrityError
      | None => inr (obj, (<[DBChat.id c := c]> db.1, db.2))
      end
  | RMessage m =>
      match DBChatMessage.id m with
      | None =>
          let m' := with_message_id (fresh_message_id db.2) m in
          inr (RMessage m', (db.1, db.2 ++ [m']))
      | Some i =>
          inr (obj,
               (db.1,
                map (fun x =>
                       if decide (DBChatMessage.id x = Some i) then m else x)
                    db.2))
      end
  end.

Fixpoint flush (objs : list Row)
    (db : gmap UUID DBChat.t * list DBChatMessage.t)
    : res (list Row * (gmap UUID DBChat.t * list DBChatMessage.t)) :=
  match objs with
  | [] => inr ([], db)
  | obj :: rest =>
      match flush_row obj db with
      | inl e => inl e
      | inr (stored, db') =>
          match flush rest db' with
          | inl e => inl e
          | inr (stored_rest, db'') => inr (stored :: stored_rest, db'')
          end
      end
  end.

(** [session.commit()]: all pending objects are written, or none is.  The
    result lists the objects as stored. *)
Definition session_commit (E : Env) : Gen (list Row) :=
  db_check E OpCommit;;
  w ← ask;
  '(stored, db) ← lift (flush (pending w) (chats w, chat_messages w));
  put (set_pending [] (set_tables db.1 db.2 w));;
  mret stored.

(** ** Repositories *)

(** [BaseRepo.create] of [app/repositories/base_repo.py]: add, commit,
    refresh, return the object. *)
Definition BaseRepo_create (E : Env) (obj : Row) : Gen Row :=
  session_add obj;;
  stored ← session_commit E;
  db_check E OpRefresh;;
  mret (default obj (last stored)).

(** [BaseRepo.get] with [model_cls = DBChat] *)
Definition chat_repo_get (E : Env) (id : UUID) : Gen (option DBChat.t) :=
  session_get E id.

(** [BaseRepo.create] with [model_cls = DBChat] *)
Definition chat_repo_create (E : Env) (c : DBChat.t) : Gen DBChat.t :=
  obj ← BaseRepo_create E (RChat c);
  mret (match obj with RChat c' => c' | RMessage _ => c end).

Fixpoint insert_by_ordinal (m : DBChatMessage.t) (ms : list DBChatMessage.t)
    : list DBChatMessage.t :=
  match ms with
  | [] => [m]
  | x :: rest =>
      if DBChatMessage.ordinal m <=? DBChatMessage.ordinal x
      then m :: ms
      else x :: insert_by_ordinal m rest
  end.

Definition messages_of (c : DBChat.t) (ms : list DBChatMessage.t)
    : list DBChatMessage.t :=
  filter (fun m => DBChatMessage.chat_id m = Some (DBChat.id c)) ms.

(** Modelled from the spec: [chat_repo.get_messages] is not among the
    sources; section 6 gives it as the ordered list of the messages of a
    chat. *)
Definition chat_repo_get_messages (E : Env) (c : DBChat.t)
    : Gen (list DBChatMessage.t) :=
  db_check E OpExec;;
  w ← ask;
  mret (foldr insert_by_ordinal [] (messages_of c (chat_messages w))).

Definition last_ordinal (c : DBChat.t) (ms : list DBChatMessage.t) : nat :=
  foldr (fun m acc => Nat.max (DBChatMessage.ordinal m) acc) 0 (messages_of c ms).

Definition with_chat_ordinal (cid : UUID) (o : nat) (m : DBChatMessage.t)
    : DBChatMessage.t :=
  {| DBChatMessage.id := DBChatMessage.id m;
     DBChatMessage.chat_id := Some cid;
     DBChatMessage.role := DBChatMessage.role m;
     DBChatMessage.ordinal := o;
     DBChatMessage.content := DBChatMessage.content m;
     DBChatMessage.trace_url := DBChatMessage.trace_url m;
     DBChatMessage.sources := DBChatMessage.sources m;
     DBChatMessage.updated_at := DBChatMessage.updated_at m;
     DBChatMessage.finished_at := DBChatMessage.finished_at m |}.

(** Modelled from the spec: [chat_repo.create_message] is not among the
    sources.  Sections 3, 5 and 6: the message is attached to the chat, an
    ordinal that was not given is the next one of the chat, and the insert
    is a committed unit of its own. *)
Definition chat_repo_create_message (E : Env) (c : DBChat.t)
    (chat_message : DBChatMessage.t) : Gen DBChatMessage.t :=
  o ← (if DBChatMessage.ordinal chat_message =? 0
       then db_check E OpExec;;
            w ← ask;
            mret (S (last_ordinal c (chat_messages w)))
       else mret (DBChatMessage.ordinal chat_message));
  obj ← BaseRepo_create E
          (RMessage (with_chat_ordinal (DBChat.id c) o chat_message));
  mret (match obj with RMessage m => m | RChat _ => chat_message end).

(** ** [ChatService] *)

Record ChatService : Type := {
  user : option User.t;
  browser_id : string;
  engine_name : string;
  chat_engine_config : ChatEngineConfig;
  db_chat_engine_id : Z;
  _reranker : option Reranker;
  _metadata_filter : MetadataFilter;
  _node_postprocessors : list NodePostprocessor;
  _similarity_top_k : nat;
  enable_langfuse : bool
}.

(** [ChatService.__init__] *)
Definition ChatService_init (E : Env) (db_session : World)
    (user : option User.t) (browser_id engine_name : string)
    : res ChatService :=
  cfg ← load_from_db E db_session engine_name;
  reranker ← get_reranker E cfg db_session;
  let metadata_filter := get_metadata_filter cfg in
  let '(postprocessors, top_k) :=
    match reranker with
    | Some r =>
        ([MetadataPostFilter metadata_filter; RerankPostprocessor r], 100)
    | None => ([MetadataPostFilter metadata_filter], 10)
    end in
  mret {| user := user;
          browser_id := browser_id;
          engine_name := engine_name;
          chat_engine_config := cfg;
          db_chat_engine_id := get_db_chat_engine_id cfg;
          _reranker := reranker;
          _metadata_filter := metadata_filter;
          _node_postprocessors := postprocessors;
          _similarity_top_k := top_k;
          enable_langfuse :=
            PyStr.truthy (langfuse_host (site_setting E))
            && PyStr.truthy (langfuse_secret_key (site_setting E))
            && PyStr.truthy (langfuse_public_key (site_setting E)) |}.

Definition text_part (s : string) : ChatEvent :=
  {| event_type := TEXT_PART; payload := PText s |}.

Definition error_part (s : string) : ChatEvent :=
  {| event_type := ERROR_PART; payload := PText s |}.

Definition data_part (c : DBChat.t) (um am : DBChatMessage.t) : ChatEvent :=
  {| event_type := DATA_PART;
     payload := PData {| chat_of := c; user_message := um;
                         assistant_message := am |} |}.

Definition annotation (st : ChatMessageSate) (disp : option string)
    (ctx : option JValue) : ChatEvent :=
  {| event_type := MESSAGE_ANNOTATIONS_PART;
     payload := PMessage {| state := st; display := disp; context := ctx |} |}.

(** [ChatService._parse_chat_messages]: [chat_messages[-1]] raises
    [IndexError] on the empty list. *)
Definition _parse_chat_messages (chat_messages : list ChatMessage.t)
    : res (string * list ChatMessage.t) :=
  match last chat_messages with
  | None => inl IndexError
  | Some m => inr (ChatMessage.content m, removelast chat_messages)
  end.

Definition message_value (m : ChatMessage.t) : JValue :=
  JDict [("role", JStr (ChatMessage.role m));
         ("content", JStr (ChatMessage.content m))].

(** The loop over [enumerate(chat_history)] that stores the history of a
    new chat, from index [i] on. *)
Fixpoint create_history (E : Env) (c : DBChat.t) (i : nat)
    (chat_history : list ChatMessage.t) : Gen unit :=
  match chat_history with
  | [] => mret tt
  | m :: rest =>
      chat_repo_create_message E c
        {| DBChatMessage.id := None;
           DBChatMessage.chat_id := None;
           DBChatMessage.role := ChatMessage.role m;
           DBChatMessage.ordinal := i + 1;
           DBChatMessage.content := ChatMessage.content m;
           DBChatMessage.trace_url := None;
           DBChatMessage.sources := [];
           DBChatMessage.updated_at := None;
           DBChatMessage.finished_at := None |};;
      create_history E c (S i) rest
  end.

(** The assistant message as it is created: no content yet. *)
Definition assistant_placeholder (trace_url : string) : DBChatMessage.t :=
  {| DBChatMessage.id := None;
     DBChatMessage.chat_id := None;
     DBChatMessage.role := MessageRole.ASSISTANT;
     DBChatMessage.ordinal := 0;
     DBChatMessage.content := "";
     DBChatMessage.trace_url := Some trace_url;
     DBChatMessage.sources := [];
     DBChatMessage.updated_at := None;
     DBChatMessage.finished_at := None |}.

(** The local variables of [_chat] once both messages of the turn are
    stored. *)
Record TurnState : Type := {
  db_chat_obj : DBChat.t;
  user_question : string;
  chat_history : list ChatMessage.t;
  trace_id : string;
  trace_url_of : string;
  db_user_message : DBChatMessage.t;
  db_assistant_message : DBChatMessage.t
}.

(** [ChatService._chat], from its first line to the creation of the two
    messages of the turn. *)
Definition _chat_open (E : Env) (self : ChatService)
    (chat_messages : list ChatMessage.t) (chat_id : option UUID)
    : Gen TurnState :=
  '(user_question, chat_history) ← lift (_parse_chat_messages chat_messages);
  '(db_chat_obj, chat_history) ←
    match chat_id with
    | Some cid =>
        found ← chat_repo_get E cid;
        match found with
        | None => yield (error_part "Chat not found");; return_
        | Some c =>
            stored ← chat_repo_get_messages E c;
            mret (c, map (fun m =>
                            {| ChatMessage.role := DBChatMessage.role m;
                               ChatMessage.content := DBChatMessage.content m |})
                         stored)
        end
    | None =>
        w ← ask;
        c ← chat_repo_create E
              {| DBChat.id := uuid4 E w;
                 DBChat.title := PyStr.take 100 user_question;
                 DBChat.engine_id := db_chat_engine_id self;
                 DBChat.engine_options := screenshot (chat_engine_config self);
                 DBChat.deleted_at := None;
                 DBChat.user_id := User.id <$> user self;
                 DBChat.browser_id := browser_id self |};
        create_history E c 0 chat_history;;
        mret (c, chat_history)
    end;
  '(trace_id, trace_url) ←
    (if enable_langfuse self
     then perform (fun w =>
            langfuse_trace E w
              (match user self with
               | Some u => User.email u
               | None => "anonymous-" +:+ browser_id self
               end))
     else mret ("", ""));
  db_user_message ←
    chat_repo_create_message E db_chat_obj
      (DBChatMessage.make MessageRole.USER user_question);
  db_assistant_message ←
    chat_repo_create_message E db_chat_obj (assistant_placeholder trace_url);
  mret {| db_chat_obj := db_chat_obj;
          user_question := user_question;
          chat_history := chat_history;
          trace_id := trace_id;
          trace_url_of := trace_url;
          db_user_message := db_user_message;
          db_assistant_message := db_assistant_message |}.

(** The inner function [_get_llamaindex_callback_manager]. *)
Definition _get_llamaindex_callback_manager (E : Env) (self : ChatService)
    (trace_id : string) : Gen unit :=
  if enable_langfuse self
  then perform (fun w => langfuse_handler E w trace_id)
  else mret tt.

(** Step 1 of [_chat]: entities, relations, chunks and the rendered graph
    knowledge.  [chunks] is [None] on the branch that never binds it. *)
Definition retrieve_graph_knowledge (E : Env) (self : ChatService)
    (user_question : string) (chat_history : list ChatMessage.t)
    : Gen (list JValue * list JValue * option (list JValue) * string) :=
  let kg_config := knowledge_graph (chat_engine_config self) in
  if enabled kg_config then
    if using_intent_search kg_config then
      record_call (CallIntentSearch user_question chat_history true
                     (relationship_meta_filters kg_config));;
      result ← lift (intent_based_search E user_question chat_history true
                       (relationship_meta_filters kg_config));
      graph_knowledges ←
        lift (get_prompt_by_jinja2_template (jinja2_render E)
                (intent_graph_knowledge (llm (chat_engine_config self)))
                [("sub_queries", queries result)]);
      mret (graph_entities result, graph_relationships result, None,
            template graph_knowledges)
    else
      let args :=
        {| arg_query := user_question;
           arg_embedding := [];
           arg_depth := depth kg_config;
           arg_include_meta := include_meta kg_config;
           arg_with_degree := with_degree kg_config;
           arg_relationship_meta_filters :=
             Some (relationship_meta_filters kg_config);
           arg_with_chunks := false |} in
      record_call (CallIndexRetrieve args);;
      '(entities, relations, chunks) ← lift (index_retrieve_with_weight E args);
      graph_knowledges ←
        lift (get_prompt_by_jinja2_template (jinja2_render E)
                (normal_graph_knowledge (llm (chat_engine_config self)))
                [("entities", JList entities);
                 ("relationships", JList relations)]);
      mret (entities, relations, Some chunks, template graph_knowledges)
  else mret ([], [], Some [], "").

(** The loop over [response.response_gen]. *)
Fixpoint stream_text (gen : TokenStream) (response_text : string)
    : Gen string :=
  match gen with
  | Exhausted => mret response_text
  | Fragment word rest =>
      yield (text_part word);;
      stream_text rest (response_text +:+ word)
  | Broken e => raise e
  end.

(** [ChatService._get_source_documents] *)
Definition _get_source_documents (E : Env) (response : StreamingResponse)
    : Gen (list JValue) :=
  db_check E OpExec;;
  w ← ask;
  mret (map (fun '(doc_id, doc_name, source_uri) =>
               JDict [("id", JInt doc_id); ("name", JStr doc_name);
                      ("source_uri", JStr source_uri)])
            (select_documents E w (source_nodes response))).

(** The keyword arguments that [_chat] gives to [as_query_engine]. *)
Definition query_engine_args (self : ChatService) (_llm : LLM)
    (text_qa refine : PromptTemplate) : QueryEngineArgs :=
  {| arg_llm := _llm;
     node_postprocessors := _node_postprocessors self;
     streaming := true;
     text_qa_template := text_qa;
     refine_template := refine;
     similarity_top_k := _similarity_top_k self |}.

Definition finished_message (now1 now2 : datetime) (sources : list JValue)
    (response_text : string) (m : DBChatMessage.t) : DBChatMessage.t :=
  {| DBChatMessage.id := DBChatMessage.id m;
     DBChatMessage.chat_id := DBChatMessage.chat_id m;
     DBChatMessage.role := DBChatMessage.role m;
     DBChatMessage.ordinal := DBChatMessage.ordinal m;
     DBChatMessage.content := response_text;
     DBChatMessage.trace_url := DBChatMessage.trace_url m;
     DBChatMessage.sources := sources;
     DBChatMessage.updated_at := Some now1;
     DBChatMessage.finished_at := Some now2 |}.

(** [ChatService._chat], from the loading of the models to its last line. *)
Definition _chat_turn (E : Env) (self : ChatService) (st : TurnState)
    : Gen unit :=
  _embed_model ← perform (get_default_embedding_model E);
  _llm ← perform (get_llama_llm E (chat_engine_config self));
  _fast_llm ← perform (get_fast_llama_llm E (chat_engine_config self));
  _fast_dspy_lm ← perform (get_fast_dspy_lm E (chat_engine_config self));
  yield (text_part "");;
  yield (data_part (db_chat_obj st) (db_user_message st)
           (db_assistant_message st));;
  yield (annotation TRACE (Some "Start knowledge graph searching ...")
           (Some (JDict [("langfuse_url", JStr (trace_url_of st))])));;
  _get_llamaindex_callback_manager E self (trace_id st);;
  '(entities, relations, chunks, graph_knowledges_context) ←
    retrieve_graph_knowledge E self (user_question st) (chat_history st);
  yield (annotation REFINE_QUESTION (Some "Refine the user question ...")
           None);;
  _get_llamaindex_callback_manager E self (trace_id st);;
  condense ←
    lift (get_prompt_by_jinja2_template (jinja2_render E)
            (condense_question_prompt (llm (chat_engine_config self)))
            [("graph_knowledges", JStr graph_knowledges_context);
             ("chat_history", JList (map message_value (chat_history st)));
             ("question", JStr (user_question st))]);
  record_call (CallPredict _fast_llm condense);;
  refined_question ← lift (predict E _fast_llm condense);
  yield (annotation SEARCH_RELATED_DOCUMENTS
           (Some "Search related documents ...") None);;
  _get_llamaindex_callback_manager E self (trace_id st);;
  text_qa ←
    lift (get_prompt_by_jinja2_template (jinja2_render E)
            (text_qa_prompt (llm (chat_engine_config self)))
            [("graph_knowledges", JStr graph_knowledges_context)]);
  refine ←
    lift (get_prompt_by_jinja2_template (jinja2_render E)
            (refine_prompt (llm (chat_engine_config self)))
            [("graph_knowledges", JStr graph_knowledges_context)]);
  record_call (CallQuery (query_engine_args self _llm text_qa refine)
                 refined_question);;
  response ←
    lift (query E (query_engine_args self _llm text_qa refine)
            refined_question);
  source_documents ← _get_source_documents E response;
  yield (annotation SOURCE_NODES None (Some (JList source_documents)));;
  response_text ← stream_text (response_gen response) "";
  now1 ← datetime_now E;
  now2 ← datetime_now E;
  session_add (RMessage (finished_message now1 now2 source_documents
                           response_text (db_assistant_message st)));;
  session_commit E;;
  yield (annotation FINISHED None None);;
  yield (data_part (db_chat_obj st) (db_user_message st)
           (finished_message now1 now2 source_documents response_text
              (db_assistant_message st))).

(** [ChatService._chat] *)
Definition _chat (E : Env) (self : ChatService)
    (chat_messages : list ChatMessage.t) (chat_id : option UUID)
    : Gen unit :=
  st ← _chat_open E self chat_messages chat_id;
  _chat_turn E self st.

Definition generic_error : string :=
  "Encountered an error while processing the chat. Please try again later.".

(** [ChatService.chat]: the events of [_chat], and one error event in place
    of an exception that leaves it. *)
Definition chat (E : Env) (self : ChatService)
    (chat_messages : list ChatMessage.t) (chat_id : option UUID)
    (w : World) : list ChatEvent * World :=
  match _chat E self chat_messages chat_id w with
  | (evs, w', Raised e) =>
      (evs ++ [error_part generic_error], set_logged (logged w' ++ [e]) w')
  | (evs, w', _) => (evs, w')
  end.

(** ** Auxiliary read operations *)

(** [user_can_view_chat] *)
Definition user_can_view_chat (c : DBChat.t) (user : option User.t) : bool :=
  if bool_decide (is_Some (DBChat.user_id c))
     && negb (match user with
              | Some u =>
                  User.is_superuser u
                  || bool_decide (DBChat.user_id c = Some (User.id u))
              | None => false
              end)
  then false
  else true.

(** [get_chat_message_subgraph] *)
Definition get_chat_message_subgraph (E : Env)
    (chat_message : DBChatMessage.t) (chat_of_message : DBChat.t)
    : Gen (list JValue * list JValue) :=
  if negb (String.eqb (DBChatMessage.role chat_message) MessageRole.USER)
  then mret ([], [])
  else
    name ← perform (fun w => engine_name_of E w chat_of_message);
    chat_engine_config ← perform (fun w => load_from_db E w name);
    let kg_config := knowledge_graph chat_engine_config in
    _ ← perform (get_fast_dspy_lm E chat_engine_config);
    _ ← perform (get_default_embedding_model E);
    let args :=
      {| arg_query := DBChatMessage.content chat_message;
         arg_embedding := [];
         arg_depth := depth kg_config;
         arg_include_meta := include_meta kg_config;
         arg_with_degree := with_degree kg_config;
         arg_relationship_meta_filters := None;
         arg_with_chunks := false |} in
    record_call (CallStoreRetrieve args);;
    '(entities, relations, _) ← lift (store_retrieve_with_weight E args);
    mret (entities, relations).

(** ** Vocabulary of the properties *)

(** [wp m w Q]: the run of [m] from [w] satisfies [Q]. *)
Definition wp {A} (m : Gen A) (w : World)
    (Q : list ChatEvent -> World -> Outcome A -> Prop) : Prop :=
  Q (m w).1.1 (m w).1.2 (m w).2.

Definition is_error (ev : ChatEvent) : bool :=
  match event_type ev with ERROR_PART => true | _ => false end.

Definition is_data (ev : ChatEvent) : bool :=
  match event_type ev with DATA_PART => true | _ => false end.

Definition is_text (ev : ChatEvent) : bool :=
  match event_type ev with TEXT_PART => true | _ => false end.

Definition is_state (st : ChatMessageSate) (ev : ChatEvent) : bool :=
  match event_type ev, payload ev with
  | MESSAGE_ANNOTATIONS_PART, PMessage m =>
      bool_decide (state m = st)
  | _, _ => false
  end.

Definition count (p : ChatEvent -> bool) (evs : list ChatEvent) : nat :=
  length (List.filter p evs).

(** The stream ends with a FINISHED annotation and then a DATA_PART, and
    holds no ERROR_PART. *)
Definition normal_completion (evs : list ChatEvent) : Prop :=
  (exists pre fin dat,
      evs = pre ++ [fin; dat]
      /\ is_state FINISHED fin = true /\ is_data dat = true)
  /\ count is_error evs = 0.

(** The stream ends with an ERROR_PART, its only one, and holds no FINISHED
    annotation. *)
Definition error_termination (evs : list ChatEvent) : Prop :=
  (exists pre err, evs = pre ++ [err] /\ is_error err = true)
  /\ count is_error evs = 1
  /\ count (is_state FINISHED) evs = 0.

(** The events of a turn up to the end of the answer text. *)
Definition progress_events (st : TurnState) (docs : list JValue)
    (words : list string) : list ChatEvent :=
  [ text_part "";
    data_part (db_chat_obj st) (db_user_message st) (db_assistant_message st);
    annotation TRACE (Some "Start knowledge graph searching ...")
      (Some (JDict [("langfuse_url", JStr (trace_url_of st))]));
    annotation REFINE_QUESTION (Some "Refine the user question ...") None;
    annotation SEARCH_RELATED_DOCUMENTS (Some "Search related documents ...")
      None;
    annotation SOURCE_NODES None (Some (JList docs)) ]
  ++ map text_part words.

(** The two events that close a completed turn. *)
Definition closing_events (st : TurnState) (final : DBChatMessage.t)
    : list ChatEvent :=
  [ annotation FINISHED None None;
    data_part (db_chat_obj st) (db_user_message st) final ].

(** A step that calls no collaborator of the call log. *)
Definition neutral {A} (m : Gen A) : Prop :=
  forall w, calls (m w).1.2 = calls w.

(** Every query-engine call of the log is an old one or carries the pool
    size and the postprocessors of the service. *)
Definition query_calls_of (self : ChatService) (old : list ExtCall)
    (w : World) : Prop :=
  forall a q,
    In (CallQuery a q) (calls w) ->
    In (CallQuery a q) old
    \/ (similarity_top_k a = _similarity_top_k self
        /\ node_postprocessors a = _node_postprocessors self).

Definition preserves {A} (I : World -> Prop) (m : Gen A) : Prop :=
  forall w, I w -> I (m w).1.2.

(** Two worlds with the same database session. *)
Definition same_db (w w' : World) : Prop :=
  chats w' = chats w /\ chat_messages w' = chat_messages w
  /\ pending w' = pending w.

(** A step that emits nothing, leaves the session alone and does not end
    the generator. *)
Definition silent {A} (w : World)
    : list ChatEvent -> World -> Outcome A -> Prop :=
  fun evs w' o => evs = [] /\ same_db w w' /\ o <> Returned.

Fixpoint words_of (gen : TokenStream) : list string :=
  match gen with
  | Exhausted => []
  | Fragment word rest => word :: words_of rest
  | Broken _ => []
  end.

Fixpoint unbroken (gen : TokenStream) : bool :=
  match gen with
  | Exhausted => true
  | Fragment _ rest => unbroken rest
  | Broken _ => false
  end.

Definition is_ok {A} (r : res A) : bool :=
  match r with inl _ => false | inr _ => true end.

(** A stored message differs from the one given in its key, chat and
    ordinal only. *)
Definition stored_from (m m' : DBChatMessage.t) : Prop :=
  DBChatMessage.role m' = DBChatMessage.role m
  /\ DBChatMessage.content m' = DBChatMessage.content m
  /\ DBChatMessage.trace_url m' = DBChatMessage.trace_url m
  /\ DBChatMessage.sources m' = DBChatMessage.sources m
  /\ DBChatMessage.updated_at m' = DBChatMessage.updated_at m
  /\ DBChatMessage.finished_at m' = DBChatMessage.finished_at m.

(** The database accepts every statement. *)
Definition db_healthy (E : Env) : Prop := forall op w, db_fault E op w = None.

(** What the first half of a turn needs of its collaborators: the
    database accepts every statement, the key drawn for a new chat is not
    taken, and, when tracing is on, the tracing backend opens the trace of
    the user of the service. *)
Record healthy_opening (E : Env) (self : ChatService) : Prop := {
  opening_db : forall op w, db_fault E op w = None;
  opening_uuid : forall w, chats w !! uuid4 E w = None;
  opening_trace :
    enable_langfuse self = true ->
    forall w,
      is_ok (langfuse_trace E w
               (match user self with
                | Some u => User.email u
                | None => "anonymous-" +:+ browser_id self
                end)) = true
}.

(** What the second half of a turn needs when the graph context is
    empty, from the world [w1] in which its two messages were stored: the
    models load; the tracing backend, when tracing is on, accepts the
    handler of the trace; the three prompts of the configuration render
    with the empty context, the first one also with the history and the
    question of the turn, into [condense], [text_qa] and [refine]; the
    fast model answers [condense] with [refined]; the query engine built
    from the main model and the two prompts answers [refined] with
    [response], whose stream does not break; and the database accepts the
    selection of the source documents and the commit of the answer.
    Nothing is asked of the collaborators on any other input. *)
Record answers_without_graph (E : Env) (self : ChatService) (st : TurnState)
    (w1 : World) (_llm _fast_llm : LLM)
    (condense text_qa refine : PromptTemplate) (refined : string)
    (response : StreamingResponse) : Prop := {
  loads_embed_model : is_ok (get_default_embedding_model E w1) = true;
  loads_llm : get_llama_llm E (chat_engine_config self) w1 = inr _llm;
  loads_fast_llm :
    get_fast_llama_llm E (chat_engine_config self) w1 = inr _fast_llm;
  loads_fast_dspy_lm :
    is_ok (get_fast_dspy_lm E (chat_engine_config self) w1) = true;
  accepts_handler :
    enable_langfuse self = true ->
    forall w, is_ok (langfuse_handler E w (trace_id st)) = true;
  renders_condense :
    get_prompt_by_jinja2_template (jinja2_render E)
      (condense_question_prompt (llm (chat_engine_config self)))
      [("graph_knowledges", JStr "");
       ("chat_history", JList (map message_value (chat_history st)));
       ("question", JStr (user_question st))]
    = inr condense;
  predicts : predict E _fast_llm condense = inr refined;
  renders_text_qa :
    get_prompt_by_jinja2_template (jinja2_render E)
      (text_qa_prompt (llm (chat_engine_config self)))
      [("graph_knowledges", JStr "")]
    = inr text_qa;
  renders_refine :
    get_prompt_by_jinja2_template (jinja2_render E)
      (refine_prompt (llm (chat_engine_config self)))
      [("graph_knowledges", JStr "")]
    = inr refine;
  answers :
    query E (query_engine_args self _llm text_qa refine) refined
    = inr response;
  streams : unbroken (response_gen response) = true;
  selects : forall w, db_fault E OpExec w = None;
  commits : forall w, db_fault E OpCommit w = None
}.

(** ** Sample collaborators, for closed instances of the theorems *)

Module Sample.

Definition prompts : LLMOption :=
  {| intent_graph_knowledge := "Knowledge by sub-question.";
     normal_graph_knowledge := "Knowledge: entities and relationships.";
     condense_question_prompt := "Rewrite the question on its own.";
     text_qa_prompt := "Answer <<query_str>> from <<context_str>>.";
     refine_prompt :=
       "Refine <<existing_answer>> with <<context_msg>> for <<query_str>>." |}.

Definition config (kg_enabled : bool) : ChatEngineConfig :=
  {| llm := prompts;
     knowledge_graph :=
       {| enabled := kg_enabled;
          depth := 2;
          include_meta := true;
          with_degree := false;
          using_intent_search := false;
          relationship_meta_filters := JDict [("kind", JStr "cites")] |};
     get_db_chat_engine_id := 1;
     get_metadata_filter := "metadata-filter";
     screenshot := JDict [("name", JStr "default")] |}.

Definition response : StreamingResponse :=
  {| source_nodes := ["chunk-1"];
     response_gen := Fragment "X is " (Fragment "a letter." Exhausted) |}.

(** The graph store is down; the fast model answers when [fast_llm_up];
    a reranker is configured when [reranker] names one. *)
Definition env (fast_llm_up : bool) (reranker : option Reranker) : Env :=
  {| jinja2_render := fun t _ => inr t;
     db_fault := fun _ _ => None;
     uuid4 := fun w => fresh (dom (chats w));
     now := fun n => Z.of_nat n;
     site_setting :=
       {| langfuse_host := ""; langfuse_secret_key := "";
          langfuse_public_key := "" |};
     load_from_db := fun _ _ => inr (config false);
     get_reranker := fun _ _ => inr reranker;
     langfuse_trace := fun _ _ => inr ("trace-1", "http://trace/1");
     langfuse_handler := fun _ _ => inr tt;
     get_default_embedding_model := fun _ => inr "embedding";
     get_llama_llm := fun _ _ => inr "llm";
     get_fast_llama_llm := fun _ _ => inr "fast-llm";
     get_fast_dspy_lm := fun _ _ => inr "fast-dspy";
     intent_based_search :=
       fun _ _ _ _ => inl (UpstreamError "graph store down");
     index_retrieve_with_weight :=
       fun _ => inl (UpstreamError "graph store down");
     store_retrieve_with_weight :=
       fun _ => inr ([JStr "entity"], [JStr "relationship"], []);
     predict :=
       fun _ _ =>
         if fast_llm_up then inr "What is the letter X?"
         else inl (UpstreamError "fast model down");
     query := fun _ _ => inr response;
     select_documents := fun _ _ => [(1%Z, "alphabet", "http://docs/alphabet")];
     engine_name_of := fun _ _ => inr "default" |}.

Definition service : ChatService :=
  {| user := None;
     browser_id := "browser-1";
     engine_name := "default";
     chat_engine_config := config false;
     db_chat_engine_id := 1;
     _reranker := None;
     _metadata_filter := "metadata-filter";
     _node_postprocessors := [MetadataPostFilter "metadata-filter"];
     _similarity_top_k := 10;
     enable_langfuse := false |}.

Definition world : World :=
  {| chats := ∅; chat_messages := []; pending := []; calls := [];
     ticks := 0; logged := [] |}.

Definition messages : list ChatMessage.t :=
  [{| ChatMessage.role := "user"; ChatMessage.content := "What is X?" |}].

Definition reranked_service : ChatService :=
  {| user := None;
     browser_id := "browser-1";
     engine_name := "default";
     chat_engine_config := config false;
     db_chat_engine_id := 1;
     _reranker := Some "reranker";
     _metadata_filter := "metadata-filter";
     _node_postprocessors :=
       [MetadataPostFilter "metadata-filter"; RerankPostprocessor "reranker"];
     _similarity_top_k := 100;
     enable_langfuse := false |}.

Definition chat_row : DBChat.t :=
  {| DBChat.id := 0%N; DBChat.title := "What is X?"; DBChat.engine_id := 1;
     DBChat.engine_options := JDict []; DBChat.deleted_at := None;
     DBChat.user_id := None; DBChat.browser_id := "browser-1" |}.

Definition user_row : DBChatMessage.t :=
  {| DBChatMessage.id := Some 1;
     DBChatMessage.chat_id := Some 0%N;
     DBChatMessage.role := "user";
     DBChatMessage.ordinal := 1;
     DBChatMessage.content := "What is X?";
     DBChatMessage.trace_url := None;
     DBChatMessage.sources := [];
     DBChatMessage.updated_at := None;
     DBChatMessage.finished_at := None |}.

Definition no_state : TurnState :=
  {| db_chat_obj :=
       {| DBChat.id := 0%N; DBChat.title := ""; DBChat.engine_id := 0;
          DBChat.engine_options := JDict []; DBChat.deleted_at := None;
          DBChat.user_id := None; DBChat.browser_id := "" |};
     user_question := "";
     chat_history := [];
     trace_id := "";
     trace_url_of := "";
     db_user_message := DBChatMessage.make "" "";
     db_assistant_message := DBChatMessage.make "" "" |}.

(** The turn of [messages] in a new chat, up to the two stored messages,
    when the fast model is down. *)
Definition opened : list ChatEvent * World * Outcome TurnState :=
  _chat_open (env false None) service messages None world.

Definition opened_state : TurnState :=
  match opened.2 with
  | Value st => st
  | _ => no_state
  end.

End Sample.

(** ** More of the code: the formatter's output, the configuration checks,
    and the vocabulary of further properties *)

(** [str.format] applied to keyword arguments: the text it produces.  [{{] and [}}] give one brace, a
    field gives the value that [fields] has for its name; [None] stands for
    the [ValueError] of a single brace and the [KeyError] of a missing
    name. *)
Module PyFormat.

Fixpoint format_fuel (fuel : nat) (fields : string -> option string)
    (s : string) : option string :=
  match fuel with
  | O => match s with EmptyString => Some EmptyString | _ => None end
  | S fuel' =>
      match s with
      | EmptyString => Some EmptyString
      | String c s' =>
          if Ascii.eqb c Formatter.lbrace then
            match s' with
            | String c' s'' =>
                if Ascii.eqb c' Formatter.lbrace
                then option_map (String Formatter.lbrace)
                       (format_fuel fuel' fields s'')
                else match Formatter.read_field s' with
                     | Some (name, rest) =>
                         match fields name with
                         | Some v =>
                             option_map (String.append v)
                               (format_fuel fuel' fields rest)
                         | None => None
                         end
                     | None => None
                     end
            | EmptyString => None
            end
          else if Ascii.eqb c Formatter.rbrace then
            match s' with
            | String c' s'' =>
                if Ascii.eqb c' Formatter.rbrace
                then option_map (String Formatter.rbrace)
                       (format_fuel fuel' fields s'')
                else None
            | EmptyString => None
            end
          else option_map (String c) (format_fuel fuel' fields s')
      end
  end.

Definition format (fields : string -> option string) (s : string)
    : option string :=
  format_fuel (String.length s) fields s.

End PyFormat.

(** ["".join(words)] *)
Definition join (words : list string) : string :=
  foldr String.append EmptyString words.

(** [check_rag_optional_config]: [count] stands for the query that counts
    the reranker models. *)
Definition check_rag_optional_config (E : Env) (count : res Z)
    : res (bool * bool) :=
  let langfuse :=
    PyStr.truthy (langfuse_host (site_setting E))
    && PyStr.truthy (langfuse_secret_key (site_setting E))
    && PyStr.truthy (langfuse_public_key (site_setting E)) in
  n_reranker ← count;
  let default_reranker := (0 <? n_reranker)%Z in
  mret (langfuse, default_reranker).

(** A step that leaves one component of the world as it is. *)
Definition keeps {A X} (proj : World -> X) (m : Gen A) : Prop :=
  forall w, proj (m w).1.2 = proj w.

Definition is_message_row (obj : Row) : bool :=
  match obj with RMessage _ => true | RChat _ => false end.

(** The chats table is [cs] and no chat waits in the session. *)
Definition chats_settled (cs : gmap UUID DBChat.t) (w : World) : Prop :=
  chats w = cs /\ forallb is_message_row (pending w) = true.

Definition is_graph_call (c : ExtCall) : bool :=
  match c with
  | CallIntentSearch _ _ _ _ | CallIndexRetrieve _ => true
  | _ => false
  end.

(** Two worlds that differ by collaborator calls added to the log, and
    by readings of the clock, only. *)
Definition calls_added (added : list ExtCall) (w w' : World) : Prop :=
  chats w' = chats w /\ chat_messages w' = chat_messages w
  /\ pending w' = pending w /\ logged w' = logged w
  /\ calls w' = calls w ++ added.

(** What a turn that ran to its end has done, from the world [w] in which
    its two messages were stored: it loaded the models, gave a prompt to
    the fast model and got the refined question back, built the query
    engine and asked it that question, streamed the words of the answer,
    read the clock twice and committed the finished message. *)
Definition turn_completed (E : Env) (self : ChatService) (st : TurnState)
    (w : World) (evs : list ChatEvent) (w' : World) : Prop :=
  exists graph_calls _llm _fast_llm prompt refined text_qa refine response
         docs now1 now2 stored,
    let final :=
      finished_message now1 now2 docs
        (join (words_of (response_gen response))) (db_assistant_message st) in
    get_llama_llm E (chat_engine_config self) w = inr _llm
    /\ get_fast_llama_llm E (chat_engine_config self) w = inr _fast_llm
    /\ predict E _fast_llm prompt = inr refined
    /\ query E (query_engine_args self _llm text_qa refine) refined
       = inr response
    /\ unbroken (response_gen response) = true
    /\ evs = progress_events st docs (words_of (response_gen response))
             ++ closing_events st final
    /\ forallb is_graph_call graph_calls = true
    /\ length graph_calls <= 1
    /\ (enabled (knowledge_graph (chat_engine_config self)) = false ->
        graph_calls = [])
    /\ calls w' = calls w ++ graph_calls
                  ++ [CallPredict _fast_llm prompt;
                      CallQuery (query_engine_args self _llm text_qa refine)
                        refined]
    /\ flush (pending w ++ [RMessage final]) (chats w, chat_messages w)
       = inr (stored, (chats w', chat_messages w'))
    /\ pending w' = [].

(** ** More sample data *)

Module Sample2.

(** The collaborators of [Sample.env], with an answer stream that breaks
    after its first fragment. *)
Definition broken_env : Env :=
  let E := Sample.env true None in
  {| jinja2_render := jinja2_render E;
     db_fault := db_fault E;
     uuid4 := uuid4 E;
     now := now E;
     site_setting := site_setting E;
     load_from_db := load_from_db E;
     get_reranker := get_reranker E;
     langfuse_trace := langfuse_trace E;
     langfuse_handler := langfuse_handler E;
     get_default_embedding_model := get_default_embedding_model E;
     get_llama_llm := get_llama_llm E;
     get_fast_llama_llm := get_fast_llama_llm E;
     get_fast_dspy_lm := get_fast_dspy_lm E;
     intent_based_search := intent_based_search E;
     index_retrieve_with_weight := index_retrieve_with_weight E;
     store_retrieve_with_weight := store_retrieve_with_weight E;
     predict := predict E;
     query :=
       fun _ _ =>
         inr {| source_nodes := ["chunk-1"];
                response_gen :=
                  Fragment "X is " (Broken (UpstreamError "stream lost")) |};
     select_documents := select_documents E;
     engine_name_of := engine_name_of E |}.

(** The collaborators of [Sample.env], with another template engine,
    graph index, fast model or query engine. *)
Definition variant
    (render : string -> Kwargs -> res string)
    (retrieve : RetrieveArgs -> res (list JValue * list JValue * list JValue))
    (fast_model : LLM -> PromptTemplate -> res string) : Env :=
  let E := Sample.env true None in
  {| jinja2_render := render;
     db_fault := db_fault E;
     uuid4 := uuid4 E;
     now := now E;
     site_setting := site_setting E;
     load_from_db := load_from_db E;
     get_reranker := get_reranker E;
     langfuse_trace := langfuse_trace E;
     langfuse_handler := langfuse_handler E;
     get_default_embedding_model := get_default_embedding_model E;
     get_llama_llm := get_llama_llm E;
     get_fast_llama_llm := get_fast_llama_llm E;
     get_fast_dspy_lm := get_fast_dspy_lm E;
     intent_based_search := intent_based_search E;
     index_retrieve_with_weight := retrieve;
     store_retrieve_with_weight := store_retrieve_with_weight E;
     predict := fast_model;
     query := query E;
     select_documents := select_documents E;
     engine_name_of := engine_name_of E |}.

(** The graph index answers. *)
Definition graph_env : Env :=
  variant (fun t _ => inr t)
    (fun _ => inr ([JStr "entity"], [JStr "relationship"], [JStr "chunk"]))
    (fun _ _ => inr "What is the letter X?").

(** The service of [Sample.service] with the knowledge graph enabled. *)
Definition graph_service : ChatService :=
  {| user := None;
     browser_id := "browser-1";
     engine_name := "default";
     chat_engine_config := Sample.config true;
     db_chat_engine_id := 1;
     _reranker := None;
     _metadata_filter := "metadata-filter";
     _node_postprocessors := [MetadataPostFilter "metadata-filter"];
     _similarity_top_k := 10;
     enable_langfuse := false |}.

(** The state of the turn of [Sample.messages] in a new chat of
    [graph_service], once its two messages are stored. *)
Definition graph_opened_state : TurnState :=
  match (_chat_open (Sample.env true None) graph_service Sample.messages None
           Sample.world).2 with
  | Value st => st
  | _ => Sample.no_state
  end.

(** A template engine that renders the three prompts of the second half
    of a turn and rejects every other template, and a fast model that
    answers the condense prompt only; the graph index is down. *)
Definition picky_env : Env :=
  variant
    (fun t _ =>
       if String.eqb t (condense_question_prompt Sample.prompts)
          || String.eqb t (text_qa_prompt Sample.prompts)
          || String.eqb t (refine_prompt Sample.prompts)
       then inr t
       else inl (TemplateError "unexpected template"))
    (fun _ => inl (UpstreamError "graph store down"))
    (fun _ p =>
       if String.eqb (template p) (condense_question_prompt Sample.prompts)
       then inr "What is the letter X?"
       else inl (UpstreamError "unexpected prompt")).

(** The world after a first, completed turn of [Sample.messages]. *)
Definition second_world : World :=
  (chat (Sample.env true None) Sample.service Sample.messages None
     Sample.world).2.

(** What the template engine renders for a template whose only
    expression is the variable [graph_knowledges]: the value in its
    place, unchanged. *)
Definition render_graph_knowledges (t : string) (k : Kwargs) : res string :=
  match k with
  | [(name, JStr v)] =>
      if String.eqb name "graph_knowledges"
      then inr (PyStr.replace "{{ graph_knowledges }}" v t)
      else inl (TemplateError "undefined variable")
  | _ => inl (TemplateError "undefined variable")
  end.

(** A question of forty characters that take three bytes each. *)
Definition cjk_question : string :=
  join (replicate 40
          (String (ascii_of_nat 228)
             (String (ascii_of_nat 184)
                (String (ascii_of_nat 173) EmptyString)))).

Definition cjk_messages : list ChatMessage.t :=
  [{| ChatMessage.role := "user"; ChatMessage.content := cjk_question |}].

Definition cjk_opened_state : TurnState :=
  match (_chat_open (Sample.env true None) Sample.service cjk_messages None
           Sample.world).2 with
  | Value st => st
  | _ => Sample.no_state
  end.

(** A longer conversation that ends with the same question. *)
Definition longer_messages : list ChatMessage.t :=
  [{| ChatMessage.role := "user"; ChatMessage.content := "Hello" |};
   {| ChatMessage.role := "assistant"; ChatMessage.content := "Hi." |};
   {| ChatMessage.role := "user"; ChatMessage.content := "What is X?" |}].

End Sample2.

(** * Theorems *)

(** ** String operations *)

Section PyStrFacts.
Import PyStr.

Lemma append_cons a s t : String a s +:+ t = String a (s +:+ t).
Proof. reflexivity. Qed.

Lemma append_nil t : EmptyString +:+ t = t.
Proof. reflexivity. Qed.

Lemma replace_from_skip old new k s :
  replace_from old new k s = replace_from old new 0 (drop k s).
Proof.
  revert k; induction s as [|c s IH]; intros [|k]; try reflexivity.
  simpl drop. rewrite <- IH. reflexivity.
Qed.

Lemma startswith_app p t : startswith p (p +:+ t) = true.
Proof.
  induction p as [|a p IH]; [reflexivity|].
  rewrite append_cons. simpl. rewrite Ascii.eqb_refl. exact IH.
Qed.

Lemma drop_app p t : drop (String.length p) (p +:+ t) = t.
Proof.
  induction p as [|a p IH]; [destruct t; reflexivity|].
  rewrite append_cons. exact IH.
Qed.

Lemma startswith_split p s :
  startswith p s = true -> s = p +:+ drop (String.length p) s.
Proof.
  revert s; induction p as [|a p IH]; intros s H.
  - destruct s; reflexivity.
  - destruct s as [|b s]; [discriminate|]. simpl in H.
    destruct (Ascii.eqb_spec a b) as [->|]; [|discriminate].
    rewrite append_cons. simpl. f_equal. apply IH, H.
Qed.

Lemma replace_from_hit a old new t :
  replace_from (String a old) new 0 (String a old +:+ t)
  = new +:+ replace_from (String a old) new 0 t.
Proof.
  rewrite append_cons. cbn [replace_from].
  rewrite <- append_cons, startswith_app. f_equal.
  rewrite replace_from_skip.
  replace (String.length (String a old) - 1) with (String.length old)
    by (simpl; lia).
  rewrite drop_app. reflexivity.
Qed.

Lemma replace_from_miss a old new c s :
  a <> c ->
  replace_from (String a old) new 0 (String c s)
  = String c (replace_from (String a old) new 0 s).
Proof.
  intros Hne. cbn [replace_from startswith].
  destruct (Ascii.eqb_spec a c); [contradiction|reflexivity].
Qed.

Lemma length_app_str p t :
  String.length (p +:+ t) = String.length p + String.length t.
Proof.
  induction p as [|a p IH]; [reflexivity|].
  rewrite append_cons. simpl. rewrite IH. reflexivity.
Qed.

End PyStrFacts.

(** ** The prompt renderer *)

Section PromptFacts.
Import PyStr Formatter.

Lemma append_assoc_str p q r : (p +:+ q) +:+ r = p +:+ (q +:+ r).
Proof.
  induction p as [|a p IH]; [reflexivity|].
  rewrite !append_cons, IH. reflexivity.
Qed.

Lemma replace_char_cons a new c s :
  replace (String a EmptyString) new (String c s)
  = if Ascii.eqb a c then new +:+ replace (String a EmptyString) new s
    else String c (replace (String a EmptyString) new s).
Proof.
  unfold replace. cbn [replace_from startswith String.length Nat.sub].
  destruct (Ascii.eqb a c); reflexivity.
Qed.

Lemma escaped_doubling r :
  escaped (replace "}" "}}" (replace "{" "{{" r)).
Proof.
  induction r as [|c r IH]; [constructor|].
  rewrite replace_char_cons.
  destruct (Ascii.eqb_spec "{"%char c) as [<-|Hl].
  - rewrite !append_cons, append_nil, !replace_char_cons.
    cbn [Ascii.eqb Bool.eqb]. apply escaped_open, IH.
  - rewrite replace_char_cons.
    destruct (Ascii.eqb_spec "}"%char c) as [<-|Hr].
    + rewrite !append_cons, append_nil. apply escaped_close, IH.
    + apply escaped_char;
        [intros ->; now apply Hl | intros ->; now apply Hr | exact IH].
Qed.

Lemma escaped_drop m t :
  brace_free m = true -> escaped (m +:+ t) -> escaped t.
Proof.
  induction m as [|c m IH]; intros Hm Ht; [exact Ht|].
  rewrite append_cons in Ht. cbn [brace_free] in Hm.
  apply andb_prop in Hm as [Hm Hm3]. apply andb_prop in Hm as [Hm1 Hm2].
  apply negb_true_iff in Hm1, Hm2.
  inversion Ht; subst; try (rewrite Ascii.eqb_refl in *; discriminate).
  apply IH; assumption.
Qed.

Lemma deferred_no_lt p c s :
  In p deferred ->
  forall m new,
    replace_from (String "<"%char m) new 0 (String c (p +:+ String rbrace s))
    = if Ascii.eqb "<"%char c
      then replace_from (String "<"%char m) new 0 (String c (p +:+ String rbrace s))
      else String c (p +:+ String rbrace
                       (replace_from (String "<"%char m) new 0 s)).
Proof.
  intros Hp m new.
  destruct (Ascii.eqb_spec "<"%char c) as [|Hc]; [reflexivity|].
  rewrite (replace_from_miss _ _ _ _ _ Hc). f_equal.
  cbn [deferred In] in Hp.
  destruct Hp as [<-|[<-|[<-|[<-|[]]]]];
    rewrite !append_cons, append_nil;
    repeat (rewrite replace_from_miss by discriminate); reflexivity.
Qed.

Lemma marker_preserves m p :
  brace_free m = true -> In p deferred ->
  forall n s, String.length s <= n -> escaped s ->
    escaped (replace_from (String "<"%char m)
               (String lbrace (p +:+ String rbrace EmptyString)) 0 s).
Proof.
  intros Hm Hp. induction n as [|n IH]; intros s Hlen Hs.
  - destruct s; [constructor | simpl in Hlen; lia].
  - destruct (startswith (String "<"%char m) s) eqn:Hsw.
    + apply startswith_split in Hsw.
      remember (drop (String.length (String "<"%char m)) s) as t eqn:Et.
      clear Et. subst s.
      rewrite replace_from_hit, append_cons, append_assoc_str, append_cons,
        append_nil.
      apply escaped_field; [exact Hp|].
      rewrite length_app_str in Hlen. simpl in Hlen.
      apply IH; [lia|]. eapply (escaped_drop (String "<"%char m)); [|exact Hs].
      cbn [brace_free]. rewrite Hm. reflexivity.
    + inversion Hs as [|c s0 Hc1 Hc2 Hs0|s0 Hs0|s0 Hs0|p0 s0 Hp0 Hs0]; subst.
      * constructor.
      * cbn [replace_from]. rewrite Hsw. simpl in Hlen.
        apply escaped_char; [assumption..|]. apply IH; [lia|assumption].
      * rewrite !replace_from_miss by discriminate. simpl in Hlen.
        apply escaped_open, IH; [lia|assumption].
      * rewrite !replace_from_miss by discriminate. simpl in Hlen.
        apply escaped_close, IH; [lia|assumption].
      * rewrite (deferred_no_lt _ _ _ Hp0). cbn [Ascii.eqb Bool.eqb lbrace].
        apply escaped_field; [exact Hp0|].
        simpl in Hlen. rewrite length_app_str in Hlen. simpl in Hlen.
        apply IH; [lia|assumption].
Qed.

Lemma escaped_escape_braces r : escaped (escape_braces r).
Proof.
  unfold escape_braces.
  pose proof (escaped_doubling r) as H0.
  set (s0 := replace "}" "}}" (replace "{" "{{" r)) in *.
  assert (H1 : escaped (replace "<<query_str>>" "{query_str}" s0)).
  { apply (marker_preserves "<query_str>>" "query_str" eq_refl
             ltac:(simpl; tauto) _ _ (le_n _) H0). }
  assert (H2 : escaped (replace "<<context_str>>" "{context_str}"
                          (replace "<<query_str>>" "{query_str}" s0))).
  { apply (marker_preserves "<context_str>>" "context_str" eq_refl
             ltac:(simpl; tauto) _ _ (le_n _) H1). }
  assert (H3 : escaped (replace "<<existing_answer>>" "{existing_answer}"
                          (replace "<<context_str>>" "{context_str}"
                             (replace "<<query_str>>" "{query_str}" s0)))).
  { apply (marker_preserves "<existing_answer>>" "existing_answer" eq_refl
             ltac:(simpl; tauto) _ _ (le_n _) H2). }
  apply (marker_preserves "<context_msg>>" "context_msg" eq_refl
           ltac:(simpl; tauto) _ _ (le_n _) H3).
Qed.

Lemma read_deferred p s :
  In p deferred ->
  read_field (p +:+ String rbrace s) = Some (p, s)
  /\ exists c p', p = String c p' /\ Ascii.eqb c lbrace = false.
Proof.
  cbn [deferred In].
  intros [<-|[<-|[<-|[<-|[]]]]]; (split; [reflexivity|]); eauto.
Qed.

Lemma escaped_format_fuel s :
  escaped s ->
  forall fuel, String.length s <= fuel ->
    exists fs, format_fields_fuel fuel s = Some fs
               /\ Forall (fun f => In f deferred) fs.
Proof.
  induction 1 as [|c s Hc1 Hc2 Hs IH|s Hs IH|s Hs IH|p s Hp Hs IH];
    intros fuel Hlen.
  - exists []. destruct fuel; split; auto.
  - destruct fuel as [|fuel]; simpl in Hlen; [lia|].
    cbn [format_fields_fuel].
    destruct (Ascii.eqb_spec c lbrace); [contradiction|].
    destruct (Ascii.eqb_spec c rbrace); [contradiction|].
    apply IH. lia.
  - destruct fuel as [|fuel]; simpl in Hlen; [lia|].
    cbn [format_fields_fuel]. rewrite !Ascii.eqb_refl. apply IH. lia.
  - destruct fuel as [|fuel]; simpl in Hlen; [lia|].
    cbn [format_fields_fuel]. rewrite !Ascii.eqb_refl.
    replace (Ascii.eqb rbrace lbrace) with false by reflexivity.
    apply IH. lia.
  - destruct fuel as [|fuel]; simpl in Hlen; [lia|].
    rewrite length_app_str in Hlen. simpl in Hlen.
    destruct (read_deferred p s Hp) as [Hrd (c & p' & -> & Hc)].
    cbn [format_fields_fuel]. rewrite Ascii.eqb_refl.
    rewrite append_cons, Hc, <- append_cons, Hrd.
    destruct (IH fuel ltac:(lia)) as (fs & -> & Hfs).
    eexists; split; [reflexivity|]. constructor; assumption.
Qed.

Lemma escaped_format s :
  escaped s ->
  exists fs, format_fields s = Some fs /\ Forall (fun f => In f deferred) fs.
Proof. intros H. apply escaped_format_fuel; [exact H | apply le_n]. Qed.

Lemma doubling_cons c r :
  replace "}" "}}" (replace "{" "{{" (String c r)) =
    if Ascii.eqb c lbrace
    then String lbrace (String lbrace (replace "}" "}}" (replace "{" "{{" r)))
    else if Ascii.eqb c rbrace
         then String rbrace
                (String rbrace (replace "}" "}}" (replace "{" "{{" r)))
         else String c (replace "}" "}}" (replace "{" "{{" r)).
Proof.
  unfold lbrace, rbrace. rewrite replace_char_cons.
  rewrite (Ascii.eqb_sym c "{"%char).
  destruct (Ascii.eqb_spec "{"%char c) as [<-|Hl].
  - rewrite !append_cons, append_nil, !replace_char_cons. reflexivity.
  - rewrite replace_char_cons. rewrite (Ascii.eqb_sym c "}"%char).
    destruct (Ascii.eqb "}"%char c); reflexivity.
Qed.

Lemma doubling_no_fields r :
  forall fuel,
    String.length (replace "}" "}}" (replace "{" "{{" r)) <= fuel ->
    format_fields_fuel fuel (replace "}" "}}" (replace "{" "{{" r)) = Some [].
Proof.
  induction r as [|c r IH]; intros fuel Hlen.
  - destruct fuel; reflexivity.
  - rewrite doubling_cons in *.
    destruct (Ascii.eqb_spec c lbrace) as [->|Hl].
    + destruct fuel as [|fuel]; cbn [String.length] in Hlen; [lia|].
      cbn [format_fields_fuel]. rewrite !Ascii.eqb_refl. apply IH. lia.
    + destruct (Ascii.eqb_spec c rbrace) as [->|Hr].
      * destruct fuel as [|fuel]; cbn [String.length] in Hlen; [lia|].
        cbn [format_fields_fuel]. rewrite !Ascii.eqb_refl.
        replace (Ascii.eqb rbrace lbrace) with false by reflexivity.
        apply IH. lia.
      * destruct fuel as [|fuel]; cbn [String.length] in Hlen; [lia|].
        cbn [format_fields_fuel].
        destruct (Ascii.eqb_spec c lbrace); [contradiction|].
        destruct (Ascii.eqb_spec c rbrace); [contradiction|].
        apply IH. lia.
Qed.

Lemma doubling_mentions r :
  mentions "<" r = false ->
  mentions "<" (replace "}" "}}" (replace "{" "{{" r)) = false.
Proof.
  induction r as [|c r IH]; intros Hr; [reflexivity|].
  cbn [mentions] in Hr. apply orb_false_iff in Hr as [Hc Hr].
  rewrite doubling_cons.
  destruct (Ascii.eqb c lbrace); [|destruct (Ascii.eqb c rbrace)];
    cbn [mentions]; rewrite ?Hc, IH by exact Hr; reflexivity.
Qed.

Lemma replace_without_marker m new s :
  mentions "<" s = false ->
  replace_from (String "<"%char m) new 0 s = s.
Proof.
  induction s as [|c s IH]; intros Hs; [reflexivity|].
  cbn [mentions] in Hs. apply orb_false_iff in Hs as [Hc Hs].
  apply Ascii.eqb_neq in Hc.
  rewrite replace_from_miss by exact Hc. rewrite IH by exact Hs. reflexivity.
Qed.

Lemma replace_without_occurrence a m new s :
  contains (String a m) s = false ->
  replace_from (String a m) new 0 s = s.
Proof.
  induction s as [|c s IH]; intros Hs; [reflexivity|].
  cbn [contains] in Hs. apply orb_false_iff in Hs as [Hsw Hs].
  cbn [replace_from]. rewrite Hsw, IH by exact Hs. reflexivity.
Qed.

Lemma startswith_doubling m :
  brace_free m = true ->
  forall r,
    startswith m (replace "}" "}}" (replace "{" "{{" r)) = true ->
    startswith m r = true.
Proof.
  induction m as [|a m IH]; intros Hm r Hsw; [reflexivity|].
  cbn [brace_free] in Hm.
  apply andb_prop in Hm as [Hm Hm3]. apply andb_prop in Hm as [Hm1 Hm2].
  apply negb_true_iff in Hm1, Hm2.
  destruct r as [|c r]; [discriminate Hsw|].
  rewrite doubling_cons in Hsw.
  destruct (Ascii.eqb c lbrace) eqn:Hl.
  - cbn [startswith] in Hsw. rewrite Hm1 in Hsw. discriminate Hsw.
  - destruct (Ascii.eqb c rbrace) eqn:Hr.
    + cbn [startswith] in Hsw. rewrite Hm2 in Hsw. discriminate Hsw.
    + cbn [startswith] in Hsw |- *.
      destruct (Ascii.eqb a c); [|discriminate Hsw].
      apply IH; assumption.
Qed.

Lemma contains_doubling a m r :
  brace_free (String a m) = true ->
  contains (String a m) r = false ->
  contains (String a m) (replace "}" "}}" (replace "{" "{{" r)) = false.
Proof.
  intros Hm. pose proof Hm as Hm'. cbn [brace_free] in Hm'.
  apply andb_prop in Hm' as [Hm' _]. apply andb_prop in Hm' as [Hm1 Hm2].
  apply negb_true_iff in Hm1, Hm2.
  induction r as [|c r IH]; intros Hr; [reflexivity|].
  cbn [contains] in Hr. apply orb_false_iff in Hr as [Hsw Hr].
  specialize (IH Hr).
  destruct (startswith (String a m)
              (replace "}" "}}" (replace "{" "{{" (String c r)))) eqn:Hd.
  { apply startswith_doubling in Hd; [congruence|exact Hm]. }
  rewrite doubling_cons in Hd |- *.
  destruct (Ascii.eqb c lbrace); [|destruct (Ascii.eqb c rbrace)].
  - cbn [contains]. rewrite Hd, IH.
    cbn [startswith]. rewrite Hm1. reflexivity.
  - cbn [contains]. rewrite Hd, IH.
    cbn [startswith]. rewrite Hm2. reflexivity.
  - cbn [contains]. rewrite Hd, IH. reflexivity.
Qed.

Lemma escape_braces_without_markers r :
  forallb (fun m => negb (contains m r)) markers = true ->
  escape_braces r = replace "}" "}}" (replace "{" "{{" r).
Proof.
  intros Hr. cbn [forallb markers] in Hr.
  repeat (apply andb_prop in Hr as [?Hm Hr]).
  repeat match goal with
    | Hm : negb (contains ?m r) = true |- _ =>
        apply negb_true_iff in Hm;
        apply contains_doubling in Hm; [|reflexivity]
    end.
  unfold escape_braces.
  set (d := replace "}" "}}" (replace "{" "{{" r)) in *.
  unfold replace at 1 2 3 4.
  repeat (rewrite (replace_without_occurrence _ _ _ d) by assumption).
  reflexivity.
Qed.

Lemma escape_braces_without_marker r :
  mentions "<" r = false ->
  format_fields (escape_braces r) = Some [].
Proof.
  intros Hr. apply doubling_mentions in Hr.
  unfold escape_braces.
  set (d := replace "}" "}}" (replace "{" "{{" r)) in *.
  unfold replace at 1 2 3 4.
  do 4 rewrite (replace_without_marker _ _ d Hr).
  apply doubling_no_fields, le_n.
Qed.

End PromptFacts.

(** ** Rules for generator bodies *)

Section Rules.
Context {A B : Type}.
Implicit Types (w : World) (evs : list ChatEvent).

Lemma wp_bind (m : Gen A) (k : A -> Gen B) w
    (P : list ChatEvent -> World -> Outcome A -> Prop)
    (Q : list ChatEvent -> World -> Outcome B -> Prop) :
  wp m w P ->
  (forall evs w1 a, P evs w1 (Value a) ->
     wp (k a) w1 (fun evs' w2 o => Q (evs ++ evs') w2 o)) ->
  (forall evs w1 e, P evs w1 (Raised e) -> Q evs w1 (Raised e)) ->
  (forall evs w1, P evs w1 Returned -> Q evs w1 Returned) ->
  wp (m ≫= k) w Q.
Proof.
  unfold wp, mbind, Gen_bind, gen_bind. intros Hm Hv Hr Hx.
  destruct (m w) as [[evs w1] [a|e|]]; simpl in *.
  - specialize (Hv _ _ _ Hm).
    destruct (k a w1) as [[evs' w2] o]. exact Hv.
  - apply Hr, Hm.
  - apply Hx, Hm.
Qed.

Lemma wp_mono (m : Gen A) w
    (P Q : list ChatEvent -> World -> Outcome A -> Prop) :
  wp m w P -> (forall evs w' o, P evs w' o -> Q evs w' o) -> wp m w Q.
Proof. unfold wp. auto. Qed.

End Rules.

Section DerivedRules.
Context {A B : Type}.
Implicit Types (w : World) (evs : list ChatEvent).

Lemma wp_yield_bind ev (k : unit -> Gen B) w
    (Q : list ChatEvent -> World -> Outcome B -> Prop) :
  wp (k tt) w (fun evs w' o => Q (ev :: evs) w' o) ->
  wp (yield ev ≫= k) w Q.
Proof.
  intros H. eapply wp_bind with (P := fun evs w1 o =>
    evs = [ev] /\ w1 = w /\ o = Value tt).
  - unfold wp, yield. simpl. auto.
  - intros evs w1 a (-> & -> & Ha). destruct a. exact H.
  - intros evs w1 e (_ & _ & ?). discriminate.
  - intros evs w1 (_ & _ & ?). discriminate.
Qed.

Lemma wp_lift_bind (r : res A) (k : A -> Gen B) w
    (Q : list ChatEvent -> World -> Outcome B -> Prop) :
  (forall e, r = inl e -> Q [] w (Raised e)) ->
  (forall a, r = inr a -> wp (k a) w Q) ->
  wp (lift r ≫= k) w Q.
Proof.
  intros He Ha. eapply wp_bind with (P := fun evs w1 o =>
    evs = [] /\ w1 = w /\
    match o with
    | Value a => r = inr a
    | Raised e => r = inl e
    | Returned => False
    end).
  - unfold wp, lift. destruct r; simpl; auto.
  - intros evs w1 a (-> & -> & Hr). apply Ha, Hr.
  - intros evs w1 e (-> & -> & Hr). apply He, Hr.
  - intros evs w1 (_ & _ & []).
Qed.

Lemma wp_perform_bind (f : World -> res A) (k : A -> Gen B) w
    (Q : list ChatEvent -> World -> Outcome B -> Prop) :
  (forall e, f w = inl e -> Q [] w (Raised e)) ->
  (forall a, f w = inr a -> wp (k a) w Q) ->
  wp (perform f ≫= k) w Q.
Proof.
  intros He Ha. eapply wp_bind with (P := fun evs w1 o =>
    evs = [] /\ w1 = w /\
    match o with
    | Value a => f w = inr a
    | Raised e => f w = inl e
    | Returned => False
    end).
  - unfold wp, perform, ask, lift, mbind, Gen_bind, gen_bind. simpl.
    destruct (f w); simpl; auto.
  - intros evs w1 a (-> & -> & Hr). apply Ha, Hr.
  - intros evs w1 e (-> & -> & Hr). apply He, Hr.
  - intros evs w1 (_ & _ & []).
Qed.

End DerivedRules.

(** ** The steps of a turn *)

Section Steps.
Variable E : Env.
Implicit Types (w : World) (evs : list ChatEvent).

Lemma wp_silent_bind {A B} (m : Gen A) (k : A -> Gen B) w
    (Q : list ChatEvent -> World -> Outcome B -> Prop) :
  wp m w (silent w) ->
  (forall w1 a, same_db w w1 -> wp (k a) w1 Q) ->
  (forall w1 e, same_db w w1 -> Q [] w1 (Raised e)) ->
  wp (m ≫= k) w Q.
Proof.
  intros Hm Hv Hr. eapply wp_bind; [exact Hm|..].
  - intros evs w1 a (-> & Hw & _). apply Hv, Hw.
  - intros evs w1 e (-> & Hw & _). apply Hr, Hw.
  - intros evs w1 (_ & _ & Hx). contradiction.
Qed.

Lemma record_call_silent c w : wp (record_call c) w (silent w).
Proof. repeat split. discriminate. Qed.

Lemma datetime_now_silent w : wp (datetime_now E) w (silent w).
Proof. repeat split. discriminate. Qed.

Lemma perform_silent {A} (f : World -> res A) w : wp (perform f) w (silent w).
Proof.
  unfold wp, perform, ask, lift, mbind, Gen_bind, gen_bind. simpl.
  destruct (f w); repeat split; discriminate.
Qed.

Lemma lift_silent {A} (r : res A) w : wp (lift r) w (silent w).
Proof. destruct r; repeat split; discriminate. Qed.

Lemma db_check_silent op w : wp (db_check E op) w (silent w).
Proof.
  unfold wp, db_check, ask, mbind, Gen_bind, gen_bind. simpl.
  destruct (db_fault E op w); repeat split; discriminate.
Qed.

Lemma callback_manager_silent self t w :
  wp (_get_llamaindex_callback_manager E self t) w (silent w).
Proof.
  unfold _get_llamaindex_callback_manager.
  destruct (enable_langfuse self); [apply perform_silent|].
  repeat split. discriminate.
Qed.

Lemma silent_bind {A B} (m : Gen A) (k : A -> Gen B) w :
  wp m w (silent w) ->
  (forall w1 a, same_db w w1 -> wp (k a) w1 (silent w1)) ->
  wp (m ≫= k) w (silent w).
Proof.
  intros Hm Hk. apply wp_silent_bind; [exact Hm|..].
  - intros w1 a Hw. eapply wp_mono; [apply Hk, Hw|].
    intros evs w2 o (-> & Hw2 & Ho). repeat split; try assumption;
      destruct Hw as (? & ? & ?), Hw2 as (? & ? & ?); congruence.
  - intros w1 e Hw. repeat split; try apply Hw. discriminate.
Qed.

Lemma get_source_documents_silent r w :
  wp (_get_source_documents E r) w (silent w).
Proof.
  unfold _get_source_documents.
  apply silent_bind; [apply db_check_silent|]. intros w1 _ _.
  repeat split. discriminate.
Qed.

Lemma retrieve_graph_knowledge_silent self q h w :
  wp (retrieve_graph_knowledge E self q h) w (silent w).
Proof.
  unfold retrieve_graph_knowledge.
  destruct (enabled _); [|repeat split; discriminate].
  destruct (using_intent_search _).
  - apply silent_bind; [apply record_call_silent|]. intros w1 _ _.
    apply silent_bind; [apply lift_silent|]. intros w2 res _.
    apply silent_bind; [apply lift_silent|]. intros w3 g _.
    repeat split. discriminate.
  - apply silent_bind; [apply record_call_silent|]. intros w1 _ _.
    apply silent_bind; [apply lift_silent|]. intros w2 [[ents rels] chunks] _.
    apply silent_bind; [apply lift_silent|]. intros w3 g _.
    repeat split. discriminate.
Qed.

Lemma stream_text_spec gen acc w :
  wp (stream_text gen acc) w (fun evs w' o =>
    w' = w /\ evs = map text_part (words_of gen)
    /\ match o with
       | Value _ => unbroken gen = true
       | Raised _ => unbroken gen = false
       | Returned => False
       end).
Proof.
  revert acc; induction gen as [|word rest IH|e]; intros acc.
  - repeat split.
  - cbn [stream_text]. apply wp_yield_bind.
    eapply wp_mono; [apply IH|]. cbn beta.
    intros evs w' o (-> & -> & Ho). repeat split. exact Ho.
  - repeat split.
Qed.

End Steps.

(** ** The second half of a turn *)

Section SessionRules.
Variable E : Env.
Context {B : Type}.
Implicit Types (w : World) (evs : list ChatEvent).

Lemma wp_yield ev w (Q : list ChatEvent -> World -> Outcome unit -> Prop) :
  Q [ev] w (Value tt) -> wp (yield ev) w Q.
Proof. intros H. exact H. Qed.

Lemma wp_ret {A} (a : A) w (Q : list ChatEvent -> World -> Outcome A -> Prop) :
  Q [] w (Value a) -> wp (mret a) w Q.
Proof. intros H. exact H. Qed.

Lemma wp_session_add_bind obj (k : unit -> Gen B) w
    (Q : list ChatEvent -> World -> Outcome B -> Prop) :
  wp (k tt) (set_pending (pending w ++ [obj]) w) Q ->
  wp (session_add obj ≫= k) w Q.
Proof.
  intros H. eapply wp_bind with (P := fun evs w1 o =>
    evs = [] /\ w1 = set_pending (pending w ++ [obj]) w /\ o = Value tt).
  - repeat split.
  - intros evs w1 [] (-> & -> & _). exact H.
  - intros evs w1 e (_ & _ & ?). discriminate.
  - intros evs w1 (_ & _ & ?). discriminate.
Qed.

Lemma session_commit_run w :
  session_commit E w =
    match db_fault E OpCommit w with
    | Some e => ([], w, Raised e)
    | None =>
        match flush (pending w) (chats w, chat_messages w) with
        | inl e => ([], w, Raised e)
        | inr (stored, db) =>
            ([], set_pending [] (set_tables db.1 db.2 w), Value stored)
        end
    end.
Proof.
  unfold session_commit, db_check, ask, lift, put, mbind, Gen_bind, gen_bind.
  simpl. destruct (db_fault E OpCommit w); [reflexivity|]. simpl.
  destruct (flush _ _) as [e|[stored db]]; reflexivity.
Qed.

Lemma wp_session_commit_bind (k : list Row -> Gen B) w
    (Q : list ChatEvent -> World -> Outcome B -> Prop) :
  (forall e,
      db_fault E OpCommit w = Some e
      \/ flush (pending w) (chats w, chat_messages w) = inl e ->
      Q [] w (Raised e)) ->
  (forall stored db,
      db_fault E OpCommit w = None ->
      flush (pending w) (chats w, chat_messages w) = inr (stored, db) ->
      wp (k stored) (set_pending [] (set_tables db.1 db.2 w)) Q) ->
  wp (session_commit E ≫= k) w Q.
Proof.
  intros He Hk. eapply wp_bind with (P := fun evs w1 o =>
    evs = [] /\
    match o with
    | Value stored =>
        exists db, db_fault E OpCommit w = None
          /\ flush (pending w) (chats w, chat_messages w) = inr (stored, db)
          /\ w1 = set_pending [] (set_tables db.1 db.2 w)
    | Raised e =>
        w1 = w
        /\ (db_fault E OpCommit w = Some e
            \/ flush (pending w) (chats w, chat_messages w) = inl e)
    | Returned => False
    end).
  - unfold wp. rewrite session_commit_run.
    destruct (db_fault E OpCommit w); [simpl; auto|].
    destruct (flush _ _) as [e|[stored db]]; simpl; eauto.
  - intros evs w1 stored (-> & db & Hf & Hfl & ->). apply Hk; assumption.
  - intros evs w1 e (-> & -> & Hwhy). apply He, Hwhy.
  - intros evs w1 (_ & []).
Qed.

Lemma wp_db_check_bind op (k : unit -> Gen B) w
    (Q : list ChatEvent -> World -> Outcome B -> Prop) :
  (forall e, db_fault E op w = Some e -> Q [] w (Raised e)) ->
  (db_fault E op w = None -> wp (k tt) w Q) ->
  wp (db_check E op ≫= k) w Q.
Proof.
  intros He Hk. eapply wp_bind with (P := fun evs w1 o =>
    evs = [] /\ w1 = w /\
    match o with
    | Value _ => db_fault E op w = None
    | Raised e => db_fault E op w = Some e
    | Returned => False
    end).
  - unfold wp, db_check, ask, mbind, Gen_bind, gen_bind. simpl.
    destruct (db_fault E op w); simpl; auto.
  - intros evs w1 [] (-> & -> & Hf). apply Hk, Hf.
  - intros evs w1 e (-> & -> & Hf). apply He, Hf.
  - intros evs w1 (_ & _ & []).
Qed.

Lemma wp_ask_bind (k : World -> Gen B) w
    (Q : list ChatEvent -> World -> Outcome B -> Prop) :
  wp (k w) w Q -> wp (ask ≫= k) w Q.
Proof.
  intros H. eapply wp_bind with (P := fun evs w1 o =>
    evs = [] /\ w1 = w /\ o = Value w).
  - repeat split.
  - intros evs w1 a (-> & -> & Ha). injection Ha as <-. exact H.
  - intros evs w1 e (_ & _ & ?). discriminate.
  - intros evs w1 (_ & _ & ?). discriminate.
Qed.

End SessionRules.

Ltac beta_pairs :=
  cbv beta;
  repeat match goal with
    | |- wp (let '(_, _) := ?p in _) _ _ => destruct p
    | |- wp (match ?p with (_, _) => _ end) _ _ => destruct p
    end.

Ltac walk_step :=
  lazymatch goal with
  | |- wp (mbind _ (yield _)) _ _ => apply wp_yield_bind; beta_pairs
  | |- wp (mbind _ (perform _)) _ _ =>
      apply wp_perform_bind; [intros ? ? | intros ? ?; beta_pairs]
  | |- wp (mbind _ (lift _)) _ _ =>
      apply wp_lift_bind; [intros ? ? | intros ? ?; beta_pairs]
  | |- wp (mbind _ (record_call _)) _ _ =>
      apply wp_silent_bind;
        [apply record_call_silent | intros ? ? ?; beta_pairs | intros ? ? ?]
  | |- wp (mbind _ (datetime_now _)) _ _ =>
      apply wp_silent_bind;
        [apply datetime_now_silent | intros ? ? ?; beta_pairs | intros ? ? ?]
  | |- wp (mbind _ (_get_llamaindex_callback_manager _ _ _)) _ _ =>
      apply wp_silent_bind;
        [apply callback_manager_silent | intros ? ? ?; beta_pairs
        | intros ? ? ?]
  | |- wp (mbind _ (retrieve_graph_knowledge _ _ _ _)) _ _ =>
      apply wp_silent_bind;
        [apply retrieve_graph_knowledge_silent | intros ? ? ?; beta_pairs
        | intros ? ? ?]
  | |- wp (mbind _ (_get_source_documents _ _)) _ _ =>
      apply wp_silent_bind;
        [apply get_source_documents_silent | intros ? ? ?; beta_pairs
        | intros ? ? ?]
  | |- wp (mbind _ (stream_text _ _)) _ _ =>
      eapply wp_bind;
        [apply stream_text_spec
        | intros ? ? ? (-> & -> & ?); beta_pairs
        | intros ? ? ? (-> & -> & ?)
        | intros ? ? (_ & _ & [])]
  | |- wp (mbind _ (session_add _)) _ _ =>
      apply wp_session_add_bind; beta_pairs
  | |- wp (mbind _ (session_commit _)) _ _ =>
      apply wp_session_commit_bind; [intros ? ? | intros ? ? ? ?; beta_pairs]
  | |- wp (mbind _ (db_check _ _)) _ _ =>
      apply wp_db_check_bind; [intros ? ? | intros ?; beta_pairs]
  | |- wp (mbind _ ask) _ _ => apply wp_ask_bind; beta_pairs
  | |- wp (yield _) _ _ => apply wp_yield
  | |- wp (mret _) _ _ => apply wp_ret
  end.

Ltac same_db_chain :=
  repeat match goal with
    | H : same_db _ _ |- _ => destruct H as (? & ? & ?)
    end;
  simpl; repeat split; congruence.

Ltac close_prefix :=
  unfold progress_events; cbn [app map];
  rewrite ?app_nil_r;
  repeat apply prefix_cons;
  first [apply prefix_nil | reflexivity | apply prefix_app_r; reflexivity].

Section Turn.
Variable E : Env.
Implicit Types (w : World) (evs : list ChatEvent).

Lemma _chat_turn_shape self st w :
  wp (_chat_turn E self st) w (fun evs w' o =>
    match o with
    | Value _ =>
        exists docs words final,
          evs = progress_events st docs words ++ closing_events st final
    | Raised _ =>
        (exists docs words, evs `prefix_of` progress_events st docs words)
        /\ chats w' = chats w /\ chat_messages w' = chat_messages w
    | Returned => False
    end).
Proof.
  unfold _chat_turn.
  repeat walk_step; cbv beta;
    try (split;
         [first [exists [], []; close_prefix | eexists _, _; close_prefix]
         |same_db_chain]).
  eexists _, _, _. reflexivity.
Qed.

End Turn.

(** ** The first half of a turn *)

Section Open.
Variable E : Env.
Implicit Types (w : World) (evs : list ChatEvent).

Lemma flush_app_insert ps m db :
  DBChatMessage.id m = None ->
  flush (ps ++ [RMessage m]) db =
    match flush ps db with
    | inl e => inl e
    | inr (stored, db1) =>
        let m' := with_message_id (fresh_message_id db1.2) m in
        inr (stored ++ [RMessage m'], (db1.1, db1.2 ++ [m']))
    end.
Proof.
  intros Hid. revert db. induction ps as [|p ps IH]; intros db.
  - cbn [app flush flush_row]. rewrite Hid. reflexivity.
  - cbn [app flush]. destruct (flush_row p db) as [e|[s1 db1]]; [reflexivity|].
    rewrite IH. destruct (flush ps db1) as [e|[s2 db2]]; reflexivity.
Qed.

Lemma BaseRepo_create_spec obj w :
  wp (BaseRepo_create E obj) w (fun evs w' o =>
    evs = [] /\
    match o with
    | Value r =>
        exists stored db,
          flush (pending w ++ [obj]) (chats w, chat_messages w)
          = inr (stored, db)
          /\ r = default obj (last stored)
          /\ chats w' = db.1 /\ chat_messages w' = db.2 /\ pending w' = []
    | Raised e =>
        db_healthy E ->
        flush (pending w ++ [obj]) (chats w, chat_messages w) = inl e
    | Returned => False
    end).
Proof.
  unfold BaseRepo_create. repeat walk_step; cbv beta.
  - split; [reflexivity|]. intros Hh.
    match goal with
    | H : _ \/ _ |- _ => destruct H as [H|H]; [rewrite Hh in H; discriminate | exact H]
    end.
  - split; [reflexivity|]. intros Hh.
    match goal with
    | H : db_fault _ _ _ = Some _ |- _ => rewrite Hh in H; discriminate
    end.
  - split; [reflexivity|]. eexists _, _. repeat split. eassumption.
Qed.

Lemma chat_repo_create_message_spec c m w :
  DBChatMessage.id m = None ->
  wp (chat_repo_create_message E c m) w (fun evs w' o =>
    evs = [] /\
    match o with
    | Value m' =>
        stored_from m m'
        /\ pending w' = []
        /\ (exists ms, chat_messages w' = ms ++ [m']
              /\ (pending w = [] -> ms = chat_messages w
                                    /\ chats w' = chats w))
    | Raised _ => db_healthy E -> pending w = [] -> False
    | Returned => False
    end).
Proof.
  intros Hid. unfold chat_repo_create_message.
  set (k := fun o : nat =>
    BaseRepo_create E (RMessage (with_chat_ordinal (DBChat.id c) o m))
    ≫= (fun obj => mret (match obj with
                         | RMessage m0 => m0
                         | RChat _ => m
                         end))).
  assert (Hk : forall o w0, pending w0 = pending w ->
            chats w0 = chats w -> chat_messages w0 = chat_messages w ->
            wp (k o) w0 (fun evs w' o =>
    evs = [] /\
    match o with
    | Value m' =>
        stored_from m m'
        /\ pending w' = []
        /\ (exists ms, chat_messages w' = ms ++ [m']
              /\ (pending w = [] -> ms = chat_messages w
                                    /\ chats w' = chats w))
    | Raised _ => db_healthy E -> pending w = [] -> False
    | Returned => False
    end)).
  { intros o w0 Hp Hc Hm. unfold k.
    eapply wp_bind; [apply BaseRepo_create_spec|..]; cbv beta.
    - intros evs w1 r (-> & stored & db & Hfl & -> & Hc1 & Hm1 & Hp1).
      rewrite flush_app_insert in Hfl by exact Hid.
      destruct (flush (pending w0) _) as [e|[s1 db1]] eqn:Hps; [discriminate|].
      cbv zeta in Hfl. injection Hfl as <- <-.
      rewrite last_snoc. apply wp_ret. split; [reflexivity|].
      cbn [default]. split; [repeat split|]. split; [exact Hp1|].
      eexists. split; [rewrite Hm1; reflexivity|].
      intros Hnil. rewrite Hp, Hnil in Hps. cbn in Hps.
      injection Hps as <- <-. cbn. rewrite Hc1. cbn. auto.
    - intros evs w1 e (-> & Hbad). split; [reflexivity|].
      intros Hh Hnil. specialize (Hbad Hh).
      rewrite flush_app_insert in Hbad by exact Hid.
      rewrite Hp, Hnil in Hbad. cbn in Hbad. discriminate.
    - intros evs w1 (_ & []). }
  eapply wp_bind with (P := fun evs w1 o =>
    evs = [] /\ w1 = w /\
    match o with
    | Value _ => True
    | Raised _ => db_healthy E -> False
    | Returned => False
    end); cbv beta.
  - destruct (DBChatMessage.ordinal m =? 0); [|repeat split].
    repeat walk_step; cbv beta; repeat split.
    intros Hh. match goal with
               | H : db_fault _ _ _ = Some _ |- _ =>
                   rewrite Hh in H; discriminate
               end.
  - intros evs w1 o (-> & -> & _). apply (Hk o w); reflexivity.
  - intros evs w1 e (-> & -> & Hbad). split; [reflexivity|]. auto.
  - intros evs w1 (_ & _ & []).
Qed.

Lemma create_history_spec c h : forall i w,
  wp (create_history E c i h) w (fun evs w' o =>
    evs = [] /\
    match o with
    | Value _ => pending w = [] -> pending w' = []
    | Raised _ => db_healthy E -> pending w = [] -> False
    | Returned => False
    end).
Proof.
  induction h as [|m h IH]; intros i w; [apply wp_ret; split; auto|].
  cbn [create_history].
  eapply wp_bind; [apply chat_repo_create_message_spec; reflexivity|..];
    cbv beta.
  - intros evs w1 m' (-> & _ & Hp1 & _).
    eapply wp_mono; [apply IH|]. cbv beta.
    intros evs w2 [[]|e|] (-> & Ho); split; auto.
  - intros evs w1 e (-> & Hbad). split; auto.
  - intros evs w1 (_ & []).
Qed.

Lemma chat_repo_create_spec c w :
  wp (chat_repo_create E c) w (fun evs w' o =>
    evs = [] /\
    match o with
    | Value _ => pending w' = []
    | Raised _ =>
        db_healthy E -> pending w = [] -> chats w !! DBChat.id c = None ->
        False
    | Returned => False
    end).
Proof.
  unfold chat_repo_create.
  eapply wp_bind; [apply BaseRepo_create_spec|..]; cbv beta.
  - intros evs w1 r (-> & stored & db & _ & _ & _ & _ & Hp).
    apply wp_ret. split; auto.
  - intros evs w1 e (-> & Hbad). split; [reflexivity|].
    intros Hh Hnil Hfresh. specialize (Hbad Hh).
    rewrite Hnil in Hbad. cbn in Hbad. rewrite Hfresh in Hbad.
    discriminate.
  - intros evs w1 (_ & []).
Qed.

Lemma session_get_spec id w :
  wp (session_get E id) w (fun evs w1 o =>
    evs = [] /\ w1 = w /\
    match o with
    | Value r => r = chats w !! id
    | Raised _ => db_healthy E -> False
    | Returned => False
    end).
Proof.
  unfold session_get. repeat walk_step; cbv beta; repeat split.
  intros Hh. match goal with
             | H : db_fault _ _ _ = Some _ |- _ =>
                 rewrite Hh in H; discriminate
             end.
Qed.

Lemma chat_repo_get_messages_spec c w :
  wp (chat_repo_get_messages E c) w (fun evs w1 o =>
    evs = [] /\ w1 = w /\
    match o with
    | Value _ => True
    | Raised _ => db_healthy E -> False
    | Returned => False
    end).
Proof.
  unfold chat_repo_get_messages. repeat walk_step; cbv beta; repeat split.
  intros Hh. match goal with
             | H : db_fault _ _ _ = Some _ |- _ =>
                 rewrite Hh in H; discriminate
             end.
Qed.

Lemma _chat_open_spec self msgs chat_id w :
  wp (_chat_open E self msgs chat_id) w (fun evs w' o =>
    match o with
    | Value st =>
        evs = []
        /\ pending w' = []
        /\ (exists ms, chat_messages w'
                       = ms ++ [db_user_message st; db_assistant_message st])
        /\ stored_from (DBChatMessage.make MessageRole.USER (user_question st))
             (db_user_message st)
        /\ stored_from (assistant_placeholder (trace_url_of st))
             (db_assistant_message st)
    | Raised _ =>
        evs = []
        /\ (healthy_opening E self -> pending w = [] ->
            msgs <> [] -> False)
    | Returned =>
        evs = [error_part "Chat not found"] /\ w' = w
        /\ exists id, chat_id = Some id /\ chats w !! id = None
    end).
Proof.
  unfold _chat_open.
  apply wp_lift_bind.
  { intros e He. split; [reflexivity|]. intros _ _ Hne.
    unfold _parse_chat_messages in He.
    destruct (last msgs) eqn:Hl; [discriminate|].
    apply last_None in Hl. contradiction. }
  intros [question history] _. cbv beta iota.
  eapply wp_bind with (P := fun evs w1 o =>
    match o with
    | Value _ => evs = [] /\ (pending w = [] -> pending w1 = [])
    | Raised _ =>
        evs = [] /\ (healthy_opening E self -> pending w = [] -> False)
    | Returned =>
        evs = [error_part "Chat not found"] /\ w1 = w
        /\ exists id, chat_id = Some id /\ chats w !! id = None
    end); cbv beta.
  - destruct chat_id as [cid|].
    + unfold chat_repo_get.
      eapply wp_bind; [apply session_get_spec|..]; cbv beta.
      * intros evs w1 found (-> & -> & ->).
        destruct (chats w !! cid) as [c|] eqn:Hlook.
        -- eapply wp_bind; [apply chat_repo_get_messages_spec|..]; cbv beta.
           ++ intros evs w1 stored (-> & -> & _). apply wp_ret. split; auto.
           ++ intros evs w1 e (-> & -> & Hbad). split; [reflexivity|].
              intros Hh _. apply Hbad. exact (opening_db _ _ Hh).
           ++ intros evs w1 (_ & _ & []).
        -- apply wp_yield_bind. repeat split. eauto.
      * intros evs w1 e (-> & -> & Hbad). split; [reflexivity|].
        intros Hh _. apply Hbad. exact (opening_db _ _ Hh).
      * intros evs w1 (_ & _ & []).
    + apply wp_ask_bind.
      eapply wp_bind; [apply chat_repo_create_spec|..]; cbv beta.
      * intros evs w1 c (-> & Hp).
        eapply wp_bind; [apply create_history_spec|..]; cbv beta.
        -- intros evs w2 [] (-> & Hp2). apply wp_ret. split; auto.
        -- intros evs w2 e (-> & Hbad). split; [reflexivity|].
           intros Hh _. apply Hbad; [exact (opening_db _ _ Hh)|exact Hp].
        -- intros evs w2 (_ & []).
      * intros evs w1 e (-> & Hbad). split; [reflexivity|].
        intros Hh Hnil. apply Hbad;
          [exact (opening_db _ _ Hh) | exact Hnil | exact (opening_uuid _ _ Hh _)].
      * intros evs w1 (_ & []).
  - intros evs w1 [c h] (-> & Hp1). cbv beta iota.
    eapply wp_bind with (P := fun evs w2 o =>
      evs = [] /\ w2 = w1 /\
      match o with
      | Value _ => True
      | Raised _ => healthy_opening E self -> False
      | Returned => False
      end); cbv beta.
    + destruct (enable_langfuse self) eqn:Hen; [|repeat split].
      unfold wp, perform, ask, lift, mbind, Gen_bind, gen_bind. simpl.
      destruct (langfuse_trace E w1 _) as [e|a] eqn:Ht; simpl;
        repeat split.
      intros Hh. pose proof (opening_trace _ _ Hh Hen w1) as Hok.
      rewrite Ht in Hok. discriminate.
    + intros evs w2 [tid turl] (-> & -> & _). cbv beta iota.
      eapply wp_bind;
        [apply chat_repo_create_message_spec; reflexivity|..]; cbv beta.
      * intros evs w3 um (-> & Hum & Hp3 & ms & Hms & _).
        eapply wp_bind;
          [apply chat_repo_create_message_spec; reflexivity|..]; cbv beta.
        -- intros evs w4 am (-> & Ham & Hp4 & ms' & Hms' & Hkeep).
           apply wp_ret. cbn.
           destruct (Hkeep Hp3) as [-> _].
           repeat split; try apply Hum; try apply Ham; try exact Hp4.
           exists ms. rewrite Hms', Hms, <- app_assoc. reflexivity.
        -- intros evs w4 e (-> & Hbad). split; [reflexivity|].
           intros Hh _ _. apply Hbad; [exact (opening_db _ _ Hh)|exact Hp3].
        -- intros evs w4 (_ & []).
      * intros evs w3 e (-> & Hbad). split; [reflexivity|].
        intros Hh Hnil _. apply Hbad; [exact (opening_db _ _ Hh)|auto].
      * intros evs w3 (_ & []).
    + intros evs w2 e (-> & -> & Hbad). split; [reflexivity|]. auto.
    + intros evs w2 (_ & _ & []).
  - intros evs w1 e (-> & Hbad). split; [reflexivity|]. auto.
  - intros evs w1 (-> & -> & Hid). repeat split. exact Hid.
Qed.

End Open.

(** ** Retrieval without the knowledge graph, and a lone message *)

Section Disabled.
Variable E : Env.
Implicit Types (w : World) (evs : list ChatEvent).

Lemma retrieve_graph_knowledge_disabled self q h w :
  enabled (knowledge_graph (chat_engine_config self)) = false ->
  retrieve_graph_knowledge E self q h w
  = ([], w, Value ([], [], Some [], EmptyString)).
Proof. intros Hd. unfold retrieve_graph_knowledge. rewrite Hd. reflexivity. Qed.

Lemma flush_message_alone m db : is_ok (flush [RMessage m] db) = true.
Proof. cbn. destruct (DBChatMessage.id m); reflexivity. Qed.
End Disabled.

(** ** Event counts *)

Section Counts.
Implicit Types (evs : list ChatEvent) (p : ChatEvent -> bool).

Lemma count_app p evs1 evs2 : count p (evs1 ++ evs2) = count p evs1 + count p evs2.
Proof. unfold count. rewrite List.filter_app, length_app. reflexivity. Qed.

Lemma count_text_parts p words :
  p (text_part EmptyString) = false ->
  (forall s, p (text_part s) = p (text_part EmptyString)) ->
  count p (map text_part words) = 0.
Proof.
  intros H0 Hall. unfold count. induction words as [|s words IH]; [reflexivity|].
  cbn [map List.filter]. rewrite Hall, H0. exact IH.
Qed.

Lemma count_error_progress st docs words :
  count is_error (progress_events st docs words) = 0.
Proof.
  unfold progress_events. rewrite count_app.
  rewrite count_text_parts by (intros; reflexivity). reflexivity.
Qed.

Lemma count_finished_progress st docs words :
  count (is_state FINISHED) (progress_events st docs words) = 0.
Proof.
  unfold progress_events. rewrite count_app.
  rewrite count_text_parts by (intros; reflexivity). reflexivity.
Qed.

Lemma count_data_progress st docs words :
  count is_data (progress_events st docs words) = 1.
Proof.
  unfold progress_events. rewrite count_app.
  rewrite count_text_parts by (intros; reflexivity). reflexivity.
Qed.

Lemma count_prefix p evs1 evs2 :
  evs1 `prefix_of` evs2 -> count p evs1 <= count p evs2.
Proof. intros [k ->]. rewrite count_app. lia. Qed.

End Counts.

(** ** The whole turn *)

Section Whole.
Variable E : Env.
Implicit Types (w : World) (evs : list ChatEvent).

Lemma _chat_shape self msgs chat_id w :
  wp (_chat E self msgs chat_id) w (fun evs w' o =>
    match o with
    | Value _ =>
        exists st docs words final,
          evs = progress_events st docs words ++ closing_events st final
    | Raised _ =>
        count is_error evs = 0 /\ count (is_state FINISHED) evs = 0
    | Returned => evs = [error_part "Chat not found"] /\ w' = w
    end).
Proof.
  unfold _chat.
  eapply wp_bind; [apply _chat_open_spec|..]; cbv beta.
  - intros evs w1 st (-> & _).
    eapply wp_mono; [apply _chat_turn_shape|]. cbv beta.
    intros evs w2 [[]|e|]; cbn [app].
    + intros (docs & words & final & ->). eauto.
    + intros ((docs & words & Hpre) & _). split.
      * pose proof (count_prefix is_error _ _ Hpre) as Hle.
        rewrite count_error_progress in Hle. lia.
      * pose proof (count_prefix (is_state FINISHED) _ _ Hpre) as Hle.
        rewrite count_finished_progress in Hle. lia.
    + intros [].
  - intros evs w1 e (-> & _). split; reflexivity.
  - intros evs w1 (-> & -> & _). split; reflexivity.
Qed.

Lemma chat_events self msgs chat_id w :
  (chat E self msgs chat_id w).1 =
    match (_chat E self msgs chat_id w).2 with
    | Raised _ =>
        (_chat E self msgs chat_id w).1.1 ++ [error_part generic_error]
    | _ => (_chat E self msgs chat_id w).1.1
    end.
Proof.
  unfold chat. destruct (_chat E self msgs chat_id w) as [[evs w'] [v|e|]];
    reflexivity.
Qed.

(** C1: every run of [chat] ends in exactly one of the two terminal
    outcomes: a FINISHED annotation followed by the final DATA_PART with no
    ERROR_PART anywhere, or a single ERROR_PART as last event with no
    FINISHED annotation; never both and never neither. *)
Theorem chat_terminal_outcome self msgs chat_id w :
  let evs := (chat E self msgs chat_id w).1 in
  (normal_completion evs /\ ~ error_termination evs)
  \/ (error_termination evs /\ ~ normal_completion evs).
Proof.
  cbv zeta. rewrite chat_events.
  pose proof (_chat_shape self msgs chat_id w) as H. unfold wp in H.
  destruct (_chat E self msgs chat_id w) as [[evs w'] [v|e|]];
    cbn [fst snd] in *.
  - left. destruct H as (st & docs & words & final & ->).
    assert (Hc : count is_error
              (progress_events st docs words ++ closing_events st final) = 0).
    { rewrite count_app, count_error_progress. reflexivity. }
    split.
    + split; [|exact Hc].
      exists (progress_events st docs words), (annotation FINISHED None None),
        (data_part (db_chat_obj st) (db_user_message st) final).
      repeat split.
    + intros (_ & Hone & _). rewrite Hc in Hone. discriminate.
  - right. destruct H as (Herr & Hfin).
    assert (Hc : count is_error (evs ++ [error_part generic_error]) = 1).
    { rewrite count_app, Herr. reflexivity. }
    split.
    + split; [|split; [exact Hc|]].
      * exists evs, (error_part generic_error). split; reflexivity.
      * rewrite count_app, Hfin. reflexivity.
    + intros (_ & Hzero). rewrite Hc in Hzero. discriminate.
  - right. destruct H as (-> & _). split.
    + split; [|split; reflexivity].
      exists [], (error_part "Chat not found"). split; reflexivity.
    + intros (_ & Hzero). discriminate.
Qed.

Lemma _chat_unfold self msgs chat_id w :
  _chat E self msgs chat_id w =
    match _chat_open E self msgs chat_id w with
    | (evs, w1, Value st) =>
        match _chat_turn E self st w1 with
        | (evs', w2, o) => (evs ++ evs', w2, o)
        end
    | (evs, w1, Raised e) => (evs, w1, Raised e)
    | (evs, w1, Returned) => (evs, w1, Returned)
    end.
Proof. reflexivity. Qed.

Lemma normal_completion_shape st docs words final :
  normal_completion
    (progress_events st docs words ++ closing_events st final).
Proof.
  split.
  - exists (progress_events st docs words), (annotation FINISHED None None),
      (data_part (db_chat_obj st) (db_user_message st) final).
    repeat split.
  - rewrite count_app, count_error_progress. reflexivity.
Qed.

(** C3: when an error leaves the turn after the user message and the
    empty assistant message were stored, [chat] emits progress events
    only and then one ERROR_PART with the generic message; there is no
    FINISHED annotation and no DATA_PART other than the announcing one;
    both tables are as they were when the two messages had been stored,
    so both messages are still there and the assistant message is still
    empty and unfinished. *)
Theorem error_after_messages_persisted self msgs chat_id w st e :
  (_chat_open E self msgs chat_id w).2 = Value st ->
  (_chat_turn E self st (_chat_open E self msgs chat_id w).1.2).2
    = Raised e ->
  (exists docs words pre,
      pre `prefix_of` progress_events st docs words
      /\ (chat E self msgs chat_id w).1 = pre ++ [error_part generic_error])
  /\ count is_error (chat E self msgs chat_id w).1 = 1
  /\ count (is_state FINISHED) (chat E self msgs chat_id w).1 = 0
  /\ count is_data (chat E self msgs chat_id w).1 <= 1
  /\ chats (chat E self msgs chat_id w).2
     = chats (_chat_open E self msgs chat_id w).1.2
  /\ chat_messages (chat E self msgs chat_id w).2
     = chat_messages (_chat_open E self msgs chat_id w).1.2
  /\ In (db_user_message st) (chat_messages (chat E self msgs chat_id w).2)
  /\ In (db_assistant_message st)
       (chat_messages (chat E self msgs chat_id w).2)
  /\ DBChatMessage.content (db_user_message st) = user_question st
  /\ DBChatMessage.content (db_assistant_message st) = ""
  /\ DBChatMessage.sources (db_assistant_message st) = []
  /\ DBChatMessage.finished_at (db_assistant_message st) = None.
Proof.
  intros Hopen Hturn.
  pose proof (_chat_open_spec E self msgs chat_id w) as Ho. unfold wp in Ho.
  unfold chat. rewrite _chat_unfold.
  destruct (_chat_open E self msgs chat_id w) as [[evs0 w1] o0].
  cbn [fst snd] in *. subst o0.
  destruct Ho as (-> & _ & (ms & Hms) & Hum & Ham).
  pose proof (_chat_turn_shape E self st w1) as Ht. unfold wp in Ht.
  destruct (_chat_turn E self st w1) as [[evs2 w2] o2].
  cbn [fst snd] in *. subst o2.
  destruct Ht as ((docs & words & Hpre) & Hc & Hm).
  cbn [app fst snd set_logged chats chat_messages].
  pose proof (count_prefix is_error _ _ Hpre) as He.
  rewrite count_error_progress in He.
  pose proof (count_prefix (is_state FINISHED) _ _ Hpre) as Hf.
  rewrite count_finished_progress in Hf.
  pose proof (count_prefix is_data _ _ Hpre) as Hd.
  rewrite count_data_progress in Hd.
  rewrite !count_app. cbn [count List.filter is_error is_state is_data
    error_part event_type payload length].
  repeat split; try lia; try assumption; try apply Hum; try apply Ham.
  - exists docs, words, evs2. split; [exact Hpre|reflexivity].
  - rewrite Hm, Hms. apply in_or_app. right. left. reflexivity.
  - rewrite Hm, Hms. apply in_or_app. right. right. left. reflexivity.
Qed.

(** C5, amended: with a non-empty message list and a chat identifier
    that the repository looks up and does not find, the stream is the
    single event ERROR_PART "Chat not found", and the world is untouched:
    nothing is stored and no collaborator is called. *)
Theorem chat_not_found self msgs cid w :
  msgs <> [] ->
  db_fault E OpGet w = None ->
  chats w !! cid = None ->
  chat E self msgs (Some cid) w = ([error_part "Chat not found"], w).
Proof.
  intros Hne Hdb Hnone.
  unfold chat, _chat, _chat_open, _parse_chat_messages.
  destruct (last msgs) as [m|] eqn:Hl;
    [|apply last_None in Hl; contradiction].
  unfold chat_repo_get, session_get, db_check, ask, lift, yield, return_,
    mbind, mret, Gen_bind, Gen_ret, gen_bind, gen_ret.
  cbn. rewrite Hdb. cbn. rewrite Hnone. reflexivity.
Qed.

(** C10: on the empty message list [chat] does not raise: it gives the
    single event ERROR_PART with the generic message, and the world
    differs by the logged [IndexError] only, so no chat and no message
    is created. *)
Theorem empty_messages_error self chat_id w :
  chat E self [] chat_id w
  = ([error_part generic_error], set_logged (logged w ++ [IndexError]) w)
  /\ chats (chat E self [] chat_id w).2 = chats w
  /\ chat_messages (chat E self [] chat_id w).2 = chat_messages w
  /\ pending (chat E self [] chat_id w).2 = pending w
  /\ calls (chat E self [] chat_id w).2 = calls w.
Proof. repeat split. Qed.

End Whole.

(** ** The collaborator calls of a turn *)

Section Calls.
Variable E : Env.
Implicit Types (w : World).

Lemma neutral_bind {A B} (m : Gen A) (k : A -> Gen B) :
  neutral m -> (forall a, neutral (k a)) -> neutral (m ≫= k).
Proof.
  intros Hm Hk w. specialize (Hm w).
  unfold mbind, Gen_bind, gen_bind.
  destruct (m w) as [[evs w1] [a|e|]]; cbn [fst snd] in *; try exact Hm.
  specialize (Hk a w1). destruct (k a w1) as [[evs' w2] o].
  cbn [fst snd] in *. congruence.
Qed.

Lemma preserves_bind {A B} (I : World -> Prop) (m : Gen A) (k : A -> Gen B) :
  preserves I m -> (forall a, preserves I (k a)) -> preserves I (m ≫= k).
Proof.
  intros Hm Hk w Hw. specialize (Hm w Hw).
  unfold mbind, Gen_bind, gen_bind.
  destruct (m w) as [[evs w1] [a|e|]]; cbn [fst snd] in *; try exact Hm.
  specialize (Hk a w1 Hm). destruct (k a w1) as [[evs' w2] o]. exact Hk.
Qed.

Lemma neutral_preserves {A} self old (m : Gen A) :
  neutral m -> preserves (query_calls_of self old) m.
Proof. intros Hm w Hw a q. rewrite (Hm w). apply Hw. Qed.

Lemma neutral_ret {A} (a : A) : neutral (mret a).
Proof. intros w. reflexivity. Qed.

Lemma neutral_yield ev : neutral (yield ev).
Proof. intros w. reflexivity. Qed.

Lemma neutral_return {A} : neutral (@return_ A).
Proof. intros w. reflexivity. Qed.

Lemma neutral_ask : neutral ask.
Proof. intros w. reflexivity. Qed.

Lemma neutral_lift {A} (r : res A) : neutral (lift r).
Proof. intros w. destruct r; reflexivity. Qed.

Lemma neutral_perform {A} (f : World -> res A) : neutral (perform f).
Proof.
  intros w. unfold perform, ask, lift, mbind, Gen_bind, gen_bind. cbn.
  destruct (f w); reflexivity.
Qed.

Lemma neutral_db_check op : neutral (db_check E op).
Proof.
  intros w. unfold db_check, ask, mbind, Gen_bind, gen_bind. cbn.
  destruct (db_fault E op w); reflexivity.
Qed.

Lemma neutral_session_add obj : neutral (session_add obj).
Proof. intros w. reflexivity. Qed.

Lemma neutral_session_commit : neutral (session_commit E).
Proof.
  intros w. rewrite session_commit_run.
  destruct (db_fault E OpCommit w); [reflexivity|].
  destruct (flush _ _) as [e|[stored db]]; reflexivity.
Qed.

Lemma neutral_datetime_now : neutral (datetime_now E).
Proof. intros w. reflexivity. Qed.

Lemma neutral_stream_text gen acc : neutral (stream_text gen acc).
Proof.
  revert acc. induction gen as [|word rest IH|e]; intros acc.
  - apply neutral_ret.
  - cbn [stream_text]. apply neutral_bind; [apply neutral_yield|].
    intros _. apply IH.
  - intros w. reflexivity.
Qed.

Ltac neutral_step :=
  cbv beta;
  lazymatch goal with
  | |- neutral (mbind _ _) => apply neutral_bind; [|intros ?]
  | |- neutral (let '(_, _) := ?p in _) => destruct p
  | |- neutral (if ?b then _ else _) => destruct b
  | |- neutral (match ?x with _ => _ end) => destruct x
  | |- neutral (mret _) => apply neutral_ret
  | |- neutral (yield _) => apply neutral_yield
  | |- neutral return_ => apply neutral_return
  | |- neutral ask => apply neutral_ask
  | |- neutral (lift _) => apply neutral_lift
  | |- neutral (perform _) => apply neutral_perform
  | |- neutral (db_check _ _) => apply neutral_db_check
  | |- neutral (session_add _) => apply neutral_session_add
  | |- neutral (session_commit _) => apply neutral_session_commit
  | |- neutral (datetime_now _) => apply neutral_datetime_now
  | |- neutral (stream_text _ _) => apply neutral_stream_text
  end.

Lemma neutral_create_message c m : neutral (chat_repo_create_message E c m).
Proof.
  unfold chat_repo_create_message, BaseRepo_create. repeat neutral_step.
Qed.

Lemma neutral_create_history c h : forall i, neutral (create_history E c i h).
Proof.
  induction h as [|m h IH]; intros i; [apply neutral_ret|].
  cbn [create_history]. apply neutral_bind; [apply neutral_create_message|].
  intros _. apply IH.
Qed.

Lemma neutral_chat_open self msgs chat_id :
  neutral (_chat_open E self msgs chat_id).
Proof.
  unfold _chat_open, chat_repo_get, session_get, chat_repo_get_messages,
    chat_repo_create, BaseRepo_create.
  repeat first
    [ apply neutral_create_message
    | apply neutral_create_history
    | neutral_step ].
Qed.

Lemma preserves_record_other self old c :
  (forall a q, c <> CallQuery a q) ->
  preserves (query_calls_of self old) (record_call c).
Proof.
  intros Hc w Hw a q. cbn. intros Hin. apply in_app_or in Hin as [Hin|Hin].
  - apply Hw, Hin.
  - destruct Hin as [Heq|[]]. destruct (Hc a q Heq).
Qed.

Lemma preserves_record_query self old _llm text_qa refine q :
  preserves (query_calls_of self old)
    (record_call (CallQuery (query_engine_args self _llm text_qa refine) q)).
Proof.
  intros w Hw a q'. cbn. intros Hin. apply in_app_or in Hin as [Hin|Hin].
  - apply Hw, Hin.
  - destruct Hin as [[= <- <-]|[]]. right. split; reflexivity.
Qed.

Ltac preserves_step :=
  cbv beta;
  lazymatch goal with
  | |- preserves _ (mbind _ _) => apply preserves_bind; [|intros ?]
  | |- preserves _ (let '(_, _) := ?p in _) => destruct p
  | |- preserves _ (if ?b then _ else _) => destruct b
  | |- preserves _ (record_call (CallQuery _ _)) =>
      apply preserves_record_query
  | |- preserves _ (record_call _) =>
      apply preserves_record_other; discriminate
  | |- preserves _ _ =>
      apply neutral_preserves; repeat neutral_step
  end.

Lemma preserves_chat self old msgs chat_id :
  preserves (query_calls_of self old) (_chat E self msgs chat_id).
Proof.
  unfold _chat. apply preserves_bind;
    [apply neutral_preserves, neutral_chat_open|].
  intros st. unfold _chat_turn, retrieve_graph_knowledge,
    _get_llamaindex_callback_manager, _get_source_documents.
  repeat preserves_step.
Qed.

End Calls.

(** ** The service constructor *)

Section Init.
Variable E : Env.

(** C4: a service built with a reranker has [similarity_top_k = 100] and
    the postprocessors metadata filter, reranker, in this order; built
    without one it has [similarity_top_k = 10] and the metadata filter
    alone; and every query engine that a turn of this service builds
    carries these two settings. *)
Theorem query_engine_pool_size db_session u b name self :
  ChatService_init E db_session u b name = inr self ->
  (exists cfg,
      load_from_db E db_session name = inr cfg
      /\ get_reranker E cfg db_session = inr (_reranker self)
      /\ _metadata_filter self = get_metadata_filter cfg)
  /\ forall msgs chat_id w a q,
       In (CallQuery a q) (calls (chat E self msgs chat_id w).2) ->
       In (CallQuery a q) (calls w)
       \/ match _reranker self with
          | Some r =>
              similarity_top_k a = 100
              /\ node_postprocessors a
                 = [MetadataPostFilter (_metadata_filter self);
                    RerankPostprocessor r]
          | None =>
              similarity_top_k a = 10
              /\ node_postprocessors a
                 = [MetadataPostFilter (_metadata_filter self)]
          end.
Proof.
  intros Hinit.
  assert (Hfields :
    (exists cfg,
        load_from_db E db_session name = inr cfg
        /\ get_reranker E cfg db_session = inr (_reranker self)
        /\ _metadata_filter self = get_metadata_filter cfg)
    /\ match _reranker self with
       | Some r =>
           _similarity_top_k self = 100
           /\ _node_postprocessors self
              = [MetadataPostFilter (_metadata_filter self);
                 RerankPostprocessor r]
       | None =>
           _similarity_top_k self = 10
           /\ _node_postprocessors self
              = [MetadataPostFilter (_metadata_filter self)]
       end).
  { revert Hinit.
    unfold ChatService_init, mbind, res_bind, mret, res_ret.
    destruct (load_from_db E db_session name) as [e|cfg] eqn:Hcfg;
      [discriminate|].
    destruct (get_reranker E cfg db_session) as [e|[r|]] eqn:Hr;
      [discriminate|..]; intros [= <-]; cbn; eauto 10. }
  destruct Hfields as [Hcfg Hk]. split; [exact Hcfg|].
  intros msgs chat_id w a q Hin.
  assert (Hcalls : calls (chat E self msgs chat_id w).2
                   = calls (_chat E self msgs chat_id w).1.2).
  { unfold chat.
    destruct (_chat E self msgs chat_id w) as [[evs w'] [v|e|]]; reflexivity. }
  rewrite Hcalls in Hin.
  destruct (preserves_chat E self (calls w) msgs chat_id w
              (fun a0 q0 H0 => or_introl H0) a q Hin) as [Hold|[Htop Hpost]];
    [left; exact Hold|right].
  destruct (_reranker self); destruct Hk as [Hk1 Hk2]; split; congruence.
Qed.

End Init.

(** ** The prompt renderer, as a whole *)

Section Renderer.
Variable jinja2_render : string -> Kwargs -> res string.

(** C6, amended: whatever the template engine renders, the prompt that
    [get_prompt_by_jinja2_template] returns is made of ordinary
    characters, doubled braces and the four deferred placeholders only, so
    the formatter finds no other replacement field in it and never meets a
    single brace; every brace of the rendered text is doubled.  Rendered
    text that holds none of the four markers gives the rendered text with
    its braces doubled, a prompt without any replacement field; so does,
    in particular, rendered text without the character [<].  The
    escaping itself never raises.  (Rendered text that holds a marker
    gives that placeholder, from wherever the marker came.) *)
Theorem prompt_braces_escaped t k p :
  get_prompt_by_jinja2_template jinja2_render t k = inr p ->
  (exists rendered,
      jinja2_render t k = inr rendered
      /\ template p = escape_braces rendered
      /\ (Formatter.mentions "<" rendered = false ->
          Formatter.format_fields (template p) = Some [])
      /\ (forallb (fun m => negb (PyStr.contains m rendered)) markers = true ->
          template p = PyStr.replace "}" "}}" (PyStr.replace "{" "{{" rendered)
          /\ Formatter.format_fields (template p) = Some []))
  /\ Formatter.escaped (template p)
  /\ exists fields,
       Formatter.format_fields (template p) = Some fields
       /\ Forall (fun f => In f Formatter.deferred) fields.
Proof.
  unfold get_prompt_by_jinja2_template.
  destruct (jinja2_render t k) as [e|rendered]; [discriminate|].
  intros [= <-]. cbn [template].
  split; [|split; [apply escaped_escape_braces|]].
  - exists rendered. split; [reflexivity|]. split; [reflexivity|].
    split; [apply escape_braces_without_marker|].
    intros Hm. rewrite (escape_braces_without_markers _ Hm).
    split; [reflexivity|]. apply doubling_no_fields, le_n.
  - apply escaped_format, escaped_escape_braces.
Qed.

End Renderer.

(** ** Auxiliary read operations *)

(** C9: a chat without owner is visible to every viewer, the absent one
    included; a chat with an owner is visible exactly to the viewer who is
    the owner and to superusers. *)
Theorem user_can_view_chat_spec (c : DBChat.t) (viewer : option User.t) :
  user_can_view_chat c viewer =
    match DBChat.user_id c with
    | None => true
    | Some owner =>
        match viewer with
        | None => false
        | Some u => User.is_superuser u || bool_decide (User.id u = owner)
        end
    end.
Proof.
  unfold user_can_view_chat.
  destruct (DBChat.user_id c) as [owner|]; [|reflexivity].
  destruct viewer as [u|]; [|reflexivity].
  rewrite bool_decide_eq_true_2 by eauto. cbn [andb].
  destruct (User.is_superuser u); [reflexivity|]. cbn [orb].
  destruct (decide (User.id u = owner)) as [->|Hne].
  - rewrite !bool_decide_eq_true_2 by reflexivity. reflexivity.
  - rewrite !bool_decide_eq_false_2 by congruence. reflexivity.
Qed.

Section Subgraph.
Variable E : Env.

Lemma subgraph_of_other_roles m c w :
  DBChatMessage.role m <> MessageRole.USER ->
  get_chat_message_subgraph E m c w = ([], w, Value ([], [])).
Proof.
  intros Hne. unfold get_chat_message_subgraph.
  apply String.eqb_neq in Hne. rewrite Hne. reflexivity.
Qed.

(** The live turn passes the relationship filters of the configuration
    to its weighted retrieval. *)
Lemma turn_retrieval_passes_filters self q h w :
  enabled (knowledge_graph (chat_engine_config self)) = true ->
  using_intent_search (knowledge_graph (chat_engine_config self)) = false ->
  exists a,
    calls (retrieve_graph_knowledge E self q h w).1.2
    = calls w ++ [CallIndexRetrieve a]
    /\ arg_relationship_meta_filters a
       = Some (relationship_meta_filters
                 (knowledge_graph (chat_engine_config self))).
Proof.
  intros He Hi. unfold retrieve_graph_knowledge. rewrite He, Hi.
  exists {| arg_query := q;
            arg_embedding := [];
            arg_depth := depth (knowledge_graph (chat_engine_config self));
            arg_include_meta :=
              include_meta (knowledge_graph (chat_engine_config self));
            arg_with_degree :=
              with_degree (knowledge_graph (chat_engine_config self));
            arg_relationship_meta_filters :=
              Some (relationship_meta_filters
                      (knowledge_graph (chat_engine_config self)));
            arg_with_chunks := false |}.
  split; [|reflexivity].
  unfold record_call, ask, put, lift, mbind, Gen_bind, gen_bind. cbn.
  destruct (index_retrieve_with_weight E _) as [e|[[ents rels] chunks]];
    [reflexivity|]. cbn.
  destruct (get_prompt_by_jinja2_template _ _ _); reflexivity.
Qed.

End Subgraph.

(** C8, at a user message of a chat whose engine configuration has
    relationship filters: [get_chat_message_subgraph] takes the depth and
    the two flags of its weighted retrieval from the configuration, and does
    not pass the relationship filters at all. *)
Theorem subgraph_call_omits_relationship_filters :
  let run :=
    get_chat_message_subgraph (Sample.env true None) Sample.user_row
      Sample.chat_row Sample.world in
  relationship_meta_filters (knowledge_graph (Sample.config false))
    = JDict [("kind", JStr "cites")]
  /\ run.2 = Value ([JStr "entity"], [JStr "relationship"])
  /\ calls run.1.2 =
       [CallStoreRetrieve
          {| arg_query := "What is X?";
             arg_embedding := [];
             arg_depth := depth (knowledge_graph (Sample.config false));
             arg_include_meta :=
               include_meta (knowledge_graph (Sample.config false));
             arg_with_degree :=
               with_degree (knowledge_graph (Sample.config false));
             arg_relationship_meta_filters := None;
             arg_with_chunks := false |}].
Proof. repeat split. Qed.

(** ** Closed instances *)

Lemma chat_not_found_witness :
  Sample.messages <> []
  /\ db_fault (Sample.env true None) OpGet Sample.world = None
  /\ chats Sample.world !! 7%N = None
  /\ chat (Sample.env true None) Sample.service Sample.messages (Some 7%N)
       Sample.world
     = ([error_part "Chat not found"], Sample.world).
Proof.
  assert (H1 : Sample.messages <> []) by discriminate.
  assert (H2 : db_fault (Sample.env true None) OpGet Sample.world = None)
    by reflexivity.
  assert (H3 : chats Sample.world !! 7%N = None) by reflexivity.
  split; [exact H1|]. split; [exact H2|]. split; [exact H3|].
  apply (chat_not_found _ _ _ _ _ H1 H2 H3).
Defined.

(** C5 as stated fails on the empty message list: the chat identifier is
    not in the repository, yet the single event is the generic error, not
    "Chat not found". *)
Lemma chat_not_found_counterexample :
  chats Sample.world !! 7%N = None
  /\ (chat (Sample.env true None) Sample.service [] (Some 7%N)
        Sample.world).1
     = [error_part generic_error]
  /\ (chat (Sample.env true None) Sample.service [] (Some 7%N)
        Sample.world).1
     <> [error_part "Chat not found"].
Proof. repeat split. discriminate. Qed.

Lemma query_engine_pool_size_witness :
  ChatService_init (Sample.env true (Some "reranker")) Sample.world None
    "browser-1" "default" = inr Sample.reranked_service
  /\ exists a q,
       In (CallQuery a q)
          (calls (chat (Sample.env true (Some "reranker"))
                    Sample.reranked_service Sample.messages None
                    Sample.world).2)
       /\ similarity_top_k a = 100
       /\ node_postprocessors a
          = [MetadataPostFilter "metadata-filter";
             RerankPostprocessor "reranker"].
Proof.
  assert (H : ChatService_init (Sample.env true (Some "reranker"))
                Sample.world None "browser-1" "default"
              = inr Sample.reranked_service) by reflexivity.
  split; [exact H|].
  exists (query_engine_args Sample.reranked_service "llm"
            {| template := "Answer {query_str} from {context_str}." |}
            {| template :=
                 "Refine {existing_answer} with {context_msg} for {query_str}."
            |}),
    "What is the letter X?".
  assert (Hin : In (CallQuery
                      (query_engine_args Sample.reranked_service "llm"
                         {| template :=
                              "Answer {query_str} from {context_str}." |}
                         {| template :=
                              "Refine {existing_answer} with {context_msg} for {query_str}."
                         |})
                      "What is the letter X?")
                   (calls (chat (Sample.env true (Some "reranker"))
                             Sample.reranked_service Sample.messages None
                             Sample.world).2)).
  { vm_compute. right. left. reflexivity. }
  split; [exact Hin|].
  destruct (proj2 (query_engine_pool_size _ _ _ _ _ _ H) _ _ _ _ _ Hin)
    as [Hold|Hnew]; [destruct Hold|exact Hnew].
Defined.

Lemma prompt_braces_escaped_witness :
  get_prompt_by_jinja2_template (fun t _ => inr t) "{name} < {limit}" []
  = inr {| template := "{{name}} < {{limit}}" |}
  /\ Formatter.mentions "<" "{name} < {limit}" = true
  /\ Formatter.format_fields "{{name}} < {{limit}}" = Some []
  /\ Formatter.escaped "{{name}} < {{limit}}".
Proof.
  assert (H : get_prompt_by_jinja2_template (fun t _ => inr t)
                "{name} < {limit}" []
              = inr {| template := "{{name}} < {{limit}}" |})
    by reflexivity.
  destruct (prompt_braces_escaped _ _ _ _ H)
    as ((rendered & Hr & _ & _ & Hm) & Hesc & _).
  injection Hr as <-.
  split; [exact H|]. split; [reflexivity|].
  split; [exact (proj2 (Hm eq_refl))|exact Hesc].
Defined.

(** C6 as stated fails on a value that holds a marker: the template
    names no placeholder, a value with braces only gives a prompt without
    replacement field, and the value with the marker [<<query_str>>] puts
    the live field [{query_str}] into the prompt, which the formatter then
    fills. *)
Lemma prompt_marker_injection_counterexample :
  get_prompt_by_jinja2_template Sample2.render_graph_knowledges
    "Knowledge: {{ graph_knowledges }}"
    [("graph_knowledges", JStr "the set {x}")]
  = inr {| template := "Knowledge: the set {{x}}" |}
  /\ Formatter.format_fields "Knowledge: the set {{x}}" = Some []
  /\ get_prompt_by_jinja2_template Sample2.render_graph_knowledges
       "Knowledge: {{ graph_knowledges }}"
       [("graph_knowledges", JStr "the set {x} <<query_str>>")]
     = inr {| template := "Knowledge: the set {{x}} {query_str}" |}
  /\ Formatter.format_fields "Knowledge: the set {{x}} {query_str}"
     = Some ["query_str"]
  /\ PyFormat.format (fun _ => Some "INJECTED")
       "Knowledge: the set {{x}} {query_str}"
     = Some "Knowledge: the set {x} INJECTED"
  /\ ~ (forall v p,
          get_prompt_by_jinja2_template Sample2.render_graph_knowledges
            "Knowledge: {{ graph_knowledges }}"
            [("graph_knowledges", JStr v)] = inr p ->
          Formatter.format_fields (template p) = Some []).
Proof.
  split; [reflexivity|]. split; [reflexivity|]. split; [reflexivity|].
  split; [reflexivity|]. split; [reflexivity|].
  intros H.
  specialize (H "the set {x} <<query_str>>" _ eq_refl). discriminate H.
Qed.

Lemma error_after_messages_persisted_witness :
  let E := Sample.env false None in
  let run := chat E Sample.service Sample.messages None Sample.world in
  let st := Sample.opened_state in
  (_chat_open E Sample.service Sample.messages None Sample.world).2 = Value st
  /\ (_chat_turn E Sample.service st
        (_chat_open E Sample.service Sample.messages None Sample.world).1.2).2
     = Raised (UpstreamError "fast model down")
  /\ (exists docs words pre,
        pre `prefix_of` progress_events st docs words
        /\ run.1 = pre ++ [error_part generic_error])
  /\ count is_error run.1 = 1
  /\ count (is_state FINISHED) run.1 = 0
  /\ count is_data run.1 <= 1
  /\ chats run.2
     = chats (_chat_open E Sample.service Sample.messages None Sample.world).1.2
  /\ chat_messages run.2
     = chat_messages
         (_chat_open E Sample.service Sample.messages None Sample.world).1.2
  /\ In (db_user_message st) (chat_messages run.2)
  /\ In (db_assistant_message st) (chat_messages run.2)
  /\ DBChatMessage.content (db_user_message st) = user_question st
  /\ DBChatMessage.content (db_assistant_message st) = ""
  /\ DBChatMessage.sources (db_assistant_message st) = []
  /\ DBChatMessage.finished_at (db_assistant_message st) = None.
Proof.
  intros E run st.
  assert (H1 : (_chat_open E Sample.service Sample.messages None
                  Sample.world).2 = Value st)
    by (vm_compute; reflexivity).
  assert (H2 : (_chat_turn E Sample.service st
                  (_chat_open E Sample.service Sample.messages None
                     Sample.world).1.2).2
               = Raised (UpstreamError "fast model down"))
    by (vm_compute; reflexivity).
  split; [exact H1|]. split; [exact H2|].
  exact (error_after_messages_persisted E Sample.service Sample.messages None
           Sample.world st _ H1 H2).
Defined.

(** * The turn in detail, and further properties of the code *)

(** ** Parsing the message list *)

(** X1: [_parse_chat_messages] raises [IndexError] exactly on the empty
    list; on any other list the question is the content of the last message
    and the history is the list without it, so that nothing is lost. *)
Theorem parse_chat_messages_split (msgs : list ChatMessage.t) :
  match _parse_chat_messages msgs with
  | inl e => e = IndexError /\ msgs = []
  | inr (question, history) =>
      exists m, msgs = history ++ [m] /\ question = ChatMessage.content m
  end.
Proof.
  unfold _parse_chat_messages.
  destruct (last msgs) as [m|] eqn:Hl.
  - apply last_Some in Hl as [l' ->]. exists m.
    rewrite removelast_last. split; reflexivity.
  - apply last_None in Hl. split; [reflexivity|exact Hl].
Qed.

(** ** The formatter on rendered prompts *)

Section FormatFacts.
Import PyStr Formatter PyFormat.
Variable fields : string -> option string.

Lemma format_doubling r :
  forall fuel,
    String.length (replace "}" "}}" (replace "{" "{{" r)) <= fuel ->
    format_fuel fuel fields (replace "}" "}}" (replace "{" "{{" r)) = Some r.
Proof.
  induction r as [|c r IH]; intros fuel Hlen.
  - destruct fuel; reflexivity.
  - rewrite doubling_cons in *.
    destruct (Ascii.eqb_spec c lbrace) as [->|Hl].
    + destruct fuel as [|fuel]; cbn [String.length] in Hlen; [lia|].
      cbn [format_fuel]. rewrite !Ascii.eqb_refl.
      rewrite IH by lia. reflexivity.
    + destruct (Ascii.eqb_spec c rbrace) as [->|Hr].
      * destruct fuel as [|fuel]; cbn [String.length] in Hlen; [lia|].
        cbn [format_fuel]. rewrite !Ascii.eqb_refl.
        replace (Ascii.eqb rbrace lbrace) with false by reflexivity.
        rewrite IH by lia. reflexivity.
      * destruct fuel as [|fuel]; cbn [String.length] in Hlen; [lia|].
        cbn [format_fuel].
        destruct (Ascii.eqb_spec c lbrace); [contradiction|].
        destruct (Ascii.eqb_spec c rbrace); [contradiction|].
        rewrite IH by lia. reflexivity.
Qed.

Lemma escaped_format_total s :
  (forall p, In p deferred -> is_Some (fields p)) ->
  escaped s ->
  forall fuel, String.length s <= fuel ->
    is_Some (format_fuel fuel fields s).
Proof.
  intros Hall.
  induction 1 as [|c s Hc1 Hc2 Hs IH|s Hs IH|s Hs IH|p s Hp Hs IH];
    intros fuel Hlen.
  - destruct fuel; eexists; reflexivity.
  - destruct fuel as [|fuel]; simpl in Hlen; [lia|].
    cbn [format_fuel].
    destruct (Ascii.eqb_spec c lbrace); [contradiction|].
    destruct (Ascii.eqb_spec c rbrace); [contradiction|].
    destruct (IH fuel ltac:(lia)) as [v ->]. eexists; reflexivity.
  - destruct fuel as [|fuel]; simpl in Hlen; [lia|].
    cbn [format_fuel]. rewrite !Ascii.eqb_refl.
    destruct (IH fuel ltac:(lia)) as [v ->]. eexists; reflexivity.
  - destruct fuel as [|fuel]; simpl in Hlen; [lia|].
    cbn [format_fuel]. rewrite !Ascii.eqb_refl.
    replace (Ascii.eqb rbrace lbrace) with false by reflexivity.
    destruct (IH fuel ltac:(lia)) as [v ->]. eexists; reflexivity.
  - destruct fuel as [|fuel]; simpl in Hlen; [lia|].
    rewrite length_app_str in Hlen. simpl in Hlen.
    destruct (read_deferred p s Hp) as [Hrd (c & p' & -> & Hc)].
    cbn [format_fuel]. rewrite Ascii.eqb_refl.
    rewrite append_cons, Hc, <- append_cons, Hrd.
    destruct (Hall _ Hp) as [v ->].
    destruct (IH fuel ltac:(lia)) as [out ->]. eexists; reflexivity.
Qed.

(** X2: formatting a prompt whose rendered text holds no marker gives the
    rendered text back, braces included: the escaping of
    [get_prompt_by_jinja2_template] and the unescaping of [str.format] are
    inverse to each other, whatever values the formatter is given. *)
Theorem format_escape_round_trip (rendered : string) :
  mentions "<" rendered = false ->
  format fields (escape_braces rendered) = Some rendered.
Proof.
  intros Hr. pose proof (doubling_mentions _ Hr) as Hd.
  unfold escape_braces, format.
  set (d := replace "}" "}}" (replace "{" "{{" rendered)) in *.
  unfold replace at 1 2 3 4 5 6 7 8.
  do 4 rewrite (replace_without_marker _ _ d Hd).
  apply format_doubling, le_n.
Qed.

(** X3: given values for the four deferred placeholders, [str.format]
    never fails on a prompt of [get_prompt_by_jinja2_template], whatever
    the template engine rendered. *)
Theorem format_never_fails (rendered : string) :
  (forall p, In p deferred -> is_Some (fields p)) ->
  is_Some (format fields (escape_braces rendered)).
Proof.
  intros Hall. apply escaped_format_total;
    [exact Hall | apply escaped_escape_braces | apply le_n].
Qed.

End FormatFacts.

Lemma format_escape_round_trip_witness :
  Formatter.mentions "<" "a {b} }c{" = false
  /\ PyFormat.format (fun _ => None) (escape_braces "a {b} }c{")
     = Some "a {b} }c{".
Proof.
  assert (H : Formatter.mentions "<" "a {b} }c{" = false) by reflexivity.
  split; [exact H|]. apply (format_escape_round_trip _ _ H).
Defined.

Lemma format_never_fails_witness :
  (forall p, In p Formatter.deferred -> is_Some ((fun _ => Some "v") p))
  /\ is_Some
       (PyFormat.format (fun _ => Some "v")
          (escape_braces "{x} <<query_str>> and <<context_str>> }"%string)).
Proof.
  assert (H : forall p, In p Formatter.deferred ->
                        is_Some ((fun _ : string => Some "v"%string) p))
    by (intros p _; eexists; reflexivity).
  split; [exact H|]. apply (format_never_fails _ _ H).
Defined.

(** ** A turn in detail *)

Section DetailRules.
Variable E : Env.
Context {B : Type}.
Implicit Types (w : World) (evs : list ChatEvent).

Lemma wp_record_call_bind c (k : unit -> Gen B) w
    (Q : list ChatEvent -> World -> Outcome B -> Prop) :
  (forall w1, calls_added [c] w w1 -> wp (k tt) w1 Q) ->
  wp (record_call c ≫= k) w Q.
Proof.
  intros H. eapply wp_bind with (P := fun evs w1 o =>
    evs = [] /\ calls_added [c] w w1 /\ o = Value tt).
  - repeat split.
  - intros evs w1 [] (-> & Hw & _). apply H, Hw.
  - intros evs w1 e (_ & _ & ?). discriminate.
  - intros evs w1 (_ & _ & ?). discriminate.
Qed.

Lemma wp_datetime_now_bind (k : datetime -> Gen B) w
    (Q : list ChatEvent -> World -> Outcome B -> Prop) :
  (forall w1 t, calls_added [] w w1 -> wp (k t) w1 Q) ->
  wp (datetime_now E ≫= k) w Q.
Proof.
  intros H. eapply wp_bind with (P := fun evs w1 o =>
    evs = [] /\ calls_added [] w w1 /\ exists t, o = Value t).
  - repeat split; [symmetry; apply app_nil_r | eexists; reflexivity].
  - intros evs w1 t (-> & Hw & _). apply H, Hw.
  - intros evs w1 e (_ & _ & t & ?). discriminate.
  - intros evs w1 (_ & _ & t & ?). discriminate.
Qed.

Lemma wp_callback_manager_bind self t (k : unit -> Gen B) w
    (Q : list ChatEvent -> World -> Outcome B -> Prop) :
  (forall e, Q [] w (Raised e)) ->
  wp (k tt) w Q ->
  wp (_get_llamaindex_callback_manager E self t ≫= k) w Q.
Proof.
  intros He Hk. eapply wp_bind with (P := fun evs w1 o =>
    evs = [] /\ w1 = w /\ o <> Returned).
  - unfold _get_llamaindex_callback_manager.
    destruct (enable_langfuse self); [|repeat split; discriminate].
    unfold wp, perform, ask, lift, mbind, Gen_bind, gen_bind. simpl.
    destruct (langfuse_handler E w t); repeat split; discriminate.
  - intros evs w1 [] (-> & -> & _). exact Hk.
  - intros evs w1 e (-> & -> & _). apply He.
  - intros evs w1 (_ & _ & Hx). contradiction.
Qed.

Lemma wp_source_documents_bind r (k : list JValue -> Gen B) w
    (Q : list ChatEvent -> World -> Outcome B -> Prop) :
  (forall e, Q [] w (Raised e)) ->
  (forall docs, wp (k docs) w Q) ->
  wp (_get_source_documents E r ≫= k) w Q.
Proof.
  intros He Hk. eapply wp_bind with (P := fun evs w1 o =>
    evs = [] /\ w1 = w /\ o <> Returned).
  - unfold wp, _get_source_documents, db_check, ask, mbind, Gen_bind,
      gen_bind. simpl.
    destruct (db_fault E OpExec w); repeat split; discriminate.
  - intros evs w1 docs (-> & -> & _). apply Hk.
  - intros evs w1 e (-> & -> & _). apply He.
  - intros evs w1 (_ & _ & Hx). contradiction.
Qed.

End DetailRules.

Section Detail.
Variable E : Env.
Implicit Types (w : World) (evs : list ChatEvent).

Lemma calls_added_nothing w : calls_added [] w w.
Proof. repeat split. symmetry. apply app_nil_r. Qed.

Lemma one_graph_call (off : bool) c w w1 :
  calls_added [c] w w1 ->
  is_graph_call c = true ->
  off = true ->
  exists added,
    calls_added added w w1
    /\ forallb is_graph_call added = true
    /\ length added <= 1
    /\ (off = false -> added = []).
Proof.
  intros Hw Hc Hen. exists [c]. split; [exact Hw|].
  split; [cbn; rewrite Hc; reflexivity|]. split; [cbn; lia|].
  intros Hoff. rewrite Hoff in Hen. discriminate.
Qed.

Lemma retrieve_graph_knowledge_calls self q h w :
  wp (retrieve_graph_knowledge E self q h) w (fun evs w1 o =>
    evs = [] /\ o <> Returned
    /\ exists added,
         calls_added added w w1
         /\ forallb is_graph_call added = true
         /\ length added <= 1
         /\ (enabled (knowledge_graph (chat_engine_config self)) = false ->
             added = [])).
Proof.
  unfold retrieve_graph_knowledge.
  destruct (enabled _) eqn:Hen.
  - destruct (using_intent_search _).
    + apply wp_record_call_bind. intros w1 Hw1.
      pose proof (one_graph_call true _ _ _ Hw1 eq_refl eq_refl) as Hpost.
      apply wp_lift_bind; [intros e _|intros res _].
      { split; [reflexivity|]. split; [discriminate|exact Hpost]. }
      apply wp_lift_bind; [intros e _|intros g _].
      { split; [reflexivity|]. split; [discriminate|exact Hpost]. }
      apply wp_ret. split; [reflexivity|]. split; [discriminate|exact Hpost].
    + apply wp_record_call_bind. intros w1 Hw1.
      pose proof (one_graph_call true _ _ _ Hw1 eq_refl eq_refl) as Hpost.
      apply wp_lift_bind; [intros e _|intros [[ents rels] chunks] _].
      { split; [reflexivity|]. split; [discriminate|exact Hpost]. }
      apply wp_lift_bind; [intros e _|intros g _].
      { split; [reflexivity|]. split; [discriminate|exact Hpost]. }
      apply wp_ret. split; [reflexivity|]. split; [discriminate|exact Hpost].
  - apply wp_ret. split; [reflexivity|]. split; [discriminate|].
    exists []. split; [apply calls_added_nothing|].
    split; [reflexivity|]. split; [cbn; lia|]. reflexivity.
Qed.

Lemma append_nil_r s : s +:+ EmptyString = s.
Proof.
  induction s as [|a s IH]; [reflexivity|].
  rewrite append_cons, IH. reflexivity.
Qed.

Lemma stream_text_value gen acc w :
  wp (stream_text gen acc) w (fun evs w' o =>
    w' = w /\ evs = map text_part (words_of gen)
    /\ match o with
       | Value r => unbroken gen = true /\ r = acc +:+ join (words_of gen)
       | Raised _ => unbroken gen = false
       | Returned => False
       end).
Proof.
  revert acc; induction gen as [|word rest IH|e]; intros acc.
  - repeat split. cbn [words_of join foldr]. symmetry. apply append_nil_r.
  - cbn [stream_text]. apply wp_yield_bind.
    eapply wp_mono; [apply IH|]. cbv beta.
    intros evs w' [r|e|] (-> & -> & Ho); repeat split; try apply Ho.
    destruct Ho as [_ ->]. cbn [words_of join foldr].
    apply append_assoc_str.
  - repeat split.
Qed.

End Detail.

Ltac detail_step :=
  lazymatch goal with
  | |- wp (mbind _ (yield _)) _ _ => apply wp_yield_bind; beta_pairs
  | |- wp (mbind _ (perform _)) _ _ =>
      apply wp_perform_bind; [intros ? ? | intros ? ?; beta_pairs]
  | |- wp (mbind _ (lift _)) _ _ =>
      apply wp_lift_bind; [intros ? ? | intros ? ?; beta_pairs]
  | |- wp (mbind _ (record_call _)) _ _ =>
      apply wp_record_call_bind; intros ? ?; beta_pairs
  | |- wp (mbind _ (datetime_now _)) _ _ =>
      apply wp_datetime_now_bind; intros ? ? ?; beta_pairs
  | |- wp (mbind _ (_get_llamaindex_callback_manager _ _ _)) _ _ =>
      apply wp_callback_manager_bind; [intros ? | beta_pairs]
  | |- wp (mbind _ (retrieve_graph_knowledge _ _ _ _)) _ _ =>
      eapply wp_bind;
        [apply retrieve_graph_knowledge_calls
        | intros ? ? ? (-> & _ & ? & ? & ? & ? & ?); beta_pairs
        | intros ? ? ? (-> & _ & ? & ? & ? & ? & ?)
        | intros ? ? (_ & ? & _); contradiction]
  | |- wp (mbind _ (_get_source_documents _ _)) _ _ =>
      apply wp_source_documents_bind; [intros ? | intros ?; beta_pairs]
  | |- wp (mbind _ (stream_text _ _)) _ _ =>
      eapply wp_bind;
        [apply stream_text_value
        | intros ? ? ? (-> & -> & ? & ->); beta_pairs
        | intros ? ? ? (-> & -> & ?)
        | intros ? ? (_ & _ & [])]
  | |- wp (mbind _ (session_add _)) _ _ =>
      apply wp_session_add_bind; beta_pairs
  | |- wp (mbind _ (session_commit _)) _ _ =>
      apply wp_session_commit_bind; [intros ? ? | intros ? ? ? ?; beta_pairs]
  | |- wp (yield _) _ _ => apply wp_yield
  end.

Section TurnDetail.
Variable E : Env.
Implicit Types (w : World) (evs : list ChatEvent).

Lemma _chat_turn_detail self st w :
  wp (_chat_turn E self st) w (fun evs w' o =>
    match o with
    | Value _ => turn_completed E self st w evs w'
    | Raised _ =>
        count (is_state SOURCE_NODES) evs = 1 ->
        exists docs _llm text_qa refine refined response earlier,
          query E (query_engine_args self _llm text_qa refine) refined
          = inr response
          /\ evs = progress_events st docs (words_of (response_gen response))
          /\ calls w'
             = calls w ++ earlier
               ++ [CallQuery (query_engine_args self _llm text_qa refine)
                     refined]
    | Returned => False
    end).
Proof.
  unfold _chat_turn.
  repeat detail_step; cbv beta;
    try (intros Hc; solve [vm_compute in Hc; discriminate Hc]).
  1,3: intros Hc;
    match goal with
    | Hg : forallb is_graph_call ?x = true,
      Hp : calls_added [CallPredict ?m ?pr] _ _ |- _ =>
        eexists _, _, _, _, _, _, (x ++ [CallPredict m pr])
    end;
    (split; [eassumption|]);
    (split; [unfold progress_events; rewrite ?app_nil_r; reflexivity|]);
    repeat match goal with
      | Hq : calls_added _ _ _ |- _ => destruct Hq as (_ & _ & _ & _ & ?)
      end;
    unfold set_pending; cbn [calls];
    repeat match goal with
      | Hq : calls ?y = _ |- context [calls ?y] => rewrite Hq; clear Hq
      end;
    rewrite ?app_nil_r, <- ?app_assoc; reflexivity.
  unfold turn_completed. destruct db as [cs ms].
  repeat match goal with
    | Hc : calls_added _ _ _ |- _ => destruct Hc as (? & ? & ? & ? & ?)
    end.
  unfold set_pending, set_tables in *.
  cbn [chats chat_messages pending calls fst snd] in *.
  eexists _, _, _, _, _, _, _, _, _, _, _, _. cbv zeta.
  split; [eassumption|]. split; [eassumption|]. split; [eassumption|].
  split; [eassumption|]. split; [eassumption|].
  split; [reflexivity|].
  split; [eassumption|]. split; [eassumption|]. split; [eassumption|].
  split; [|split; [|reflexivity]].
  - repeat match goal with
      | Hq : calls ?y = _ |- context [calls ?y] => rewrite Hq; clear Hq
      end.
    rewrite ?app_nil_r, <- ?app_assoc. reflexivity.
  - match goal with
    | Hf : flush (pending ?w4 ++ _) _ = _ |- _ =>
        replace (pending w) with (pending w4) by congruence;
        replace (chats w) with (chats w4) by congruence;
        replace (chat_messages w) with (chat_messages w4) by congruence;
        exact Hf
    end.
Qed.

End TurnDetail.

(** ** What a completed turn has done *)

Section Completed.
Variable E : Env.
Implicit Types (w : World) (evs : list ChatEvent).

Lemma completed_chat self msgs chat_id w v :
  (_chat E self msgs chat_id w).2 = Value v ->
  exists st,
    (_chat_open E self msgs chat_id w).1.1 = []
    /\ (_chat_open E self msgs chat_id w).2 = Value st
    /\ turn_completed E self st (_chat_open E self msgs chat_id w).1.2
         (chat E self msgs chat_id w).1 (chat E self msgs chat_id w).2.
Proof.
  intros Hv. unfold chat. rewrite _chat_unfold in *.
  pose proof (_chat_open_spec E self msgs chat_id w) as Ho. unfold wp in Ho.
  destruct (_chat_open E self msgs chat_id w) as [[evs0 w1] [st|e|]];
    cbn [fst snd] in *; try discriminate.
  destruct Ho as (-> & _).
  pose proof (_chat_turn_detail E self st w1) as Ht. unfold wp in Ht.
  destruct (_chat_turn E self st w1) as [[evs2 w2] [[]|e|]];
    cbn [fst snd app] in *; try discriminate.
  exists st. repeat split. exact Ht.
Qed.

(** X4: in a turn that ran to its end, the assistant message of the final
    DATA_PART holds as content the concatenation of the TEXT_PART fragments
    that were streamed, in their order, and as sources the documents of
    the SOURCE_NODES annotation; it is marked updated and finished, and is
    otherwise the message that was created empty. *)
Theorem final_message_is_streamed_answer self msgs chat_id w v :
  (_chat E self msgs chat_id w).2 = Value v ->
  exists st docs words final,
    (chat E self msgs chat_id w).1
    = progress_events st docs words ++ closing_events st final
    /\ DBChatMessage.content final = join words
    /\ DBChatMessage.sources final = docs
    /\ is_Some (DBChatMessage.updated_at final)
    /\ is_Some (DBChatMessage.finished_at final)
    /\ DBChatMessage.id final = DBChatMessage.id (db_assistant_message st)
    /\ DBChatMessage.chat_id final
       = DBChatMessage.chat_id (db_assistant_message st)
    /\ DBChatMessage.role final = DBChatMessage.role (db_assistant_message st)
    /\ DBChatMessage.ordinal final
       = DBChatMessage.ordinal (db_assistant_message st)
    /\ DBChatMessage.trace_url final
       = DBChatMessage.trace_url (db_assistant_message st).
Proof.
  intros Hv. destruct (completed_chat self msgs chat_id w v Hv)
    as (st & _ & _ & Hdone).
  destruct Hdone as (graph & _llm & fast & prompt & refined & qa & rf & resp
                     & docs & t1 & t2 & stored & Hfacts).
  cbv zeta in Hfacts.
  destruct Hfacts as (_ & _ & _ & _ & _ & Hevs & _).
  exists st, docs, (words_of (response_gen resp)),
    (finished_message t1 t2 docs (join (words_of (response_gen resp)))
       (db_assistant_message st)).
  split; [exact Hevs|]. cbn. repeat split; eexists; reflexivity.
Qed.

(** X5: a turn that ran to its end has called the fast model once and the
    query engine once, in this order and after at most one call of the
    knowledge graph (none when the graph is disabled); the question put to
    the query engine is the refined question that the fast model
    returned, and the query engine runs on the main model. *)
Theorem refined_question_reaches_query_engine self msgs chat_id w v :
  (_chat E self msgs chat_id w).2 = Value v ->
  exists w1 graph_calls _llm _fast_llm prompt refined text_qa refine response,
    get_llama_llm E (chat_engine_config self) w1 = inr _llm
    /\ get_fast_llama_llm E (chat_engine_config self) w1 = inr _fast_llm
    /\ predict E _fast_llm prompt = inr refined
    /\ query E (query_engine_args self _llm text_qa refine) refined
       = inr response
    /\ calls (chat E self msgs chat_id w).2
       = calls w ++ graph_calls
         ++ [CallPredict _fast_llm prompt;
             CallQuery (query_engine_args self _llm text_qa refine) refined]
    /\ forallb is_graph_call graph_calls = true
    /\ length graph_calls <= 1
    /\ (enabled (knowledge_graph (chat_engine_config self)) = false ->
        graph_calls = []).
Proof.
  intros Hv. destruct (completed_chat self msgs chat_id w v Hv)
    as (st & _ & _ & Hdone).
  destruct Hdone as (graph & _llm & fast & prompt & refined & qa & rf & resp
                     & docs & t1 & t2 & stored & Hfacts).
  cbv zeta in Hfacts.
  destruct Hfacts as (H1 & H2 & H3 & H4 & _ & _ & H7 & H8 & H9 & H10 & _).
  rewrite (neutral_chat_open E self msgs chat_id w) in H10.
  exists (_chat_open E self msgs chat_id w).1.2, graph, _llm, fast, prompt,
    refined, qa, rf, resp.
  repeat split; assumption.
Qed.

(** X6: when the turn fails after the sources were announced, every
    fragment that the answer stream produced before the failure was
    forwarded: the events are the whole progress sequence, with the
    fragments of the stream that the query engine returned, in their
    order and up to the point where the stream broke (all of them when it
    did not break), followed by the error event.  The stream is the one
    returned by the last collaborator call of the turn, the call of the
    query engine. *)
Theorem error_after_sources_keeps_fragments self msgs chat_id w e :
  (_chat E self msgs chat_id w).2 = Raised e ->
  count (is_state SOURCE_NODES) (chat E self msgs chat_id w).1 = 1 ->
  exists st docs _llm text_qa refine refined response earlier,
    query E (query_engine_args self _llm text_qa refine) refined
    = inr response
    /\ calls (chat E self msgs chat_id w).2
       = calls w ++ earlier
         ++ [CallQuery (query_engine_args self _llm text_qa refine) refined]
    /\ (chat E self msgs chat_id w).1
       = progress_events st docs (words_of (response_gen response))
         ++ [error_part generic_error].
Proof.
  intros Hr. pose proof (neutral_chat_open E self msgs chat_id w) as Hn.
  unfold chat. rewrite _chat_unfold in *.
  pose proof (_chat_open_spec E self msgs chat_id w) as Ho. unfold wp in Ho.
  destruct (_chat_open E self msgs chat_id w) as [[evs0 w1] [st|e0|]];
    cbn [fst snd] in *; try discriminate.
  - destruct Ho as (-> & _).
    pose proof (_chat_turn_detail E self st w1) as Ht. unfold wp in Ht.
    destruct (_chat_turn E self st w1) as [[evs2 w2] [[]|e2|]];
      cbn [fst snd app] in *; try discriminate.
    rewrite count_app. cbn [count List.filter is_state error_part event_type
      payload length]. rewrite Nat.add_0_r. intros Hc.
    destruct (Ht Hc)
      as (docs & _llm & qa & rf & refined & resp & earlier & Hq & -> & Hcalls).
    exists st, docs, _llm, qa, rf, refined, resp, earlier.
    split; [exact Hq|]. split; [|reflexivity].
    cbn [set_logged calls]. rewrite Hcalls, Hn. reflexivity.
  - destruct Ho as (-> & _). cbn. discriminate.
Qed.

End Completed.

(** ** The order of events and collaborator calls *)

Section Order.
Variable E : Env.
Implicit Types (w : World) (evs : list ChatEvent).

Lemma retrieve_graph_knowledge_outcome self q h w w' :
  (retrieve_graph_knowledge E self q h w).2
  = (retrieve_graph_knowledge E self q h w').2.
Proof.
  unfold retrieve_graph_knowledge.
  destruct (enabled _); [|reflexivity].
  destruct (using_intent_search _);
    unfold record_call, ask, put, lift, raise, mbind, mret, Gen_bind, Gen_ret,
      gen_bind, gen_ret; cbn.
  - destruct (intent_based_search E q h true _) as [e|res]; cbn;
      [reflexivity|].
    destruct (get_prompt_by_jinja2_template _ _ _); reflexivity.
  - destruct (index_retrieve_with_weight E _) as [e|[[ents rels] chunks]];
      cbn; [reflexivity|].
    destruct (get_prompt_by_jinja2_template _ _ _); reflexivity.
Qed.

Lemma _chat_turn_before_retrieval self st w e w' :
  (retrieve_graph_knowledge E self (user_question st) (chat_history st) w').2
  = Raised e ->
  wp (_chat_turn E self st) w (fun evs _ o =>
    (exists e', o = Raised e')
    /\ evs `prefix_of`
         [ text_part "";
           data_part (db_chat_obj st) (db_user_message st)
             (db_assistant_message st);
           annotation TRACE (Some "Start knowledge graph searching ...")
             (Some (JDict [("langfuse_url", JStr (trace_url_of st))])) ]).
Proof.
  intros Hr. unfold _chat_turn.
  do 4 (apply wp_perform_bind;
        [intros e0 _; split; [eauto|apply prefix_nil] | intros ? _]).
  do 3 (apply wp_yield_bind).
  apply wp_callback_manager_bind;
    [intros e0; split; [eauto|reflexivity]|].
  eapply wp_bind with (P := fun evs _ o => evs = [] /\ o = Raised e);
    cbv beta.
  - pose proof (retrieve_graph_knowledge_silent E self (user_question st)
                  (chat_history st) w) as Hs.
    unfold wp in *. destruct Hs as (Hs & _). split; [exact Hs|].
    rewrite <- Hr. apply retrieve_graph_knowledge_outcome.
  - intros evs w1 g (_ & Hx). discriminate Hx.
  - intros evs w1 e0 (-> & _). split; [eauto|reflexivity].
  - intros evs w1 (_ & Hx). discriminate Hx.
Qed.

(** C2: when the body of a turn runs to its end, the events of [chat] are,
    in this order: the empty TEXT_PART, the DATA_PART, the TRACE, the
    REFINE_QUESTION, the SEARCH_RELATED_DOCUMENTS and the SOURCE_NODES
    annotations, the TEXT_PART fragments of the answer, which are the
    fragments of the stream that the query engine returned, in their
    order, the FINISHED annotation and the final DATA_PART; and retrieval
    has returned.  The REFINE_QUESTION annotation is emitted after
    retrieval completes: in a run whose retrieval raises instead of
    returning, whatever the collaborators do otherwise, nothing beyond
    the TRACE annotation is emitted before the error event, so an
    annotation emitted before the end of retrieval would show in that
    run. *)
Theorem normal_turn_event_order self msgs chat_id w :
  (forall v,
      (_chat E self msgs chat_id w).2 = Value v ->
      exists st docs final _llm text_qa refine refined response graph,
        (_chat_open E self msgs chat_id w).2 = Value st
        /\ (forall w',
              (retrieve_graph_knowledge E self (user_question st)
                 (chat_history st) w').2 = Value graph)
        /\ query E (query_engine_args self _llm text_qa refine) refined
           = inr response
        /\ (chat E self msgs chat_id w).1 =
             [ text_part "";
               data_part (db_chat_obj st) (db_user_message st)
                 (db_assistant_message st);
               annotation TRACE (Some "Start knowledge graph searching ...")
                 (Some (JDict [("langfuse_url", JStr (trace_url_of st))]));
               annotation REFINE_QUESTION
                 (Some "Refine the user question ...") None;
               annotation SEARCH_RELATED_DOCUMENTS
                 (Some "Search related documents ...") None;
               annotation SOURCE_NODES None (Some (JList docs)) ]
             ++ map text_part (words_of (response_gen response))
             ++ [ annotation FINISHED None None;
                  data_part (db_chat_obj st) (db_user_message st) final ])
  /\ (forall st e w',
        (_chat_open E self msgs chat_id w).2 = Value st ->
        (retrieve_graph_knowledge E self (user_question st)
           (chat_history st) w').2 = Raised e ->
        exists pre,
          pre `prefix_of`
            [ text_part "";
              data_part (db_chat_obj st) (db_user_message st)
                (db_assistant_message st);
              annotation TRACE (Some "Start knowledge graph searching ...")
                (Some (JDict [("langfuse_url", JStr (trace_url_of st))])) ]
          /\ (chat E self msgs chat_id w).1
             = pre ++ [error_part generic_error]).
Proof.
  assert (Hfail : forall st e w',
    (_chat_open E self msgs chat_id w).2 = Value st ->
    (retrieve_graph_knowledge E self (user_question st)
       (chat_history st) w').2 = Raised e ->
    exists pre,
      pre `prefix_of`
        [ text_part "";
          data_part (db_chat_obj st) (db_user_message st)
            (db_assistant_message st);
          annotation TRACE (Some "Start knowledge graph searching ...")
            (Some (JDict [("langfuse_url", JStr (trace_url_of st))])) ]
      /\ (chat E self msgs chat_id w).1
         = pre ++ [error_part generic_error]).
  { intros st e w' Hopen Hr. unfold chat. rewrite _chat_unfold.
    pose proof (_chat_open_spec E self msgs chat_id w) as Ho. unfold wp in Ho.
    destruct (_chat_open E self msgs chat_id w) as [[evs0 w1] o0].
    cbn [fst snd] in *. subst o0. destruct Ho as (-> & _).
    pose proof (_chat_turn_before_retrieval self st w1 e w' Hr) as Ht.
    unfold wp in Ht.
    destruct (_chat_turn E self st w1) as [[evs2 w2] o2].
    cbn [fst snd app] in *. destruct Ht as ((e' & ->) & Hpre).
    exists evs2. split; [exact Hpre|reflexivity]. }
  split; [|exact Hfail].
  intros v Hv.
  destruct (completed_chat E self msgs chat_id w v Hv)
    as (st & _ & Hopen & Hdone).
  destruct Hdone as (graph & _llm & fast & prompt & refined & qa & rf & resp
                     & docs & t1 & t2 & stored & Hfacts).
  cbv zeta in Hfacts.
  destruct Hfacts as (_ & _ & _ & Hq & _ & Hevs & _).
  destruct (retrieve_graph_knowledge E self (user_question st)
              (chat_history st) w).2 as [g|e|] eqn:Hg.
  - exists st, docs,
      (finished_message t1 t2 docs (join (words_of (response_gen resp)))
         (db_assistant_message st)),
      _llm, qa, rf, refined, resp, g.
    split; [exact Hopen|]. split.
    { intros w'. rewrite <- Hg. apply retrieve_graph_knowledge_outcome. }
    split; [exact Hq|]. rewrite Hevs.
    unfold progress_events, closing_events. rewrite <- app_assoc.
    reflexivity.
  - exfalso. destruct (Hfail st e w Hopen Hg) as (pre & _ & Hpre).
    rewrite Hevs in Hpre.
    apply (f_equal last) in Hpre. unfold closing_events in Hpre.
    assert (Hl : forall (l : list ChatEvent) a b, last (l ++ [a; b]) = Some b).
    { intros l a b. change [a; b] with ([a] ++ [b]).
      rewrite app_assoc. apply last_snoc. }
    rewrite Hl, last_snoc in Hpre. discriminate Hpre.
  - exfalso.
    pose proof (retrieve_graph_knowledge_silent E self (user_question st)
                  (chat_history st) w) as Hs.
    unfold wp in Hs. destruct Hs as (_ & _ & Hs). apply Hs, Hg.
Qed.

End Order.

(** ** A turn without the knowledge graph, in detail *)

Section WithoutGraph.
Variable E : Env.
Implicit Types (w : World) (evs : list ChatEvent).

Lemma wp_retrieve_disabled_bind {B} self q h
    (k : list JValue * list JValue * option (list JValue) * string -> Gen B)
    w (Q : list ChatEvent -> World -> Outcome B -> Prop) :
  enabled (knowledge_graph (chat_engine_config self)) = false ->
  wp (k ([], [], Some [], EmptyString)) w Q ->
  wp (retrieve_graph_knowledge E self q h ≫= k) w Q.
Proof.
  intros Hd Hk. unfold wp, mbind, Gen_bind, gen_bind in *.
  rewrite (retrieve_graph_knowledge_disabled E self q h w Hd).
  destruct (k _ w) as [[evs w'] o]. exact Hk.
Qed.

Lemma wp_callback_manager_ok_bind {B} self t (k : unit -> Gen B) w
    (Q : list ChatEvent -> World -> Outcome B -> Prop) :
  (enable_langfuse self = true ->
   forall w', is_ok (langfuse_handler E w' t) = true) ->
  wp (k tt) w Q ->
  wp (_get_llamaindex_callback_manager E self t ≫= k) w Q.
Proof.
  intros Hok Hk. unfold wp, mbind, Gen_bind, gen_bind,
    _get_llamaindex_callback_manager in *.
  destruct (enable_langfuse self).
  - specialize (Hok eq_refl w).
    unfold perform, ask, lift, mbind, Gen_bind, gen_bind. cbn.
    destruct (langfuse_handler E w t) as [e|[]]; [discriminate Hok|]. cbn.
    destruct (k tt w) as [[evs w'] o]. exact Hk.
  - cbn. destruct (k tt w) as [[evs w'] o]. exact Hk.
Qed.

Lemma wp_source_documents_ok_bind {B} r (k : list JValue -> Gen B) w
    (Q : list ChatEvent -> World -> Outcome B -> Prop) :
  (forall w', db_fault E OpExec w' = None) ->
  (forall docs, wp (k docs) w Q) ->
  wp (_get_source_documents E r ≫= k) w Q.
Proof.
  intros Hok Hk. unfold wp in *.
  unfold _get_source_documents, db_check, ask, mbind, Gen_bind, gen_bind.
  simpl. rewrite Hok. simpl.
  match goal with |- context [k ?d w] => specialize (Hk d) end.
  unfold mbind, Gen_bind, gen_bind in Hk.
  destruct (k _ w) as [[evs w'] o]. exact Hk.
Qed.

Ltac given_step :=
  lazymatch goal with
  | |- wp (mbind _ (retrieve_graph_knowledge _ _ _ _)) _ _ =>
      apply wp_retrieve_disabled_bind; [assumption|]; cbv beta iota
  | |- wp (mbind _ (_get_llamaindex_callback_manager _ _ _)) _ _ =>
      apply wp_callback_manager_ok_bind; [assumption|]
  | |- wp (mbind _ (_get_source_documents _ _)) _ _ =>
      apply wp_source_documents_ok_bind; [assumption|intros ?]
  | |- _ => detail_step
  end.

Lemma _chat_turn_without_graph self st w _llm _fast_llm condense text_qa
    refine refined response :
  enabled (knowledge_graph (chat_engine_config self)) = false ->
  pending w = [] ->
  answers_without_graph E self st w _llm _fast_llm condense text_qa refine
    refined response ->
  wp (_chat_turn E self st) w (fun evs w' o =>
    o = Value tt
    /\ exists docs now1 now2,
         evs = progress_events st docs (words_of (response_gen response))
               ++ closing_events st
                    (finished_message now1 now2 docs
                       (join (words_of (response_gen response)))
                       (db_assistant_message st))
         /\ calls w'
            = calls w
              ++ [CallPredict _fast_llm condense;
                  CallQuery (query_engine_args self _llm text_qa refine)
                    refined]).
Proof.
  intros Hd Hp
    [Hemb Hllm Hfast Hdspy Hhandler Hcond Hpred Hqa Hrf Hans Hstream Hsel
       Hcom].
  unfold _chat_turn.
  repeat given_step; cbv beta;
    repeat match goal with
      | Hg : ?f = inr ?b, Ha : ?f = inr ?a |- _ =>
          is_var a; assert (a = b) by congruence; subst a; clear Ha
      end;
    try solve
      [ exfalso;
        first
          [ congruence
          | match goal with
            | Hx : ?t = inl _, Hok : is_ok ?t = true |- _ =>
                rewrite Hx in Hok; discriminate Hok
            end ] ].
  - exfalso.
    repeat match goal with
      | Hc : calls_added _ _ _ |- _ => destruct Hc as (_ & _ & ? & _ & _)
      end.
    match goal with
    | Hf : _ \/ _ |- _ =>
        destruct Hf as [Hf|Hf]; [rewrite Hcom in Hf; discriminate Hf|];
        unfold set_pending in Hf; cbn [pending chats chat_messages] in Hf;
        match type of Hf with
        | flush (pending ?w3 ++ _) _ = _ =>
            replace (pending w3) with (@nil Row) in Hf by congruence
        end;
        match type of Hf with
        | flush (_ ++ [RMessage ?m]) ?db = _ =>
            pose proof (flush_message_alone m db) as Hok;
            cbn [app] in Hf; rewrite Hf in Hok; discriminate Hok
        end
    end.
  - split; [reflexivity|].
    repeat match goal with
      | Hc : calls_added _ _ _ |- _ => destruct Hc as (_ & _ & _ & _ & ?)
      end.
    eexists _, _, _. split.
    + unfold progress_events, closing_events. rewrite <- app_assoc.
      reflexivity.
    + unfold set_pending, set_tables. cbn [calls].
      repeat match goal with
        | Hq : calls ?y = _ |- context [calls ?y] => rewrite Hq; clear Hq
        end.
      rewrite ?app_nil_r, <- ?app_assoc. reflexivity.
Qed.

(** C7: with the knowledge graph disabled, the retrieval step of every
    turn gives empty entities, relationships and chunks and the empty
    context string, without raising, without an event and without
    touching the world, so without a call of the graph index.  The turn
    then goes on with the empty context: when its first half has stored
    the two messages, and the later stages answer on what they are given
    with that context (the prompts render, the fast model refines the
    question, the query engine answers with a stream that does not break,
    the database accepts the answer), the turn runs to its end through
    refinement and generation: its only collaborator calls are the call
    of the fast model and then the call of the query engine on the
    refined question, its events are the progress sequence with the
    fragments of the answer, the FINISHED annotation and the final
    DATA_PART, and the stored answer is the concatenation of the
    fragments.  The first half does store the two messages when the
    database and the tracing backend answer, the session holds no pending
    object, the message list is not empty and a supplied chat exists. *)
Theorem knowledge_graph_disabled_turn self msgs chat_id w :
  enabled (knowledge_graph (chat_engine_config self)) = false ->
  (forall q h w1,
      retrieve_graph_knowledge E self q h w1
      = ([], w1, Value ([], [], Some [], "")))
  /\ (healthy_opening E self -> pending w = [] -> msgs <> [] ->
      (forall id, chat_id = Some id -> is_Some (chats w !! id)) ->
      exists st, (_chat_open E self msgs chat_id w).2 = Value st)
  /\ (forall st _llm _fast_llm condense text_qa refine refined response,
        (_chat_open E self msgs chat_id w).2 = Value st ->
        answers_without_graph E self st
          (_chat_open E self msgs chat_id w).1.2 _llm _fast_llm condense
          text_qa refine refined response ->
        exists docs final,
          (_chat E self msgs chat_id w).2 = Value tt
          /\ (chat E self msgs chat_id w).1
             = progress_events st docs (words_of (response_gen response))
               ++ closing_events st final
          /\ DBChatMessage.content final
             = join (words_of (response_gen response))
          /\ calls (chat E self msgs chat_id w).2
             = calls w
               ++ [CallPredict _fast_llm condense;
                   CallQuery (query_engine_args self _llm text_qa refine)
                     refined]
          /\ normal_completion (chat E self msgs chat_id w).1).
Proof.
  intros Hd. split; [|split].
  - intros q h w1. apply retrieve_graph_knowledge_disabled, Hd.
  - intros Hh Hp Hne Hfound.
    pose proof (_chat_open_spec E self msgs chat_id w) as Ho. unfold wp in Ho.
    destruct (_chat_open E self msgs chat_id w) as [[evs0 w1] [st|e|]];
      cbn [fst snd] in *.
    + eauto.
    + destruct Ho as (_ & Hbad). exfalso. apply Hbad; assumption.
    + destruct Ho as (_ & _ & id & Hid & Hnone). exfalso.
      destruct (Hfound id Hid) as [c Hc]. rewrite Hnone in Hc. discriminate.
  - intros st _llm _fast_llm condense text_qa refine refined response
      Hopen Ha.
    pose proof (neutral_chat_open E self msgs chat_id w) as Hn.
    unfold chat. rewrite _chat_unfold.
    pose proof (_chat_open_spec E self msgs chat_id w) as Ho. unfold wp in Ho.
    destruct (_chat_open E self msgs chat_id w) as [[evs0 w1] o0].
    cbn [fst snd] in *. subst o0. destruct Ho as (-> & Hp1 & _).
    pose proof (_chat_turn_without_graph self st w1 _ _ _ _ _ _ _ Hd Hp1 Ha)
      as Ht.
    unfold wp in Ht.
    destruct (_chat_turn E self st w1) as [[evs2 w2] o2].
    cbn [fst snd app] in *.
    destruct Ht as (-> & docs & t1 & t2 & -> & Hcalls).
    cbn [fst snd].
    eexists docs, _. split; [reflexivity|]. split; [reflexivity|].
    split; [reflexivity|]. split; [rewrite Hcalls, Hn; reflexivity|].
    apply normal_completion_shape.
Qed.


End WithoutGraph.

(** ** The stored messages of a completed turn *)

Section StoredAnswer.
Variable E : Env.
Implicit Types (w : World) (evs : list ChatEvent).

Lemma fresh_message_id_above ms x :
  In x ms -> DBChatMessage.id x <> Some (fresh_message_id ms).
Proof.
  unfold fresh_message_id. intros Hin Heq.
  assert (Hle : default 0 (DBChatMessage.id x)
                <= foldr (fun m acc =>
                            Nat.max (default 0 (DBChatMessage.id m)) acc) 0 ms).
  { clear Heq. induction ms as [|y ms IH]; [destruct Hin|].
    cbn [foldr]. destruct Hin as [->|Hin]; [lia|].
    specialize (IH Hin). lia. }
  rewrite Heq in Hle. cbn in Hle. lia.
Qed.

Lemma update_row_elsewhere i final ms :
  (forall x, In x ms -> DBChatMessage.id x <> Some i) ->
  map (fun x => if decide (DBChatMessage.id x = Some i) then final else x) ms
  = ms.
Proof.
  intros Hno. induction ms as [|y ms IH]; [reflexivity|].
  cbn [map]. rewrite IH by (intros x Hx; apply Hno; right; exact Hx).
  destruct (decide (DBChatMessage.id y = Some i)) as [Heq|_]; [|reflexivity].
  destruct (Hno y (or_introl eq_refl) Heq).
Qed.

(** The key that [create_message] gives to a message when nothing else
    waits in the session. *)
Lemma chat_repo_create_message_key c m w :
  DBChatMessage.id m = None ->
  pending w = [] ->
  wp (chat_repo_create_message E c m) w (fun evs w' o =>
    match o with
    | Value m' =>
        DBChatMessage.id m' = Some (fresh_message_id (chat_messages w))
        /\ chat_messages w' = chat_messages w ++ [m']
        /\ chats w' = chats w
        /\ pending w' = []
    | _ => True
    end).
Proof.
  intros Hid Hnil. unfold chat_repo_create_message.
  eapply wp_bind with (P := fun evs w1 o => w1 = w); cbv beta.
  - destruct (DBChatMessage.ordinal m =? 0); [|reflexivity].
    repeat walk_step; reflexivity.
  - intros evs w1 o ->.
    eapply wp_bind; [apply BaseRepo_create_spec|..]; cbv beta.
    + intros evs1 w2 r (-> & stored & db & Hfl & -> & Hc & Hm & Hp).
      rewrite Hnil in Hfl. cbn in Hfl. rewrite Hid in Hfl.
      injection Hfl as <- <-. apply wp_ret. cbn in *.
      repeat split; assumption.
    + intros; exact I.
    + intros; exact I.
  - intros; exact I.
  - intros; exact I.
Qed.

Lemma _chat_open_keys self msgs chat_id w :
  wp (_chat_open E self msgs chat_id) w (fun evs w' o =>
    match o with
    | Value st =>
        exists ms,
          chat_messages w' = ms ++ [db_user_message st; db_assistant_message st]
          /\ DBChatMessage.id (db_assistant_message st)
             = Some (fresh_message_id (ms ++ [db_user_message st]))
          /\ pending w' = []
    | _ => True
    end).
Proof.
  unfold _chat_open.
  eapply wp_bind with (P := fun _ _ _ => True); cbv beta;
    [exact I | | intros; exact I..].
  intros evs0 w0 [question history] _.
  eapply wp_bind with (P := fun _ _ _ => True); cbv beta;
    [exact I | | intros; exact I..].
  intros evs1 w1 [c h] _.
  eapply wp_bind with (P := fun _ _ _ => True); cbv beta;
    [exact I | | intros; exact I..].
  intros evs2 w2 [tid turl] _.
  eapply wp_bind;
    [apply chat_repo_create_message_spec; reflexivity|..]; cbv beta;
    [ | intros; exact I..].
  intros evs3 w3 um (_ & _ & Hp3 & ms & Hms & _).
  eapply wp_bind;
    [apply chat_repo_create_message_key; [reflexivity|exact Hp3]|..];
    cbv beta; [ | intros; exact I..].
  intros evs4 w4 am (Hkey & Hms4 & _ & Hp4).
  apply wp_ret. cbn. exists ms. rewrite Hms4, Hms, <- app_assoc.
  rewrite Hms in Hkey. repeat split; assumption.
Qed.

(** X7: a turn that ran to its end has changed one row of the messages
    and no chat: the table is the one left by the two inserts of the turn
    with the empty assistant message replaced by the finished one, the
    message that the final DATA_PART carries; the user message and all
    older rows are as they were. *)
Theorem completed_turn_updates_one_row self msgs chat_id w v :
  (_chat E self msgs chat_id w).2 = Value v ->
  exists st docs words final ms,
    (chat E self msgs chat_id w).1
    = progress_events st docs words ++ closing_events st final
    /\ chat_messages (_chat_open E self msgs chat_id w).1.2
       = ms ++ [db_user_message st; db_assistant_message st]
    /\ chat_messages (chat E self msgs chat_id w).2
       = ms ++ [db_user_message st; final]
    /\ chats (chat E self msgs chat_id w).2
       = chats (_chat_open E self msgs chat_id w).1.2
    /\ pending (chat E self msgs chat_id w).2 = [].
Proof.
  intros Hv. destruct (completed_chat E self msgs chat_id w v Hv)
    as (st & _ & Hst & Hdone).
  pose proof (_chat_open_keys self msgs chat_id w) as Hk. unfold wp in Hk.
  rewrite Hst in Hk. destruct Hk as (ms & Hms & Hkey & Hp).
  destruct Hdone as (graph & _llm & fast & prompt & refined & qa & rf & resp
                     & docs & t1 & t2 & stored & Hfacts).
  cbv zeta in Hfacts.
  destruct Hfacts as (_ & _ & _ & _ & _ & Hevs & _ & _ & _ & _ & Hfl & Hpend).
  exists st, docs, (words_of (response_gen resp)),
    (finished_message t1 t2 docs (join (words_of (response_gen resp)))
       (db_assistant_message st)), ms.
  split; [exact Hevs|]. split; [exact Hms|].
  rewrite Hp in Hfl. cbn [app flush flush_row] in Hfl.
  cbn [finished_message DBChatMessage.id] in Hfl. rewrite Hkey in Hfl.
  injection Hfl as _ Hc Hm. cbn [fst snd] in Hc, Hm.
  split; [|split; [symmetry; exact Hc | exact Hpend]].
  rewrite <- Hm, Hms.
  change (ms ++ [db_user_message st; db_assistant_message st])
    with (ms ++ [db_user_message st] ++ [db_assistant_message st]).
  rewrite app_assoc, map_app.
  rewrite update_row_elsewhere
    by (intros x Hx; apply fresh_message_id_above; exact Hx).
  cbn [map]. rewrite decide_True by exact Hkey.
  rewrite <- app_assoc. reflexivity.
Qed.

End StoredAnswer.

(** ** What the steps of a turn leave alone *)

Section Keeps.
Variable E : Env.
Context {X : Type} (proj : World -> X).
Implicit Types (w : World).

Lemma keeps_bind {A B} (m : Gen A) (k : A -> Gen B) :
  keeps proj m -> (forall a, keeps proj (k a)) -> keeps proj (m ≫= k).
Proof.
  intros Hm Hk w. specialize (Hm w).
  unfold mbind, Gen_bind, gen_bind.
  destruct (m w) as [[evs w1] [a|e|]]; cbn [fst snd] in *; try exact Hm.
  specialize (Hk a w1). destruct (k a w1) as [[evs' w2] o].
  cbn [fst snd] in *. congruence.
Qed.

Lemma keeps_ret {A} (a : A) : keeps proj (mret a).
Proof. intros w. reflexivity. Qed.

Lemma keeps_yield ev : keeps proj (yield ev).
Proof. intros w. reflexivity. Qed.

Lemma keeps_return {A} : keeps proj (@return_ A).
Proof. intros w. reflexivity. Qed.

Lemma keeps_ask : keeps proj ask.
Proof. intros w. reflexivity. Qed.

Lemma keeps_lift {A} (r : res A) : keeps proj (lift r).
Proof. intros w. destruct r; reflexivity. Qed.

Lemma keeps_perform {A} (f : World -> res A) : keeps proj (perform f).
Proof.
  intros w. unfold perform, ask, lift, mbind, Gen_bind, gen_bind. cbn.
  destruct (f w); reflexivity.
Qed.

Lemma keeps_db_check op : keeps proj (db_check E op).
Proof.
  intros w. unfold db_check, ask, mbind, Gen_bind, gen_bind. cbn.
  destruct (db_fault E op w); reflexivity.
Qed.

Lemma keeps_stream_text gen acc : keeps proj (stream_text gen acc).
Proof.
  revert acc. induction gen as [|word rest IH|e]; intros acc.
  - apply keeps_ret.
  - cbn [stream_text]. apply keeps_bind; [apply keeps_yield|].
    intros _. apply IH.
  - intros w. reflexivity.
Qed.

End Keeps.

Ltac keeps_step :=
  cbv beta;
  lazymatch goal with
  | |- keeps _ (mbind _ _) => apply keeps_bind; [|intros ?]
  | |- keeps _ (let '(_, _) := ?p in _) => destruct p
  | |- keeps _ (if ?b then _ else _) => destruct b
  | |- keeps _ (match ?x with _ => _ end) => destruct x
  | |- keeps _ (mret _) => apply keeps_ret
  | |- keeps _ (yield _) => apply keeps_yield
  | |- keeps _ return_ => apply keeps_return
  | |- keeps _ ask => apply keeps_ask
  | |- keeps _ (lift _) => apply keeps_lift
  | |- keeps _ (perform _) => apply keeps_perform
  | |- keeps _ (db_check _ _) => apply keeps_db_check
  | |- keeps _ (stream_text _ _) => apply keeps_stream_text
  | |- keeps _ (record_call _) => intros ?; reflexivity
  | |- keeps _ (datetime_now _) => intros ?; reflexivity
  end.

(** ** The server log *)

Section Logging.
Variable E : Env.
Implicit Types (w : World) (evs : list ChatEvent).

Lemma keeps_logged_commit : keeps logged (session_commit E).
Proof.
  intros w. rewrite session_commit_run.
  destruct (db_fault E OpCommit w); [reflexivity|].
  destruct (flush _ _) as [e|[stored db]]; reflexivity.
Qed.

Lemma keeps_logged_create c obj :
  keeps logged (BaseRepo_create E obj)
  /\ forall m, keeps logged (chat_repo_create_message E c m).
Proof.
  assert (H : forall o, keeps logged (BaseRepo_create E o)).
  { intros o. unfold BaseRepo_create.
    repeat first [ apply keeps_logged_commit
                 | keeps_step
                 | (intros ?; reflexivity) ]. }
  split; [apply H|]. intros m. unfold chat_repo_create_message.
  repeat first [ apply H | keeps_step ].
Qed.

Lemma keeps_logged_history c h : forall i, keeps logged (create_history E c i h).
Proof.
  induction h as [|m h IH]; intros i; [apply keeps_ret|].
  cbn [create_history].
  apply keeps_bind; [apply (keeps_logged_create c (RChat c))|].
  intros _. apply IH.
Qed.

Lemma keeps_logged_chat self msgs chat_id :
  keeps logged (_chat E self msgs chat_id).
Proof.
  unfold _chat, _chat_open, _chat_turn, chat_repo_get, session_get,
    chat_repo_get_messages, chat_repo_create, retrieve_graph_knowledge,
    _get_llamaindex_callback_manager, _get_source_documents.
  repeat first
    [ apply keeps_logged_commit
    | apply keeps_logged_history
    | match goal with
      | |- keeps _ (chat_repo_create_message _ ?c _) =>
          apply (keeps_logged_create c (RChat c))
      | |- keeps _ (BaseRepo_create _ (RChat ?c)) =>
          apply (keeps_logged_create c (RChat c))
      | |- keeps _ (session_add _) => intros ?; reflexivity
      end
    | keeps_step ].
Qed.

(** X8: [chat] writes to the server log exactly the exception that it
    turns into the generic error event: a turn that raised [e] ends with
    that event and has logged [e], once; a turn that ran to its end has
    logged nothing and holds no error event; and the answer "Chat not
    found" is given without any log entry. *)
Theorem chat_logs_what_it_catches self msgs chat_id w :
  match (_chat E self msgs chat_id w).2 with
  | Raised e =>
      logged (chat E self msgs chat_id w).2 = logged w ++ [e]
      /\ last (chat E self msgs chat_id w).1 = Some (error_part generic_error)
  | Value _ =>
      logged (chat E self msgs chat_id w).2 = logged w
      /\ count is_error (chat E self msgs chat_id w).1 = 0
  | Returned =>
      logged (chat E self msgs chat_id w).2 = logged w
      /\ (chat E self msgs chat_id w).1 = [error_part "Chat not found"]
  end.
Proof.
  pose proof (keeps_logged_chat self msgs chat_id w) as Hl.
  pose proof (_chat_shape E self msgs chat_id w) as Hs. unfold wp in Hs.
  unfold chat.
  destruct (_chat E self msgs chat_id w) as [[evs w'] [v|e|]];
    cbn [fst snd set_logged logged] in *.
  - split; [exact Hl|]. destruct Hs as (st & docs & words & final & ->).
    rewrite count_app, count_error_progress. reflexivity.
  - split; [rewrite Hl; reflexivity | apply last_snoc].
  - split; [exact Hl | apply Hs].
Qed.

End Logging.

(** ** The chats table *)

Section ChatsTable.
Variable E : Env.
Implicit Types (w : World) (evs : list ChatEvent).

Lemma settled_keeps {A} cs (m : Gen A) :
  keeps chats m -> keeps pending m -> preserves (chats_settled cs) m.
Proof.
  intros Hc Hp w [Hcs Hall]. split; [rewrite Hc; exact Hcs|].
  rewrite Hp. exact Hall.
Qed.

Lemma settled_add cs m : preserves (chats_settled cs) (session_add (RMessage m)).
Proof.
  intros w [Hcs Hall]. split; [exact Hcs|].
  unfold session_add, ask, put, mbind, Gen_bind, gen_bind, set_pending.
  cbn [fst snd pending]. rewrite forallb_app, Hall. reflexivity.
Qed.

Lemma flush_messages_only ps :
  forallb is_message_row ps = true ->
  forall db, exists stored ms, flush ps db = inr (stored, (db.1, ms)).
Proof.
  induction ps as [|p ps IH]; intros Hall db.
  - exists [], db.2. destruct db; reflexivity.
  - cbn [forallb] in Hall. apply andb_prop in Hall as [Hp Hall].
    destruct p as [c|m]; [discriminate|]. cbn [flush flush_row].
    destruct (DBChatMessage.id m) as [i|].
    + destruct (IH Hall (db.1, map (fun x =>
                  if decide (DBChatMessage.id x = Some i) then m else x) db.2))
        as (stored & ms & ->).
      eexists _, _. reflexivity.
    + destruct (IH Hall (db.1, db.2 ++
                  [with_message_id (fresh_message_id db.2) m]))
        as (stored & ms & ->).
      eexists _, _. reflexivity.
Qed.

Lemma settled_commit cs : preserves (chats_settled cs) (session_commit E).
Proof.
  intros w [Hcs Hall]. rewrite session_commit_run.
  destruct (db_fault E OpCommit w); [split; assumption|].
  destruct (flush_messages_only _ Hall (chats w, chat_messages w))
    as (stored & ms & ->).
  split; [exact Hcs|reflexivity].
Qed.

Ltac settled_step :=
  cbv beta;
  lazymatch goal with
  | |- preserves _ (mbind _ _) => apply preserves_bind; [|intros ?]
  | |- preserves _ (let '(_, _) := ?p in _) => destruct p
  | |- preserves _ (if ?b then _ else _) => destruct b
  | |- preserves _ (match ?x with _ => _ end) => destruct x
  | |- preserves _ (session_add (RMessage _)) => apply settled_add
  | |- preserves _ (session_commit _) => apply settled_commit
  | |- preserves _ _ =>
      apply settled_keeps; repeat keeps_step
  end.

Lemma settled_create_message cs c m :
  preserves (chats_settled cs) (chat_repo_create_message E c m).
Proof.
  unfold chat_repo_create_message, BaseRepo_create. repeat settled_step.
Qed.

Lemma settled_history cs c h :
  forall i, preserves (chats_settled cs) (create_history E c i h).
Proof.
  induction h as [|m h IH]; intros i.
  - apply settled_keeps; apply keeps_ret.
  - cbn [create_history].
    apply preserves_bind; [apply settled_create_message|].
    intros _. apply IH.
Qed.

Lemma settled_turn cs self st :
  preserves (chats_settled cs) (_chat_turn E self st).
Proof.
  unfold _chat_turn, retrieve_graph_knowledge,
    _get_llamaindex_callback_manager, _get_source_documents.
  repeat settled_step.
Qed.

Lemma settled_open_existing cs self msgs cid :
  preserves (chats_settled cs) (_chat_open E self msgs (Some cid)).
Proof.
  unfold _chat_open, chat_repo_get, session_get, chat_repo_get_messages.
  repeat first [ apply settled_create_message | settled_step ].
Qed.

(** X9: a turn in an existing chat neither creates nor changes a chat:
    when only messages wait in the session, the chats table after [chat]
    is the one before it, however the turn ends. *)
Theorem existing_chat_turn_keeps_chats self msgs cid w :
  forallb is_message_row (pending w) = true ->
  chats (chat E self msgs (Some cid) w).2 = chats w.
Proof.
  intros Hall.
  assert (Hinv : chats_settled (chats w)
                   (_chat E self msgs (Some cid) w).1.2).
  { unfold _chat. apply preserves_bind;
      [apply settled_open_existing | intros st; apply settled_turn
      | split; [reflexivity|exact Hall]]. }
  unfold chat.
  destruct (_chat E self msgs (Some cid) w) as [[evs w'] [v|e|]];
    apply Hinv.
Qed.

Lemma flush_app_chat ps c db :
  flush (ps ++ [RChat c]) db =
    match flush ps db with
    | inl e => inl e
    | inr (stored, db1) =>
        match db1.1 !! DBChat.id c with
        | Some _ => inl IntegrityError
        | None =>
            inr (stored ++ [RChat c], (<[DBChat.id c := c]> db1.1, db1.2))
        end
    end.
Proof.
  revert db. induction ps as [|p ps IH]; intros db.
  - cbn [app flush flush_row]. destruct (db.1 !! DBChat.id c); reflexivity.
  - cbn [app flush]. destruct (flush_row p db) as [e|[s1 db1]]; [reflexivity|].
    rewrite IH. destruct (flush ps db1) as [e|[s2 db2]]; [reflexivity|].
    destruct (db2.1 !! DBChat.id c); reflexivity.
Qed.

Lemma chat_repo_create_returns c w :
  wp (chat_repo_create E c) w (fun evs w' o =>
    match o with
    | Value c' =>
        c' = c /\ chats w' !! DBChat.id c = Some c /\ pending w' = []
    | _ => True
    end).
Proof.
  unfold chat_repo_create.
  eapply wp_bind; [apply BaseRepo_create_spec|..]; cbv beta;
    [|intros; exact I..].
  intros evs w1 r (-> & stored & db & Hfl & -> & Hc & _ & Hp).
  rewrite flush_app_chat in Hfl.
  destruct (flush (pending w) _) as [e|[s1 db1]]; [discriminate|].
  destruct (db1.1 !! DBChat.id c) eqn:Hfree; [discriminate|].
  injection Hfl as <- <-. rewrite last_snoc. apply wp_ret. cbn in *.
  split; [reflexivity|]. split; [|exact Hp].
  rewrite Hc. apply lookup_insert_eq.
Qed.

(** X10: a chat that [create] stored is found by [get] under its
    identifier: creating and then looking up gives the created chat back. *)
Theorem chat_repo_create_then_get c w c' :
  (chat_repo_create E c w).2 = Value c' ->
  db_fault E OpGet (chat_repo_create E c w).1.2 = None ->
  c' = c
  /\ (chat_repo_get E (DBChat.id c') (chat_repo_create E c w).1.2).2
     = Value (Some c').
Proof.
  intros Hv Hget.
  pose proof (chat_repo_create_returns c w) as H. unfold wp in H.
  rewrite Hv in H. destruct H as (-> & Hlook & _).
  split; [reflexivity|].
  unfold chat_repo_get, session_get, db_check, ask, mbind, mret, Gen_bind,
    Gen_ret, gen_bind, gen_ret. cbn.
  rewrite Hget. cbn. rewrite Hlook. reflexivity.
Qed.

End ChatsTable.

(** ** A new chat *)

Section NewChat.
Variable E : Env.
Implicit Types (w : World) (evs : list ChatEvent).

Lemma len_take s : forall n, PyStr.len (PyStr.take n s) = Nat.min n (PyStr.len s).
Proof.
  induction s as [|c s IH]; intros n; cbn [PyStr.take PyStr.len].
  - symmetry. apply Nat.min_0_r.
  - destruct (PyStr.continuation c) eqn:Hc.
    + cbn [PyStr.len]. rewrite Hc. apply IH.
    + destruct n as [|n]; [reflexivity|].
      cbn [PyStr.len]. rewrite Hc, IH. reflexivity.
Qed.

Lemma startswith_take s : forall n, PyStr.startswith (PyStr.take n s) s = true.
Proof.
  induction s as [|c s IH]; intros n; cbn [PyStr.take]; [reflexivity|].
  destruct (PyStr.continuation c).
  - cbn [PyStr.startswith]. rewrite Ascii.eqb_refl. apply IH.
  - destruct n as [|n]; [reflexivity|].
    cbn [PyStr.startswith]. rewrite Ascii.eqb_refl. apply IH.
Qed.

Lemma take_all s : forall n, PyStr.len s <= n -> PyStr.take n s = s.
Proof.
  induction s as [|c s IH]; intros n Hn; cbn [PyStr.take]; [reflexivity|].
  cbn [PyStr.len] in Hn. destruct (PyStr.continuation c).
  - rewrite IH by exact Hn. reflexivity.
  - destruct n as [|n]; [lia|]. rewrite IH by lia. reflexivity.
Qed.

Lemma wp_of_preserves {A} (I : World -> Prop) (m : Gen A) w :
  preserves I m -> I w -> wp m w (fun _ w' _ => I w').
Proof. intros Hm Hw. apply Hm, Hw. Qed.

Lemma _chat_open_new self msgs w :
  wp (_chat_open E self msgs None) w (fun evs w' o =>
    match o with
    | Value st =>
        exists m,
          last msgs = Some m
          /\ user_question st = ChatMessage.content m
          /\ chat_history st = removelast msgs
          /\ db_chat_obj st
             = {| DBChat.id := uuid4 E w;
                  DBChat.title := PyStr.take 100 (ChatMessage.content m);
                  DBChat.engine_id := db_chat_engine_id self;
                  DBChat.engine_options := screenshot (chat_engine_config self);
                  DBChat.deleted_at := None;
                  DBChat.user_id := User.id <$> user self;
                  DBChat.browser_id := browser_id self |}
          /\ chats w' !! uuid4 E w = Some (db_chat_obj st)
    | _ => True
    end).
Proof.
  unfold _chat_open.
  apply wp_lift_bind; [intros; exact I|].
  intros [question history] Hparse. cbv beta iota.
  unfold _parse_chat_messages in Hparse.
  destruct (last msgs) as [m|] eqn:Hlast; [|discriminate].
  injection Hparse as <- <-.
  set (c0 := {| DBChat.id := uuid4 E w;
                DBChat.title := PyStr.take 100 (ChatMessage.content m);
                DBChat.engine_id := db_chat_engine_id self;
                DBChat.engine_options := screenshot (chat_engine_config self);
                DBChat.deleted_at := None;
                DBChat.user_id := User.id <$> user self;
                DBChat.browser_id := browser_id self |}).
  eapply wp_bind with (P := fun evs w1 o =>
    match o with
    | Value (c, h) =>
        c = c0 /\ h = removelast msgs
        /\ chats_settled (chats w1) w1 /\ chats w1 !! uuid4 E w = Some c0
    | _ => True
    end); cbv beta; [ | | intros; exact I..].
  - apply wp_ask_bind.
    eapply wp_bind; [apply chat_repo_create_returns|..]; cbv beta;
      [ | intros; exact I..].
    intros evs1 w1 c (-> & Hlook & Hp). fold c0 in Hlook |- *.
    eapply wp_bind;
      [apply (wp_of_preserves (chats_settled (chats w1)));
         [apply settled_history | split; [reflexivity|rewrite Hp; reflexivity]]
      |..]; cbv beta.
    + intros evs2 w2 [] [Hc2 Hall2]. apply wp_ret. cbn.
      repeat split; try assumption; rewrite ?Hc2; assumption.
    + intros; exact I.
    + intros; exact I.
  - intros evs1 w1 [c h] (-> & -> & Hset & Hlook). cbv beta iota.
    eapply wp_bind with (P := fun evs w2 o => w2 = w1); cbv beta.
    + destruct (enable_langfuse self); [|reflexivity].
      unfold wp, perform, ask, lift, mbind, Gen_bind, gen_bind. simpl.
      destruct (langfuse_trace E w1 _); reflexivity.
    + intros evs2 w2 [tid turl] ->. cbv beta iota.
      eapply wp_bind;
        [apply (wp_of_preserves (chats_settled (chats w1)));
           [apply settled_create_message | exact Hset]
        |..]; cbv beta; [ | intros; exact I..].
      intros evs3 w3 um [Hc3 Hall3].
      eapply wp_bind;
        [apply (wp_of_preserves (chats_settled (chats w1)));
           [apply settled_create_message | split; assumption]
        |..]; cbv beta; [ | intros; exact I..].
      intros evs4 w4 am [Hc4 Hall4]. apply wp_ret. cbn.
      exists m. repeat split. rewrite Hc4. exact Hlook.
    + intros; exact I.
    + intros; exact I.
Qed.

(** X11: the chat that a turn without chat identifier creates has as
    title the first hundred characters of the question, counted in code
    points as Python slices them: a prefix of the question of a hundred
    characters, or the whole question when it has no more, which fits the
    256 characters of the column.  The chat belongs to the user of the
    service (to nobody for an anonymous service), carries the browser
    identifier and the engine of the service, and is in the chats table
    under its identifier when both messages of the turn are stored; the
    question is the content of the last message and the history is the
    list before it. *)
Theorem new_chat_record self msgs w st :
  (_chat_open E self msgs None w).2 = Value st ->
  exists m,
    last msgs = Some m
    /\ user_question st = ChatMessage.content m
    /\ chat_history st = removelast msgs
    /\ db_chat_obj st
       = {| DBChat.id := uuid4 E w;
            DBChat.title := PyStr.take 100 (ChatMessage.content m);
            DBChat.engine_id := db_chat_engine_id self;
            DBChat.engine_options := screenshot (chat_engine_config self);
            DBChat.deleted_at := None;
            DBChat.user_id := User.id <$> user self;
            DBChat.browser_id := browser_id self |}
    /\ PyStr.len (DBChat.title (db_chat_obj st))
       = Nat.min 100 (PyStr.len (user_question st))
    /\ PyStr.startswith (DBChat.title (db_chat_obj st)) (user_question st)
       = true
    /\ (PyStr.len (user_question st) <= 100 ->
        DBChat.title (db_chat_obj st) = user_question st)
    /\ chats (_chat_open E self msgs None w).1.2 !! uuid4 E w
       = Some (db_chat_obj st).
Proof.
  intros Hv. pose proof (_chat_open_new self msgs w) as H. unfold wp in H.
  rewrite Hv in H. destruct H as (m & Hl & Hq & Hh & Hc & Hlook).
  exists m.
  split; [exact Hl|]. split; [exact Hq|]. split; [exact Hh|].
  split; [exact Hc|].
  rewrite Hc, Hq. cbn [DBChat.title].
  split; [apply len_take|]. split; [apply startswith_take|].
  split; [apply take_all|]. rewrite <- Hc. exact Hlook.
Qed.

(** X12: in an existing chat the messages that the caller sends before
    the last one are not used: two message lists with the same last
    content give the same events and the same world. *)
Theorem existing_chat_ignores_supplied_history self msgs1 msgs2 cid w m1 m2 :
  last msgs1 = Some m1 ->
  last msgs2 = Some m2 ->
  ChatMessage.content m1 = ChatMessage.content m2 ->
  chat E self msgs1 (Some cid) w = chat E self msgs2 (Some cid) w.
Proof.
  intros H1 H2 Hc.
  assert (Hopen : _chat_open E self msgs1 (Some cid)
                  = _chat_open E self msgs2 (Some cid)).
  { unfold _chat_open, _parse_chat_messages. rewrite H1, H2, Hc.
    reflexivity. }
  unfold chat, _chat. rewrite Hopen. reflexivity.
Qed.

End NewChat.

(** ** The optional configuration and the subgraph lookup *)

Section Aux.
Variable E : Env.
Implicit Types (w : World).

(** X13: a service traces to langfuse exactly when
    [check_rag_optional_config] reports langfuse as configured; the check
    reports a reranker exactly when the count of reranker models is
    positive, and fails only when that count query fails. *)
Theorem tracing_agrees_with_optional_check db_session u b name self count :
  ChatService_init E db_session u b name = inr self ->
  match check_rag_optional_config E count with
  | inr (langfuse, default_reranker) =>
      langfuse = enable_langfuse self
      /\ exists n, count = inr n /\ default_reranker = (0 <? n)%Z
  | inl e => count = inl e
  end.
Proof.
  unfold ChatService_init, check_rag_optional_config, mbind, res_bind, mret,
    res_ret.
  destruct (load_from_db E db_session name) as [e|cfg]; [discriminate|].
  destruct (get_reranker E cfg db_session) as [e|[r|]]; [discriminate|..];
    intros [= <-]; destruct count as [e|n]; cbn; eauto.
Qed.

(** X14: [get_chat_message_subgraph] only reads: it emits no event, leaves
    the database session as it is and never ends by a bare return; for a
    user message it makes at most one call of the graph store, for the
    content of the message and without chunks, and for any other message
    it calls nothing and gives two empty lists. *)
Theorem subgraph_lookup_is_read_only m c w :
  let run := get_chat_message_subgraph E m c w in
  run.1.1 = []
  /\ same_db w run.1.2
  /\ run.2 <> Returned
  /\ if String.eqb (DBChatMessage.role m) MessageRole.USER
     then calls run.1.2 = calls w
          \/ exists a,
               calls run.1.2 = calls w ++ [CallStoreRetrieve a]
               /\ arg_query a = DBChatMessage.content m
               /\ arg_with_chunks a = false
     else calls run.1.2 = calls w /\ run.2 = Value ([], []).
Proof.
  cbv zeta. unfold get_chat_message_subgraph.
  destruct (String.eqb (DBChatMessage.role m) MessageRole.USER);
    cbn [negb]; [|repeat split; discriminate].
  unfold perform, record_call, ask, put, lift, mbind, mret, Gen_bind, Gen_ret,
    gen_bind, gen_ret, raise. cbn.
  destruct (engine_name_of E w c) as [e|name]; cbn;
    [repeat split; [discriminate|left; reflexivity]|].
  destruct (load_from_db E w name) as [e|cfg]; cbn;
    [repeat split; [discriminate|left; reflexivity]|].
  destruct (get_fast_dspy_lm E cfg w) as [e|lm]; cbn;
    [repeat split; [discriminate|left; reflexivity]|].
  destruct (get_default_embedding_model E w) as [e|em]; cbn;
    [repeat split; [discriminate|left; reflexivity]|].
  destruct (store_retrieve_with_weight E _) as [e|[[ents rels] chunks]]; cbn;
    (repeat split; [discriminate|right; eexists; repeat split]).
Qed.

End Aux.

(** ** Closed instances of the further properties *)

Lemma normal_turn_event_order_witness :
  enabled (knowledge_graph (chat_engine_config Sample2.graph_service)) = true
  /\ (_chat Sample2.graph_env Sample2.graph_service Sample.messages None
        Sample.world).2 = Value tt
  /\ (exists st docs final _llm text_qa refine refined response graph,
        (_chat_open Sample2.graph_env Sample2.graph_service Sample.messages
           None Sample.world).2 = Value st
        /\ (forall w',
              (retrieve_graph_knowledge Sample2.graph_env
                 Sample2.graph_service (user_question st) (chat_history st)
                 w').2 = Value graph)
        /\ query Sample2.graph_env
             (query_engine_args Sample2.graph_service _llm text_qa refine)
             refined = inr response
        /\ (chat Sample2.graph_env Sample2.graph_service Sample.messages
              None Sample.world).1 =
             [ text_part "";
               data_part (db_chat_obj st) (db_user_message st)
                 (db_assistant_message st);
               annotation TRACE (Some "Start knowledge graph searching ...")
                 (Some (JDict [("langfuse_url", JStr (trace_url_of st))]));
               annotation REFINE_QUESTION
                 (Some "Refine the user question ...") None;
               annotation SEARCH_RELATED_DOCUMENTS
                 (Some "Search related documents ...") None;
               annotation SOURCE_NODES None (Some (JList docs)) ]
             ++ map text_part (words_of (response_gen response))
             ++ [ annotation FINISHED None None;
                  data_part (db_chat_obj st) (db_user_message st) final ])
  /\ (_chat_open (Sample.env true None) Sample2.graph_service
        Sample.messages None Sample.world).2
     = Value Sample2.graph_opened_state
  /\ (retrieve_graph_knowledge (Sample.env true None) Sample2.graph_service
        (user_question Sample2.graph_opened_state)
        (chat_history Sample2.graph_opened_state) Sample.world).2
     = Raised (UpstreamError "graph store down")
  /\ (exists pre,
        pre `prefix_of`
          [ text_part "";
            data_part (db_chat_obj Sample2.graph_opened_state)
              (db_user_message Sample2.graph_opened_state)
              (db_assistant_message Sample2.graph_opened_state);
            annotation TRACE (Some "Start knowledge graph searching ...")
              (Some (JDict [("langfuse_url",
                             JStr (trace_url_of
                                     Sample2.graph_opened_state))])) ]
        /\ (chat (Sample.env true None) Sample2.graph_service
              Sample.messages None Sample.world).1
           = pre ++ [error_part generic_error])
  /\ length (chat (Sample.env true None) Sample2.graph_service
               Sample.messages None Sample.world).1 = 4.
Proof.
  assert (Hv : (_chat Sample2.graph_env Sample2.graph_service Sample.messages
                  None Sample.world).2 = Value tt)
    by (vm_compute; reflexivity).
  assert (Ho : (_chat_open (Sample.env true None) Sample2.graph_service
                  Sample.messages None Sample.world).2
               = Value Sample2.graph_opened_state)
    by (vm_compute; reflexivity).
  assert (Hr : (retrieve_graph_knowledge (Sample.env true None)
                  Sample2.graph_service
                  (user_question Sample2.graph_opened_state)
                  (chat_history Sample2.graph_opened_state) Sample.world).2
               = Raised (UpstreamError "graph store down"))
    by (vm_compute; reflexivity).
  split; [reflexivity|]. split; [exact Hv|].
  split;
    [exact (proj1 (normal_turn_event_order Sample2.graph_env
                     Sample2.graph_service Sample.messages None Sample.world)
              tt Hv)|].
  split; [exact Ho|]. split; [exact Hr|].
  split;
    [exact (proj2 (normal_turn_event_order (Sample.env true None)
                     Sample2.graph_service Sample.messages None Sample.world)
              _ _ _ Ho Hr)|].
  vm_compute. reflexivity.
Defined.

Lemma knowledge_graph_disabled_turn_witness :
  enabled (knowledge_graph (chat_engine_config Sample.service)) = false
  /\ is_ok (jinja2_render Sample2.picky_env "{% for e in entities %}" [])
     = false
  /\ healthy_opening Sample2.picky_env Sample.service
  /\ (exists st,
        (_chat_open Sample2.picky_env Sample.service Sample.messages None
           Sample.world).2 = Value st)
  /\ (_chat_open Sample2.picky_env Sample.service Sample.messages None
        Sample.world).2 = Value Sample.opened_state
  /\ answers_without_graph Sample2.picky_env Sample.service
       Sample.opened_state
       (_chat_open Sample2.picky_env Sample.service Sample.messages None
          Sample.world).1.2
       "llm" "fast-llm"
       {| template := "Rewrite the question on its own." |}
       {| template := "Answer {query_str} from {context_str}." |}
       {| template :=
            "Refine {existing_answer} with {context_msg} for {query_str}." |}
       "What is the letter X?" Sample.response
  /\ exists docs final,
      (_chat Sample2.picky_env Sample.service Sample.messages None
         Sample.world).2 = Value tt
      /\ (chat Sample2.picky_env Sample.service Sample.messages None
            Sample.world).1
         = progress_events Sample.opened_state docs
             (words_of (response_gen Sample.response))
           ++ closing_events Sample.opened_state final
      /\ DBChatMessage.content final
         = join (words_of (response_gen Sample.response))
      /\ calls (chat Sample2.picky_env Sample.service Sample.messages None
                  Sample.world).2
         = calls Sample.world
           ++ [CallPredict "fast-llm"
                 {| template := "Rewrite the question on its own." |};
               CallQuery
                 (query_engine_args Sample.service "llm"
                    {| template := "Answer {query_str} from {context_str}." |}
                    {| template :=
                         "Refine {existing_answer} with {context_msg} for {query_str}."
                    |})
                 "What is the letter X?"]
      /\ normal_completion
           (chat Sample2.picky_env Sample.service Sample.messages None
              Sample.world).1.
Proof.
  assert (Hd : enabled (knowledge_graph (chat_engine_config Sample.service))
               = false) by reflexivity.
  assert (Ho : (_chat_open Sample2.picky_env Sample.service Sample.messages
                  None Sample.world).2 = Value Sample.opened_state)
    by (vm_compute; reflexivity).
  assert (Ha : answers_without_graph Sample2.picky_env Sample.service
                 Sample.opened_state
                 (_chat_open Sample2.picky_env Sample.service Sample.messages
                    None Sample.world).1.2
                 "llm" "fast-llm"
                 {| template := "Rewrite the question on its own." |}
                 {| template := "Answer {query_str} from {context_str}." |}
                 {| template :=
                      "Refine {existing_answer} with {context_msg} for {query_str}."
                 |}
                 "What is the letter X?" Sample.response).
  { constructor; try reflexivity; intros; reflexivity. }
  assert (Hh : healthy_opening Sample2.picky_env Sample.service).
  { constructor; try (intros; reflexivity).
    intros w. cbn [uuid4 Sample2.picky_env Sample2.variant Sample.env].
    apply not_elem_of_dom. apply is_fresh. }
  assert (Hne : Sample.messages <> []) by discriminate.
  split; [exact Hd|]. split; [reflexivity|]. split; [exact Hh|].
  split.
  { apply (proj1 (proj2 (knowledge_graph_disabled_turn Sample2.picky_env
                           Sample.service Sample.messages None Sample.world
                           Hd)) Hh eq_refl Hne).
    intros id Hid. discriminate Hid. }
  split; [exact Ho|]. split; [exact Ha|].
  exact (proj2 (proj2 (knowledge_graph_disabled_turn Sample2.picky_env
                         Sample.service Sample.messages None Sample.world
                         Hd))
           _ _ _ _ _ _ _ _ Ho Ha).
Defined.

Lemma final_message_is_streamed_answer_witness :
  (_chat (Sample.env true None) Sample.service Sample.messages None
     Sample.world).2 = Value tt
  /\ exists st docs words final,
      (chat (Sample.env true None) Sample.service Sample.messages None
         Sample.world).1
      = progress_events st docs words ++ closing_events st final
      /\ DBChatMessage.content final = join words
      /\ DBChatMessage.sources final = docs
      /\ is_Some (DBChatMessage.updated_at final)
      /\ is_Some (DBChatMessage.finished_at final)
      /\ DBChatMessage.id final = DBChatMessage.id (db_assistant_message st)
      /\ DBChatMessage.chat_id final
         = DBChatMessage.chat_id (db_assistant_message st)
      /\ DBChatMessage.role final
         = DBChatMessage.role (db_assistant_message st)
      /\ DBChatMessage.ordinal final
         = DBChatMessage.ordinal (db_assistant_message st)
      /\ DBChatMessage.trace_url final
         = DBChatMessage.trace_url (db_assistant_message st).
Proof.
  assert (H : (_chat (Sample.env true None) Sample.service Sample.messages
                 None Sample.world).2 = Value tt)
    by (vm_compute; reflexivity).
  split; [exact H|].
  exact (final_message_is_streamed_answer _ _ _ _ _ _ H).
Defined.

Lemma refined_question_reaches_query_engine_witness :
  (_chat (Sample.env true None) Sample.service Sample.messages None
     Sample.world).2 = Value tt
  /\ exists w1 graph_calls _llm _fast_llm prompt refined text_qa refine
           response,
      get_llama_llm (Sample.env true None)
        (chat_engine_config Sample.service) w1 = inr _llm
      /\ get_fast_llama_llm (Sample.env true None)
           (chat_engine_config Sample.service) w1 = inr _fast_llm
      /\ predict (Sample.env true None) _fast_llm prompt = inr refined
      /\ query (Sample.env true None)
           (query_engine_args Sample.service _llm text_qa refine) refined
         = inr response
      /\ calls (chat (Sample.env true None) Sample.service Sample.messages
                  None Sample.world).2
         = calls Sample.world ++ graph_calls
           ++ [CallPredict _fast_llm prompt;
               CallQuery
                 (query_engine_args Sample.service _llm text_qa refine)
                 refined]
      /\ forallb is_graph_call graph_calls = true
      /\ length graph_calls <= 1
      /\ (enabled (knowledge_graph (chat_engine_config Sample.service))
          = false -> graph_calls = []).
Proof.
  assert (H : (_chat (Sample.env true None) Sample.service Sample.messages
                 None Sample.world).2 = Value tt)
    by (vm_compute; reflexivity).
  split; [exact H|].
  exact (refined_question_reaches_query_engine _ _ _ _ _ _ H).
Defined.

Lemma error_after_sources_keeps_fragments_witness :
  (_chat Sample2.broken_env Sample.service Sample.messages None
     Sample.world).2 = Raised (UpstreamError "stream lost")
  /\ count (is_state SOURCE_NODES)
       (chat Sample2.broken_env Sample.service Sample.messages None
          Sample.world).1 = 1
  /\ count is_text
       (chat Sample2.broken_env Sample.service Sample.messages None
          Sample.world).1 = 2
  /\ exists st docs _llm text_qa refine refined response earlier,
      query Sample2.broken_env
        (query_engine_args Sample.service _llm text_qa refine) refined
      = inr response
      /\ calls (chat Sample2.broken_env Sample.service Sample.messages None
                  Sample.world).2
         = calls Sample.world ++ earlier
           ++ [CallQuery
                 (query_engine_args Sample.service _llm text_qa refine)
                 refined]
      /\ (chat Sample2.broken_env Sample.service Sample.messages None
            Sample.world).1
         = progress_events st docs (words_of (response_gen response))
           ++ [error_part generic_error].
Proof.
  assert (H1 : (_chat Sample2.broken_env Sample.service Sample.messages None
                  Sample.world).2 = Raised (UpstreamError "stream lost"))
    by (vm_compute; reflexivity).
  assert (H2 : count (is_state SOURCE_NODES)
                 (chat Sample2.broken_env Sample.service Sample.messages None
                    Sample.world).1 = 1)
    by (vm_compute; reflexivity).
  split; [exact H1|]. split; [exact H2|].
  split; [vm_compute; reflexivity|].
  exact (error_after_sources_keeps_fragments _ _ _ _ _ _ H1 H2).
Defined.

Lemma completed_turn_updates_one_row_witness :
  (_chat (Sample.env true None) Sample.service Sample.messages None
     Sample.world).2 = Value tt
  /\ exists st docs words final ms,
      (chat (Sample.env true None) Sample.service Sample.messages None
         Sample.world).1
      = progress_events st docs words ++ closing_events st final
      /\ chat_messages
           (_chat_open (Sample.env true None) Sample.service Sample.messages
              None Sample.world).1.2
         = ms ++ [db_user_message st; db_assistant_message st]
      /\ chat_messages
           (chat (Sample.env true None) Sample.service Sample.messages None
              Sample.world).2
         = ms ++ [db_user_message st; final]
      /\ chats (chat (Sample.env true None) Sample.service Sample.messages
                  None Sample.world).2
         = chats (_chat_open (Sample.env true None) Sample.service
                    Sample.messages None Sample.world).1.2
      /\ pending (chat (Sample.env true None) Sample.service Sample.messages
                    None Sample.world).2 = [].
Proof.
  assert (H : (_chat (Sample.env true None) Sample.service Sample.messages
                 None Sample.world).2 = Value tt)
    by (vm_compute; reflexivity).
  split; [exact H|].
  exact (completed_turn_updates_one_row _ _ _ _ _ _ H).
Defined.

Lemma existing_chat_turn_keeps_chats_witness :
  forallb is_message_row (pending Sample2.second_world) = true
  /\ is_Some (chats Sample2.second_world !! 0%N)
  /\ chats (chat (Sample.env true None) Sample.service Sample.messages
              (Some 0%N) Sample2.second_world).2
     = chats Sample2.second_world.
Proof.
  assert (H : forallb is_message_row (pending Sample2.second_world) = true)
    by (vm_compute; reflexivity).
  split; [exact H|]. split; [vm_compute; eexists; reflexivity|].
  exact (existing_chat_turn_keeps_chats _ _ _ _ _ H).
Defined.

Lemma chat_repo_create_then_get_witness :
  (chat_repo_create (Sample.env true None) Sample.chat_row Sample.world).2
    = Value Sample.chat_row
  /\ db_fault (Sample.env true None) OpGet
       (chat_repo_create (Sample.env true None) Sample.chat_row
          Sample.world).1.2 = None
  /\ Sample.chat_row = Sample.chat_row
  /\ (chat_repo_get (Sample.env true None) (DBChat.id Sample.chat_row)
        (chat_repo_create (Sample.env true None) Sample.chat_row
           Sample.world).1.2).2
     = Value (Some Sample.chat_row).
Proof.
  assert (H1 : (chat_repo_create (Sample.env true None) Sample.chat_row
                  Sample.world).2 = Value Sample.chat_row)
    by (vm_compute; reflexivity).
  assert (H2 : db_fault (Sample.env true None) OpGet
                 (chat_repo_create (Sample.env true None) Sample.chat_row
                    Sample.world).1.2 = None)
    by reflexivity.
  split; [exact H1|]. split; [exact H2|].
  exact (chat_repo_create_then_get _ _ _ _ H1 H2).
Defined.

Lemma new_chat_record_witness :
  (_chat_open (Sample.env true None) Sample.service Sample2.cjk_messages None
     Sample.world).2 = Value Sample2.cjk_opened_state
  /\ String.length Sample2.cjk_question = 120
  /\ PyStr.len (user_question Sample2.cjk_opened_state) = 40
  /\ DBChat.title (db_chat_obj Sample2.cjk_opened_state)
     = user_question Sample2.cjk_opened_state.
Proof.
  assert (H : (_chat_open (Sample.env true None) Sample.service
                 Sample2.cjk_messages None Sample.world).2
              = Value Sample2.cjk_opened_state)
    by (vm_compute; reflexivity).
  assert (Hlen : PyStr.len (user_question Sample2.cjk_opened_state) = 40)
    by (vm_compute; reflexivity).
  split; [exact H|]. split; [vm_compute; reflexivity|]. split; [exact Hlen|].
  destruct (new_chat_record _ _ _ _ _ H)
    as (m & _ & _ & _ & _ & _ & _ & Hwhole & _).
  apply Hwhole. rewrite Hlen. repeat constructor.
Defined.

Lemma existing_chat_ignores_supplied_history_witness :
  last Sample.messages
    = Some {| ChatMessage.role := "user";
              ChatMessage.content := "What is X?" |}
  /\ last Sample2.longer_messages
     = Some {| ChatMessage.role := "user";
               ChatMessage.content := "What is X?" |}
  /\ chat (Sample.env true None) Sample.service Sample.messages (Some 0%N)
       Sample2.second_world
     = chat (Sample.env true None) Sample.service Sample2.longer_messages
         (Some 0%N) Sample2.second_world.
Proof.
  assert (H1 : last Sample.messages
               = Some {| ChatMessage.role := "user";
                         ChatMessage.content := "What is X?" |})
    by reflexivity.
  assert (H2 : last Sample2.longer_messages
               = Some {| ChatMessage.role := "user";
                         ChatMessage.content := "What is X?" |})
    by reflexivity.
  split; [exact H1|]. split; [exact H2|].
  exact (existing_chat_ignores_supplied_history _ _ _ _ _ _ _ _ H1 H2
           eq_refl).
Defined.

Lemma tracing_agrees_with_optional_check_witness :
  ChatService_init (Sample.env true (Some "reranker")) Sample.world None
    "browser-1" "default" = inr Sample.reranked_service
  /\ check_rag_optional_config (Sample.env true (Some "reranker")) (inr 1%Z)
     = inr (enable_langfuse Sample.reranked_service, true).
Proof.
  assert (H : ChatService_init (Sample.env true (Some "reranker"))
                Sample.world None "browser-1" "default"
              = inr Sample.reranked_service) by reflexivity.
  split; [exact H|].
  pose proof (tracing_agrees_with_optional_check _ _ _ _ _ _ (inr 1%Z) H)
    as Hcheck.
  destruct (check_rag_optional_config (Sample.env true (Some "reranker"))
              (inr 1%Z)) as [e|[langfuse reranker]].
  - discriminate Hcheck.
  - destruct Hcheck as (-> & n & [= <-] & ->). reflexivity.
Defined.
